(** * The Max Walker cricket simulator: a model of the match engine

    This development embeds the engine of [max_walker_cricket_game.py]
    (classes [Player] and [Match]) and checks the properties the
    specification states about it.

    Conventions of the embedding.
    - Python [int] is [Z]; list positions are [nat]; [str] is [string].
    - Dictionaries that the engine mutates are [gmap]s; the constant charts
      are association lists read with [dict_get].
    - [Player] objects live in the two team lists and are shared by
      reference; a reference is a [PlayerRef], the team number together with
      the position in that team's list.  The two lists are taken to hold
      pairwise distinct objects.
    - The [random] module is a list of pending raw values: [randint] and
      [choice] each take the head (0 once the list is used up).
    - The GUI is present through what the engine reads from it and what
      it shows: the answers of the follow-on dialog and the message boxes
      opened.  Commentary text written to the output pane and the batting
      milestone announcements only produce text and are left out.
    - Both teams have eleven players ([CricketGUI.start_match] refuses
      anything else), so the [IndexError] of a side with fewer than two
      players is not represented. *)

From stdpp Require Import gmap strings list fin_maps.
From Stdlib Require Import ZArith Ascii.

Local Open Scope Z_scope.

(** ** Python primitives used by the engine *)

Definition lower_ascii (c : ascii) : ascii :=
  let n := nat_of_ascii c in
  if ((65 <=? n) && (n <=? 90))%nat then ascii_of_nat (n + 32) else c.

(** [str.lower] (the engine only lowers ASCII text). *)
Fixpoint lower (s : string) : string :=
  match s with
  | EmptyString => EmptyString
  | String c s' => String (lower_ascii c) (lower s')
  end.

Definition is_space (c : ascii) : bool :=
  let n := nat_of_ascii c in
  (((9 <=? n) && (n <=? 13)) || ((28 <=? n) && (n <=? 32)))%nat.

Fixpoint lstrip (s : string) : string :=
  match s with
  | EmptyString => EmptyString
  | String c s' => if is_space c then lstrip s' else s
  end.

Fixpoint string_rev (s : string) : string :=
  match s with
  | EmptyString => EmptyString
  | String c s' => string_rev s' +:+ String c EmptyString
  end.

(** [str.strip] *)
Definition strip (s : string) : string :=
  string_rev (lstrip (string_rev (lstrip s))).

(** [needle in hay] on strings *)
Fixpoint contains (needle hay : string) : bool :=
  String.prefix needle hay ||
  match hay with
  | EmptyString => false
  | String _ hay' => contains needle hay'
  end.

Definition digit_value (c : ascii) : option Z :=
  let n := nat_of_ascii c in
  if ((48 <=? n) && (n <=? 57))%nat then Some (Z.of_nat (n - 48)) else None.

Fixpoint int_digits (acc : Z) (s : string) : option Z :=
  match s with
  | EmptyString => Some acc
  | String c s' =>
      match digit_value c with
      | Some d => int_digits (10 * acc + d) s'
      | None => None
      end
  end.

(** [int(s)] for a string: [None] stands for [ValueError].  Only unsigned
    decimal numerals are accepted, which covers every cell of the charts. *)
Definition py_int (s : string) : option Z :=
  match s with
  | EmptyString => None
  | _ => int_digits 0 s
  end.

(** [d.get(k, default)] on a constant dictionary literal. *)
Fixpoint dict_get {V : Type} (d : list (string * V)) (k : string) (dflt : V) : V :=
  match d with
  | [] => dflt
  | (k', v) :: d' => if String.eqb k k' then v else dict_get d' k dflt
  end.

(** [l[i] if i < len(l) else other] for a non-negative index. *)
Definition index_or {A : Type} (l : list A) (i : Z) (other : A) : A :=
  default other (l !! Z.to_nat i).

(** [l[-1]], with [dflt] standing for the [IndexError] of an empty list. *)
Definition last_or {A : Type} (l : list A) (dflt : A) : A := List.last l dflt.

(** [random.randint(a, b)] *)
Definition randint (a b : Z) (rng : list nat) : Z * list nat :=
  (a + Z.of_nat (hd 0%nat rng) mod (b - a + 1), tl rng).

(** [random.choice(l)]; [None] stands for the [IndexError] of an empty list. *)
Definition choice {A : Type} (l : list A) (rng : list nat) : option A * list nat :=
  (l !! (hd 0%nat rng mod length l)%nat, tl rng).

(** The two-dice roll [random.randint(1, 6) + random.randint(1, 6)]. *)
Definition roll_2d6 (rng : list nat) : Z * list nat :=
  let '(d1, rng) := randint 1 6 rng in
  let '(d2, rng) := randint 1 6 rng in
  (d1 + d2, rng).

(** ** Data *)

Module Player.
Record t := mk {
  name : string;
  country : string;
  batting_rating : string;
  bowling_rating : option string;
  is_wk : bool;
  runs : Z;
  balls_faced : Z;
  fours : Z;
  sixes : Z;
  how_out : string;
  wickets : Z;
  overs_bowled : Z;
  runs_conceded : Z
}.

Definition set_runs (v : Z) (x : t) : t :=
  mk (name x) (country x) (batting_rating x) (bowling_rating x) (is_wk x) v (balls_faced x)
    (fours x) (sixes x) (how_out x) (wickets x) (overs_bowled x) (runs_conceded x).
Definition set_balls_faced (v : Z) (x : t) : t :=
  mk (name x) (country x) (batting_rating x) (bowling_rating x) (is_wk x) (runs x) v (fours x)
    (sixes x) (how_out x) (wickets x) (overs_bowled x) (runs_conceded x).
Definition set_fours (v : Z) (x : t) : t :=
  mk (name x) (country x) (batting_rating x) (bowling_rating x) (is_wk x) (runs x) (balls_faced
    x) v (sixes x) (how_out x) (wickets x) (overs_bowled x) (runs_conceded x).
Definition set_sixes (v : Z) (x : t) : t :=
  mk (name x) (country x) (batting_rating x) (bowling_rating x) (is_wk x) (runs x) (balls_faced
    x) (fours x) v (how_out x) (wickets x) (overs_bowled x) (runs_conceded x).
Definition set_how_out (v : string) (x : t) : t :=
  mk (name x) (country x) (batting_rating x) (bowling_rating x) (is_wk x) (runs x) (balls_faced
    x) (fours x) (sixes x) v (wickets x) (overs_bowled x) (runs_conceded x).
Definition set_wickets (v : Z) (x : t) : t :=
  mk (name x) (country x) (batting_rating x) (bowling_rating x) (is_wk x) (runs x) (balls_faced
    x) (fours x) (sixes x) (how_out x) v (overs_bowled x) (runs_conceded x).
Definition set_overs_bowled (v : Z) (x : t) : t :=
  mk (name x) (country x) (batting_rating x) (bowling_rating x) (is_wk x) (runs x) (balls_faced
    x) (fours x) (sixes x) (how_out x) (wickets x) v (runs_conceded x).
Definition set_runs_conceded (v : Z) (x : t) : t :=
  mk (name x) (country x) (batting_rating x) (bowling_rating x) (is_wk x) (runs x) (balls_faced
    x) (fours x) (sixes x) (how_out x) (wickets x) (overs_bowled x) v.
End Player.

Abbreviation Player := Player.t.

(** A reference to a [Player] object: team number (1 or 2) and position in
    that team's list. *)
Abbreviation PlayerRef := (Z * nat)%type.

(** An entry of [LOOSE_BALL_CARDS]; the three flags are keys that most
    entries do not have ([None]). *)
Module Card.
Record t := mk {
  text : string;
  out : option string;
  method : option string;
  batsman_runs : Z;
  bowler_runs : Z;
  extras_runs : Z;
  score_inc : Z;
  no_ball : option bool;
  extra_ball : option bool;
  retired_hurt : option bool
}.
End Card.

(** The dictionary built by [_loose_ball_payload], without its ["type"]. *)
Module Payload.
Record t := mk {
  text : string;
  out : option string;
  method : option string;
  batsman_runs : Z;
  bowler_runs : Z;
  extras_runs : Z;
  score_inc : Z;
  no_ball : bool;
  extra_ball : bool;
  retired_hurt : bool
}.
End Payload.

(** What [simulate_ball] may hand to [start_over]: an [int], a [str], a
    dictionary whose ["type"] is ["Appeal"] with its ["appeal_result"], or
    a dictionary carrying a ["type"] and the payload keys. *)
Inductive Outcome :=
| OInt (n : Z)
| OStr (s : string)
| OAppeal (appeal_result : string) (method : option string) (card : option Payload.t)
| ODict (type : string) (p : Payload.t).

Module Phase.
Record t := mk { start : Z; end_ : Z; bat : Z; bowl : Z }.
End Phase.

Module Condition.
Record t := mk {
  text : string;
  weight : Z;
  overs_lost_start : Z;
  overs_lost_end : Z;
  no_play : bool;
  phases : list Phase.t
}.
End Condition.

Module BatRow.
Record t := mk { name : string; runs : Z; balls : Z; fours : Z; sixes : Z; how_out : string }.
End BatRow.

Module BowlRow.
Record t := mk { name : string; overs : Z; runs : Z; wkts : Z }.
End BowlRow.

(** An entry of [innings_summaries] (without the team's display name, which
    comes from the GUI). *)
Module Summary.
Record t := mk {
  innings : Z;
  runs : Z;
  wickets : Z;
  overs : Z;
  extras : Z;
  extras_b : Z;
  extras_lb : Z;
  extras_nb : Z;
  extras_w : Z;
  fow : list (Z * Z);
  batting_rows : list BatRow.t;
  bowling_rows : list BowlRow.t
}.
End Summary.

(** The margin of a win: the source formats it as ["N wickets"],
    ["N runs"] or ["an innings and N runs"]. *)
Inductive Margin :=
| Wickets (n : Z)
| Runs (n : Z)
| InningsAndRuns (n : Z).

(** [result_summary] *)
Inductive ResultSummary :=
| Draw
| Tie
| Win (winner : Z) (margin : Margin).

(** A message box opened by the engine. *)
Inductive Dialog :=
| ShowError (title message : string)
| AskYesNo (title : string) (lead : Z).

(** ** The charts and decks *)

Definition BATTING_CHART : list (string * list string) :=
  [("A", [""; ""; "*"; "1"; "4"; "6"; "4"; "4"; "6"; "2"; "3"; "*"; "Loose Ball"]);
   ("B", [""; ""; "2"; "*"; "6"; "4"; "3"; "4"; "4"; "6"; "3"; "*"; "Loose Ball"]);
   ("C", [""; ""; "*"; "*"; "6"; "2"; "3"; "4"; "4"; "6"; "3"; "*"; "Loose Ball"]);
   ("D", [""; ""; "*"; "*"; "4"; "3"; "6"; "4"; "3"; "4"; "*"; "3"; "Loose Ball"]);
   ("E", [""; ""; "*"; "*"; "1"; "2"; "3"; "4"; "4"; "3"; "*"; "4"; "Loose Ball"]);
   ("F", [""; ""; "0"; "*"; "3"; "4"; "2"; "1"; "2"; "2"; "*"; "*"; "Loose Ball"]);
   ("G", [""; ""; "3"; "*"; "0"; "*"; "1"; "0"; "2"; "1"; "*"; "4"; "Loose Ball"])].

Definition BOWLER_WICKET_CHART : list (string * list string) :=
  [("A", [""; ""; "No ball"; "LBW"; "Caught WK"; "Caught"; "Not out"; "Bowled"; "Not out"; "Caught"; "LBW"; "Caught WK"; "Loose Ball"]);
   ("B", [""; ""; "No ball"; "LBW"; "Caught"; "Not out"; "Not out"; "Bowled"; "Not out"; "Caught WK"; "Stumped WK"; "LBW"; "Loose Ball"]);
   ("C", [""; ""; "No ball"; "Not out"; "Stumped WK"; "Not out"; "Caught"; "Not out"; "Bowled"; "Not out"; "LBW"; "Not out"; "Loose Ball"]);
   ("D", [""; ""; "No ball"; "Caught"; "Bowled"; "Not out"; "Not out"; "Not out"; "Not out"; "Caught"; "LBW"; "Not out"; "Loose Ball"]);
   ("E", [""; ""; "No ball"; "Caught"; "Not out"; "Caught"; "Not out"; "Not out"; "Not out"; "Not out"; "Not out"; "Bowled"; "Loose Ball"])].

Definition LOOSE_BALL_CARDS : list Card.t :=
  [Card.mk "Quick single - run out at bowler's end" (Some "striker") (Some "Run Out") 0 0 0 2 (None) (None) (None);
   Card.mk "Wicketkeeper fails to take ball - 2 byes" (None) (None) 0 0 2 2 (None) (None) (None);
   Card.mk "Wicketkeeper fails to take ball - 4 byes" (None) (None) 0 0 4 4 (None) (None) (None);
   Card.mk "Bouncer edged to slips - caught" (Some "striker") (Some "Caught") 0 0 0 0 (None) (None) (None);
   Card.mk "No ball" (None) (None) 0 1 1 1 (None) (Some true) (None);
   Card.mk "Batsman attempting 3rd run - run out 2 runs" (Some "striker") (Some "Run Out") 2 2 0 2 (None) (None) (None);
   Card.mk "Leg glance mistimed - caught" (Some "striker") (Some "Caught") 0 0 0 0 (None) (None) (None);
   Card.mk "Poor return to wicketkeeper - 2 overthrows" (None) (None) 2 2 0 2 (None) (None) (None);
   Card.mk "Hook shot - catch dropped, 2 runs" (None) (None) 2 2 0 2 (None) (None) (None);
   Card.mk "Batsman hit by bouncer - retired hurt" (None) (None) 0 0 0 0 (None) (None) (Some true);
   Card.mk "Leg glance - 4 leg byes" (None) (None) 0 0 4 4 (None) (None) (None);
   Card.mk "Leg glance - 4 runs" (None) (None) 4 4 0 4 (None) (None) (None);
   Card.mk "Bouncer edged to wicketkeeper - caught" (Some "striker") (Some "Caught") 0 0 0 0 (None) (None) (None);
   Card.mk "Hook shot - 6 runs" (None) (None) 6 6 0 6 (None) (None) (None);
   Card.mk "Bouncer edged - catch dropped" (None) (None) 0 0 0 0 (None) (None) (None);
   Card.mk "Silly mid-on - catch dropped" (None) (None) 0 0 0 0 (None) (None) (None);
   Card.mk "Edged through slips - 4 runs" (None) (None) 4 4 0 4 (None) (None) (None);
   Card.mk "Edged to wicketkeeper - caught" (Some "striker") (Some "Caught") 0 0 0 0 (None) (None) (None);
   Card.mk "Ball keeps low - LBW" (Some "striker") (Some "LBW") 0 0 0 0 (None) (None) (None);
   Card.mk "Silly mid-on - caught" (Some "striker") (Some "Caught") 0 0 0 0 (None) (None) (None)].

Definition MATCH_CONDITION_TEMPLATES : list Condition.t :=
  [Condition.mk "Normal conditions apply throughout the day."
     28 0 0 false
     [Phase.mk 1 16 (0) (0)];
   Condition.mk "Wearing pitch and defensive batting assists bowlers. Reduce batsmen ratings by 1 for the last 8 overs."
     1 0 0 false
     [Phase.mk 1 8 (0) (0); Phase.mk 9 16 (-1) (0)];
   Condition.mk "Midday rain affects pitch. Reduce each batsman rating by 1 for the last 8 overs."
     1 0 0 false
     [Phase.mk 1 8 (0) (0); Phase.mk 9 16 (-1) (0)];
   Condition.mk "Overcast conditions favour bowlers for the first 5 overs. Reduce batsmen ratings by 1 for this period, then revert to normal conditions."
     1 0 0 false
     [Phase.mk 1 5 (-1) (0); Phase.mk 6 16 (0) (0)];
   Condition.mk "No play today - constant heavy rain."
     1 16 0 true
     [];
   Condition.mk "Rain prevents play all day."
     1 16 0 true
     [];
   Condition.mk "Conditions perfect for batting. Reduce each bowler's rating by 1 for the entire day's play."
     1 0 0 false
     [Phase.mk 1 16 (0) (-1)];
   Condition.mk "Overcast conditions assist bowlers for the first 8 overs. Reduce each batsman rating by 1 for the first 10 overs then normal conditions apply."
     1 0 0 false
     [Phase.mk 1 10 (-1) (0); Phase.mk 11 16 (0) (0)];
   Condition.mk "Rain delays the start of play by 8 overs. Pitch favours the bowlers for the rest of the day. Reduce each batsman rating by 1."
     1 8 0 false
     [Phase.mk 1 16 (-1) (0)];
   Condition.mk "Hot conditions tiring for the bowlers. Reduce bowlers rating by 1 for the last 4 overs of the day."
     1 0 0 false
     [Phase.mk 1 12 (0) (0); Phase.mk 13 16 (0) (-1)];
   Condition.mk "Bad light stops play three overs early. Play during the available time is under normal conditions."
     1 0 3 false
     [Phase.mk 1 16 (0) (0)];
   Condition.mk "Ideal batting conditions. Reduce each bowler's rating by 1 for the whole day."
     2 0 0 false
     [Phase.mk 1 16 (0) (-1)];
   Condition.mk "Good conditions for batting. Conditions normal for 8 overs, then reduce each bowler's rating by 1."
     1 0 0 false
     [Phase.mk 1 8 (0) (0); Phase.mk 9 16 (0) (-1)];
   Condition.mk "Rain on pitch assists bowlers. Reduce each batsman rating by 1 for the entire day's play."
     1 0 0 false
     [Phase.mk 1 16 (-1) (0)];
   Condition.mk "Rain delays play. 5 overs lost. Normal conditions apply once play commences."
     1 5 0 false
     [Phase.mk 1 16 (0) (0)];
   Condition.mk "Fast pitch ideal for bowling team. Reduce each batsman rating by 1 for the entire day."
     1 0 0 false
     [Phase.mk 1 16 (-1) (0)];
   Condition.mk "Pitch improving during the day. Normal conditions apply for the first 8 overs, then reduce bowlers ratings by 1 for the remainder of the day."
     1 0 0 false
     [Phase.mk 1 8 (0) (0); Phase.mk 9 16 (0) (-1)];
   Condition.mk "Humid conditions favour the bowlers. Reduce each batsman rating by 1 for the entire day's play."
     1 0 0 false
     [Phase.mk 1 16 (-1) (0)];
   Condition.mk "Rain delays start of play by 8 overs. Normal conditions apply once play commences."
     1 8 0 false
     [Phase.mk 1 16 (0) (0)];
   Condition.mk "Afternoon rain affects the pitch and assists bowlers. Reduce batsman ratings by 1 for the last 4 overs."
     1 0 0 false
     [Phase.mk 1 12 (0) (0); Phase.mk 13 16 (-1) (0)];
   Condition.mk "Weather conditions have made ideal batting. Reduce each bowler's rating by 1 for the entire day."
     1 0 0 false
     [Phase.mk 1 16 (0) (-1)];
   Condition.mk "Hot weather tiring for the bowlers. Reduce bowlers rating by 1 for the last 8 overs."
     1 0 0 false
     [Phase.mk 1 8 (0) (0); Phase.mk 9 16 (0) (-1)];
   Condition.mk "No play today. Incessant rain."
     1 16 0 true
     [];
   Condition.mk "Heavy overnight rain continuing today. No play for the entire day."
     1 16 0 true
     [];
   Condition.mk "Heavy rain falling. No play for the entire day."
     1 16 0 true
     [];
   Condition.mk "Rain delays play. 5 overs lost. Pitch favours bowlers for the first 5 overs. Reduce each batsman rating by 1."
     1 5 0 false
     [Phase.mk 1 5 (-1) (0); Phase.mk 6 16 (0) (0)];
   Condition.mk "Overnight rain seeped under the covers. Pitch favours bowlers for the whole day. Reduce each batsman rating by 1."
     1 0 0 false
     [Phase.mk 1 16 (-1) (0)];
   Condition.mk "Good conditions for cricket, with pitch improving. Conditions normal for the first 8 overs, then reduce bowlers rating by 1."
     1 0 0 false
     [Phase.mk 1 8 (0) (0); Phase.mk 9 16 (0) (-1)]].

Definition RATINGS_ORDER : list string := ["A"; "B"; "C"; "D"; "E"; "F"; "G"].

(** [MATCH_CONDITIONS_DECK]: every template repeated [weight] times. *)
Definition MATCH_CONDITIONS_DECK : list Condition.t :=
  flat_map
    (fun c =>
       let w := if Condition.weight c =? 0 then 1 else Condition.weight c in
       replicate (Z.to_nat (Z.max 1 w)) c)
    MATCH_CONDITION_TEMPLATES.

Definition DAY_OVERS : Z := 16.
Definition MAX_DAYS : Z := 5.

(** ** The match object *)

Record Match := mkMatch {
  team1 : list Player;
  team2 : list Player;
  random : list nat;  (* values the random module will return next *)
  gui_askyesno : list bool;  (* answers the follow-on dialog will give next *)
  gui_dialogs : list Dialog;  (* message boxes shown so far *)
  _hattrick_count : Z;
  _hattrick_pending_bowler : option PlayerRef;
  _last_ball_was_bowler_wicket : bool;
  _last_wicket_bowler : option PlayerRef;
  innings_declared : bool;
  retired_hurt_pending : list PlayerRef;
  retired_hurt_returning : list PlayerRef;
  retired_hurt_priority : bool;
  _wk_name_by_innings : gmap Z string;
  innings : Z;
  runs : Z;
  wickets_taken : Z;
  overs_completed : Z;
  overs_per_session : Z;
  session_overs_completed : Z;
  session_number : Z;
  last_bowler : option string;
  current_batsmen : list PlayerRef;
  next_batsman_index : nat;
  bowler : option PlayerRef;
  bowler_overs_session : gmap string Z;
  bowler_overs_today : gmap string Z;
  match_over : bool;
  result_summary : option ResultSummary;
  extras : Z;
  extras_nb : Z;
  extras_b : Z;
  extras_lb : Z;
  extras_w : Z;
  innings_summaries : gmap Z Summary.t;
  innings_batting_team : gmap Z Z;
  follow_on_enforced : bool;
  follow_on_threshold : Z;
  fow : list (Z * Z);
  current_over_legal_balls : Z;
  _limits_session_number : Z;
  current_conditions : option Condition.t;
  day_counter : Z;
  current_day : Z;
  day_overs_target : Z;
  day_overs_scheduled : Z;
  overs_in_day : Z;
  day_no_play : bool;
  day_overs_lost_start : Z;
  day_overs_lost_end : Z
}.

Definition set_team1 (v : list Player) (x : Match) : Match :=
  mkMatch v (team2 x) (random x) (gui_askyesno x) (gui_dialogs x) (_hattrick_count x)
    (_hattrick_pending_bowler x) (_last_ball_was_bowler_wicket x) (_last_wicket_bowler x)
    (innings_declared x) (retired_hurt_pending x) (retired_hurt_returning x)
    (retired_hurt_priority x) (_wk_name_by_innings x) (innings x) (runs x) (wickets_taken x)
    (overs_completed x) (overs_per_session x) (session_overs_completed x) (session_number x)
    (last_bowler x) (current_batsmen x) (next_batsman_index x) (bowler x) (bowler_overs_session
    x) (bowler_overs_today x) (match_over x) (result_summary x) (extras x) (extras_nb x)
    (extras_b x) (extras_lb x) (extras_w x) (innings_summaries x) (innings_batting_team x)
    (follow_on_enforced x) (follow_on_threshold x) (fow x) (current_over_legal_balls x)
    (_limits_session_number x) (current_conditions x) (day_counter x) (current_day x)
    (day_overs_target x) (day_overs_scheduled x) (overs_in_day x) (day_no_play x)
    (day_overs_lost_start x) (day_overs_lost_end x).
Definition set_team2 (v : list Player) (x : Match) : Match :=
  mkMatch (team1 x) v (random x) (gui_askyesno x) (gui_dialogs x) (_hattrick_count x)
    (_hattrick_pending_bowler x) (_last_ball_was_bowler_wicket x) (_last_wicket_bowler x)
    (innings_declared x) (retired_hurt_pending x) (retired_hurt_returning x)
    (retired_hurt_priority x) (_wk_name_by_innings x) (innings x) (runs x) (wickets_taken x)
    (overs_completed x) (overs_per_session x) (session_overs_completed x) (session_number x)
    (last_bowler x) (current_batsmen x) (next_batsman_index x) (bowler x) (bowler_overs_session
    x) (bowler_overs_today x) (match_over x) (result_summary x) (extras x) (extras_nb x)
    (extras_b x) (extras_lb x) (extras_w x) (innings_summaries x) (innings_batting_team x)
    (follow_on_enforced x) (follow_on_threshold x) (fow x) (current_over_legal_balls x)
    (_limits_session_number x) (current_conditions x) (day_counter x) (current_day x)
    (day_overs_target x) (day_overs_scheduled x) (overs_in_day x) (day_no_play x)
    (day_overs_lost_start x) (day_overs_lost_end x).
Definition set_random (v : list nat) (x : Match) : Match :=
  mkMatch (team1 x) (team2 x) v (gui_askyesno x) (gui_dialogs x) (_hattrick_count x)
    (_hattrick_pending_bowler x) (_last_ball_was_bowler_wicket x) (_last_wicket_bowler x)
    (innings_declared x) (retired_hurt_pending x) (retired_hurt_returning x)
    (retired_hurt_priority x) (_wk_name_by_innings x) (innings x) (runs x) (wickets_taken x)
    (overs_completed x) (overs_per_session x) (session_overs_completed x) (session_number x)
    (last_bowler x) (current_batsmen x) (next_batsman_index x) (bowler x) (bowler_overs_session
    x) (bowler_overs_today x) (match_over x) (result_summary x) (extras x) (extras_nb x)
    (extras_b x) (extras_lb x) (extras_w x) (innings_summaries x) (innings_batting_team x)
    (follow_on_enforced x) (follow_on_threshold x) (fow x) (current_over_legal_balls x)
    (_limits_session_number x) (current_conditions x) (day_counter x) (current_day x)
    (day_overs_target x) (day_overs_scheduled x) (overs_in_day x) (day_no_play x)
    (day_overs_lost_start x) (day_overs_lost_end x).
Definition set_gui_askyesno (v : list bool) (x : Match) : Match :=
  mkMatch (team1 x) (team2 x) (random x) v (gui_dialogs x) (_hattrick_count x)
    (_hattrick_pending_bowler x) (_last_ball_was_bowler_wicket x) (_last_wicket_bowler x)
    (innings_declared x) (retired_hurt_pending x) (retired_hurt_returning x)
    (retired_hurt_priority x) (_wk_name_by_innings x) (innings x) (runs x) (wickets_taken x)
    (overs_completed x) (overs_per_session x) (session_overs_completed x) (session_number x)
    (last_bowler x) (current_batsmen x) (next_batsman_index x) (bowler x) (bowler_overs_session
    x) (bowler_overs_today x) (match_over x) (result_summary x) (extras x) (extras_nb x)
    (extras_b x) (extras_lb x) (extras_w x) (innings_summaries x) (innings_batting_team x)
    (follow_on_enforced x) (follow_on_threshold x) (fow x) (current_over_legal_balls x)
    (_limits_session_number x) (current_conditions x) (day_counter x) (current_day x)
    (day_overs_target x) (day_overs_scheduled x) (overs_in_day x) (day_no_play x)
    (day_overs_lost_start x) (day_overs_lost_end x).
Definition set_gui_dialogs (v : list Dialog) (x : Match) : Match :=
  mkMatch (team1 x) (team2 x) (random x) (gui_askyesno x) v (_hattrick_count x)
    (_hattrick_pending_bowler x) (_last_ball_was_bowler_wicket x) (_last_wicket_bowler x)
    (innings_declared x) (retired_hurt_pending x) (retired_hurt_returning x)
    (retired_hurt_priority x) (_wk_name_by_innings x) (innings x) (runs x) (wickets_taken x)
    (overs_completed x) (overs_per_session x) (session_overs_completed x) (session_number x)
    (last_bowler x) (current_batsmen x) (next_batsman_index x) (bowler x) (bowler_overs_session
    x) (bowler_overs_today x) (match_over x) (result_summary x) (extras x) (extras_nb x)
    (extras_b x) (extras_lb x) (extras_w x) (innings_summaries x) (innings_batting_team x)
    (follow_on_enforced x) (follow_on_threshold x) (fow x) (current_over_legal_balls x)
    (_limits_session_number x) (current_conditions x) (day_counter x) (current_day x)
    (day_overs_target x) (day_overs_scheduled x) (overs_in_day x) (day_no_play x)
    (day_overs_lost_start x) (day_overs_lost_end x).
Definition set__hattrick_count (v : Z) (x : Match) : Match :=
  mkMatch (team1 x) (team2 x) (random x) (gui_askyesno x) (gui_dialogs x) v
    (_hattrick_pending_bowler x) (_last_ball_was_bowler_wicket x) (_last_wicket_bowler x)
    (innings_declared x) (retired_hurt_pending x) (retired_hurt_returning x)
    (retired_hurt_priority x) (_wk_name_by_innings x) (innings x) (runs x) (wickets_taken x)
    (overs_completed x) (overs_per_session x) (session_overs_completed x) (session_number x)
    (last_bowler x) (current_batsmen x) (next_batsman_index x) (bowler x) (bowler_overs_session
    x) (bowler_overs_today x) (match_over x) (result_summary x) (extras x) (extras_nb x)
    (extras_b x) (extras_lb x) (extras_w x) (innings_summaries x) (innings_batting_team x)
    (follow_on_enforced x) (follow_on_threshold x) (fow x) (current_over_legal_balls x)
    (_limits_session_number x) (current_conditions x) (day_counter x) (current_day x)
    (day_overs_target x) (day_overs_scheduled x) (overs_in_day x) (day_no_play x)
    (day_overs_lost_start x) (day_overs_lost_end x).
Definition set__hattrick_pending_bowler (v : option PlayerRef) (x : Match) : Match :=
  mkMatch (team1 x) (team2 x) (random x) (gui_askyesno x) (gui_dialogs x) (_hattrick_count x) v
    (_last_ball_was_bowler_wicket x) (_last_wicket_bowler x) (innings_declared x)
    (retired_hurt_pending x) (retired_hurt_returning x) (retired_hurt_priority x)
    (_wk_name_by_innings x) (innings x) (runs x) (wickets_taken x) (overs_completed x)
    (overs_per_session x) (session_overs_completed x) (session_number x) (last_bowler x)
    (current_batsmen x) (next_batsman_index x) (bowler x) (bowler_overs_session x)
    (bowler_overs_today x) (match_over x) (result_summary x) (extras x) (extras_nb x) (extras_b
    x) (extras_lb x) (extras_w x) (innings_summaries x) (innings_batting_team x)
    (follow_on_enforced x) (follow_on_threshold x) (fow x) (current_over_legal_balls x)
    (_limits_session_number x) (current_conditions x) (day_counter x) (current_day x)
    (day_overs_target x) (day_overs_scheduled x) (overs_in_day x) (day_no_play x)
    (day_overs_lost_start x) (day_overs_lost_end x).
Definition set__last_ball_was_bowler_wicket (v : bool) (x : Match) : Match :=
  mkMatch (team1 x) (team2 x) (random x) (gui_askyesno x) (gui_dialogs x) (_hattrick_count x)
    (_hattrick_pending_bowler x) v (_last_wicket_bowler x) (innings_declared x)
    (retired_hurt_pending x) (retired_hurt_returning x) (retired_hurt_priority x)
    (_wk_name_by_innings x) (innings x) (runs x) (wickets_taken x) (overs_completed x)
    (overs_per_session x) (session_overs_completed x) (session_number x) (last_bowler x)
    (current_batsmen x) (next_batsman_index x) (bowler x) (bowler_overs_session x)
    (bowler_overs_today x) (match_over x) (result_summary x) (extras x) (extras_nb x) (extras_b
    x) (extras_lb x) (extras_w x) (innings_summaries x) (innings_batting_team x)
    (follow_on_enforced x) (follow_on_threshold x) (fow x) (current_over_legal_balls x)
    (_limits_session_number x) (current_conditions x) (day_counter x) (current_day x)
    (day_overs_target x) (day_overs_scheduled x) (overs_in_day x) (day_no_play x)
    (day_overs_lost_start x) (day_overs_lost_end x).
Definition set__last_wicket_bowler (v : option PlayerRef) (x : Match) : Match :=
  mkMatch (team1 x) (team2 x) (random x) (gui_askyesno x) (gui_dialogs x) (_hattrick_count x)
    (_hattrick_pending_bowler x) (_last_ball_was_bowler_wicket x) v (innings_declared x)
    (retired_hurt_pending x) (retired_hurt_returning x) (retired_hurt_priority x)
    (_wk_name_by_innings x) (innings x) (runs x) (wickets_taken x) (overs_completed x)
    (overs_per_session x) (session_overs_completed x) (session_number x) (last_bowler x)
    (current_batsmen x) (next_batsman_index x) (bowler x) (bowler_overs_session x)
    (bowler_overs_today x) (match_over x) (result_summary x) (extras x) (extras_nb x) (extras_b
    x) (extras_lb x) (extras_w x) (innings_summaries x) (innings_batting_team x)
    (follow_on_enforced x) (follow_on_threshold x) (fow x) (current_over_legal_balls x)
    (_limits_session_number x) (current_conditions x) (day_counter x) (current_day x)
    (day_overs_target x) (day_overs_scheduled x) (overs_in_day x) (day_no_play x)
    (day_overs_lost_start x) (day_overs_lost_end x).
Definition set_innings_declared (v : bool) (x : Match) : Match :=
  mkMatch (team1 x) (team2 x) (random x) (gui_askyesno x) (gui_dialogs x) (_hattrick_count x)
    (_hattrick_pending_bowler x) (_last_ball_was_bowler_wicket x) (_last_wicket_bowler x) v
    (retired_hurt_pending x) (retired_hurt_returning x) (retired_hurt_priority x)
    (_wk_name_by_innings x) (innings x) (runs x) (wickets_taken x) (overs_completed x)
    (overs_per_session x) (session_overs_completed x) (session_number x) (last_bowler x)
    (current_batsmen x) (next_batsman_index x) (bowler x) (bowler_overs_session x)
    (bowler_overs_today x) (match_over x) (result_summary x) (extras x) (extras_nb x) (extras_b
    x) (extras_lb x) (extras_w x) (innings_summaries x) (innings_batting_team x)
    (follow_on_enforced x) (follow_on_threshold x) (fow x) (current_over_legal_balls x)
    (_limits_session_number x) (current_conditions x) (day_counter x) (current_day x)
    (day_overs_target x) (day_overs_scheduled x) (overs_in_day x) (day_no_play x)
    (day_overs_lost_start x) (day_overs_lost_end x).
Definition set_retired_hurt_pending (v : list PlayerRef) (x : Match) : Match :=
  mkMatch (team1 x) (team2 x) (random x) (gui_askyesno x) (gui_dialogs x) (_hattrick_count x)
    (_hattrick_pending_bowler x) (_last_ball_was_bowler_wicket x) (_last_wicket_bowler x)
    (innings_declared x) v (retired_hurt_returning x) (retired_hurt_priority x)
    (_wk_name_by_innings x) (innings x) (runs x) (wickets_taken x) (overs_completed x)
    (overs_per_session x) (session_overs_completed x) (session_number x) (last_bowler x)
    (current_batsmen x) (next_batsman_index x) (bowler x) (bowler_overs_session x)
    (bowler_overs_today x) (match_over x) (result_summary x) (extras x) (extras_nb x) (extras_b
    x) (extras_lb x) (extras_w x) (innings_summaries x) (innings_batting_team x)
    (follow_on_enforced x) (follow_on_threshold x) (fow x) (current_over_legal_balls x)
    (_limits_session_number x) (current_conditions x) (day_counter x) (current_day x)
    (day_overs_target x) (day_overs_scheduled x) (overs_in_day x) (day_no_play x)
    (day_overs_lost_start x) (day_overs_lost_end x).
Definition set_retired_hurt_returning (v : list PlayerRef) (x : Match) : Match :=
  mkMatch (team1 x) (team2 x) (random x) (gui_askyesno x) (gui_dialogs x) (_hattrick_count x)
    (_hattrick_pending_bowler x) (_last_ball_was_bowler_wicket x) (_last_wicket_bowler x)
    (innings_declared x) (retired_hurt_pending x) v (retired_hurt_priority x)
    (_wk_name_by_innings x) (innings x) (runs x) (wickets_taken x) (overs_completed x)
    (overs_per_session x) (session_overs_completed x) (session_number x) (last_bowler x)
    (current_batsmen x) (next_batsman_index x) (bowler x) (bowler_overs_session x)
    (bowler_overs_today x) (match_over x) (result_summary x) (extras x) (extras_nb x) (extras_b
    x) (extras_lb x) (extras_w x) (innings_summaries x) (innings_batting_team x)
    (follow_on_enforced x) (follow_on_threshold x) (fow x) (current_over_legal_balls x)
    (_limits_session_number x) (current_conditions x) (day_counter x) (current_day x)
    (day_overs_target x) (day_overs_scheduled x) (overs_in_day x) (day_no_play x)
    (day_overs_lost_start x) (day_overs_lost_end x).
Definition set_retired_hurt_priority (v : bool) (x : Match) : Match :=
  mkMatch (team1 x) (team2 x) (random x) (gui_askyesno x) (gui_dialogs x) (_hattrick_count x)
    (_hattrick_pending_bowler x) (_last_ball_was_bowler_wicket x) (_last_wicket_bowler x)
    (innings_declared x) (retired_hurt_pending x) (retired_hurt_returning x) v
    (_wk_name_by_innings x) (innings x) (runs x) (wickets_taken x) (overs_completed x)
    (overs_per_session x) (session_overs_completed x) (session_number x) (last_bowler x)
    (current_batsmen x) (next_batsman_index x) (bowler x) (bowler_overs_session x)
    (bowler_overs_today x) (match_over x) (result_summary x) (extras x) (extras_nb x) (extras_b
    x) (extras_lb x) (extras_w x) (innings_summaries x) (innings_batting_team x)
    (follow_on_enforced x) (follow_on_threshold x) (fow x) (current_over_legal_balls x)
    (_limits_session_number x) (current_conditions x) (day_counter x) (current_day x)
    (day_overs_target x) (day_overs_scheduled x) (overs_in_day x) (day_no_play x)
    (day_overs_lost_start x) (day_overs_lost_end x).
Definition set__wk_name_by_innings (v : gmap Z string) (x : Match) : Match :=
  mkMatch (team1 x) (team2 x) (random x) (gui_askyesno x) (gui_dialogs x) (_hattrick_count x)
    (_hattrick_pending_bowler x) (_last_ball_was_bowler_wicket x) (_last_wicket_bowler x)
    (innings_declared x) (retired_hurt_pending x) (retired_hurt_returning x)
    (retired_hurt_priority x) v (innings x) (runs x) (wickets_taken x) (overs_completed x)
    (overs_per_session x) (session_overs_completed x) (session_number x) (last_bowler x)
    (current_batsmen x) (next_batsman_index x) (bowler x) (bowler_overs_session x)
    (bowler_overs_today x) (match_over x) (result_summary x) (extras x) (extras_nb x) (extras_b
    x) (extras_lb x) (extras_w x) (innings_summaries x) (innings_batting_team x)
    (follow_on_enforced x) (follow_on_threshold x) (fow x) (current_over_legal_balls x)
    (_limits_session_number x) (current_conditions x) (day_counter x) (current_day x)
    (day_overs_target x) (day_overs_scheduled x) (overs_in_day x) (day_no_play x)
    (day_overs_lost_start x) (day_overs_lost_end x).
Definition set_innings (v : Z) (x : Match) : Match :=
  mkMatch (team1 x) (team2 x) (random x) (gui_askyesno x) (gui_dialogs x) (_hattrick_count x)
    (_hattrick_pending_bowler x) (_last_ball_was_bowler_wicket x) (_last_wicket_bowler x)
    (innings_declared x) (retired_hurt_pending x) (retired_hurt_returning x)
    (retired_hurt_priority x) (_wk_name_by_innings x) v (runs x) (wickets_taken x)
    (overs_completed x) (overs_per_session x) (session_overs_completed x) (session_number x)
    (last_bowler x) (current_batsmen x) (next_batsman_index x) (bowler x) (bowler_overs_session
    x) (bowler_overs_today x) (match_over x) (result_summary x) (extras x) (extras_nb x)
    (extras_b x) (extras_lb x) (extras_w x) (innings_summaries x) (innings_batting_team x)
    (follow_on_enforced x) (follow_on_threshold x) (fow x) (current_over_legal_balls x)
    (_limits_session_number x) (current_conditions x) (day_counter x) (current_day x)
    (day_overs_target x) (day_overs_scheduled x) (overs_in_day x) (day_no_play x)
    (day_overs_lost_start x) (day_overs_lost_end x).
Definition set_runs (v : Z) (x : Match) : Match :=
  mkMatch (team1 x) (team2 x) (random x) (gui_askyesno x) (gui_dialogs x) (_hattrick_count x)
    (_hattrick_pending_bowler x) (_last_ball_was_bowler_wicket x) (_last_wicket_bowler x)
    (innings_declared x) (retired_hurt_pending x) (retired_hurt_returning x)
    (retired_hurt_priority x) (_wk_name_by_innings x) (innings x) v (wickets_taken x)
    (overs_completed x) (overs_per_session x) (session_overs_completed x) (session_number x)
    (last_bowler x) (current_batsmen x) (next_batsman_index x) (bowler x) (bowler_overs_session
    x) (bowler_overs_today x) (match_over x) (result_summary x) (extras x) (extras_nb x)
    (extras_b x) (extras_lb x) (extras_w x) (innings_summaries x) (innings_batting_team x)
    (follow_on_enforced x) (follow_on_threshold x) (fow x) (current_over_legal_balls x)
    (_limits_session_number x) (current_conditions x) (day_counter x) (current_day x)
    (day_overs_target x) (day_overs_scheduled x) (overs_in_day x) (day_no_play x)
    (day_overs_lost_start x) (day_overs_lost_end x).
Definition set_wickets_taken (v : Z) (x : Match) : Match :=
  mkMatch (team1 x) (team2 x) (random x) (gui_askyesno x) (gui_dialogs x) (_hattrick_count x)
    (_hattrick_pending_bowler x) (_last_ball_was_bowler_wicket x) (_last_wicket_bowler x)
    (innings_declared x) (retired_hurt_pending x) (retired_hurt_returning x)
    (retired_hurt_priority x) (_wk_name_by_innings x) (innings x) (runs x) v (overs_completed x)
    (overs_per_session x) (session_overs_completed x) (session_number x) (last_bowler x)
    (current_batsmen x) (next_batsman_index x) (bowler x) (bowler_overs_session x)
    (bowler_overs_today x) (match_over x) (result_summary x) (extras x) (extras_nb x) (extras_b
    x) (extras_lb x) (extras_w x) (innings_summaries x) (innings_batting_team x)
    (follow_on_enforced x) (follow_on_threshold x) (fow x) (current_over_legal_balls x)
    (_limits_session_number x) (current_conditions x) (day_counter x) (current_day x)
    (day_overs_target x) (day_overs_scheduled x) (overs_in_day x) (day_no_play x)
    (day_overs_lost_start x) (day_overs_lost_end x).
Definition set_overs_completed (v : Z) (x : Match) : Match :=
  mkMatch (team1 x) (team2 x) (random x) (gui_askyesno x) (gui_dialogs x) (_hattrick_count x)
    (_hattrick_pending_bowler x) (_last_ball_was_bowler_wicket x) (_last_wicket_bowler x)
    (innings_declared x) (retired_hurt_pending x) (retired_hurt_returning x)
    (retired_hurt_priority x) (_wk_name_by_innings x) (innings x) (runs x) (wickets_taken x) v
    (overs_per_session x) (session_overs_completed x) (session_number x) (last_bowler x)
    (current_batsmen x) (next_batsman_index x) (bowler x) (bowler_overs_session x)
    (bowler_overs_today x) (match_over x) (result_summary x) (extras x) (extras_nb x) (extras_b
    x) (extras_lb x) (extras_w x) (innings_summaries x) (innings_batting_team x)
    (follow_on_enforced x) (follow_on_threshold x) (fow x) (current_over_legal_balls x)
    (_limits_session_number x) (current_conditions x) (day_counter x) (current_day x)
    (day_overs_target x) (day_overs_scheduled x) (overs_in_day x) (day_no_play x)
    (day_overs_lost_start x) (day_overs_lost_end x).
Definition set_overs_per_session (v : Z) (x : Match) : Match :=
  mkMatch (team1 x) (team2 x) (random x) (gui_askyesno x) (gui_dialogs x) (_hattrick_count x)
    (_hattrick_pending_bowler x) (_last_ball_was_bowler_wicket x) (_last_wicket_bowler x)
    (innings_declared x) (retired_hurt_pending x) (retired_hurt_returning x)
    (retired_hurt_priority x) (_wk_name_by_innings x) (innings x) (runs x) (wickets_taken x)
    (overs_completed x) v (session_overs_completed x) (session_number x) (last_bowler x)
    (current_batsmen x) (next_batsman_index x) (bowler x) (bowler_overs_session x)
    (bowler_overs_today x) (match_over x) (result_summary x) (extras x) (extras_nb x) (extras_b
    x) (extras_lb x) (extras_w x) (innings_summaries x) (innings_batting_team x)
    (follow_on_enforced x) (follow_on_threshold x) (fow x) (current_over_legal_balls x)
    (_limits_session_number x) (current_conditions x) (day_counter x) (current_day x)
    (day_overs_target x) (day_overs_scheduled x) (overs_in_day x) (day_no_play x)
    (day_overs_lost_start x) (day_overs_lost_end x).
Definition set_session_overs_completed (v : Z) (x : Match) : Match :=
  mkMatch (team1 x) (team2 x) (random x) (gui_askyesno x) (gui_dialogs x) (_hattrick_count x)
    (_hattrick_pending_bowler x) (_last_ball_was_bowler_wicket x) (_last_wicket_bowler x)
    (innings_declared x) (retired_hurt_pending x) (retired_hurt_returning x)
    (retired_hurt_priority x) (_wk_name_by_innings x) (innings x) (runs x) (wickets_taken x)
    (overs_completed x) (overs_per_session x) v (session_number x) (last_bowler x)
    (current_batsmen x) (next_batsman_index x) (bowler x) (bowler_overs_session x)
    (bowler_overs_today x) (match_over x) (result_summary x) (extras x) (extras_nb x) (extras_b
    x) (extras_lb x) (extras_w x) (innings_summaries x) (innings_batting_team x)
    (follow_on_enforced x) (follow_on_threshold x) (fow x) (current_over_legal_balls x)
    (_limits_session_number x) (current_conditions x) (day_counter x) (current_day x)
    (day_overs_target x) (day_overs_scheduled x) (overs_in_day x) (day_no_play x)
    (day_overs_lost_start x) (day_overs_lost_end x).
Definition set_session_number (v : Z) (x : Match) : Match :=
  mkMatch (team1 x) (team2 x) (random x) (gui_askyesno x) (gui_dialogs x) (_hattrick_count x)
    (_hattrick_pending_bowler x) (_last_ball_was_bowler_wicket x) (_last_wicket_bowler x)
    (innings_declared x) (retired_hurt_pending x) (retired_hurt_returning x)
    (retired_hurt_priority x) (_wk_name_by_innings x) (innings x) (runs x) (wickets_taken x)
    (overs_completed x) (overs_per_session x) (session_overs_completed x) v (last_bowler x)
    (current_batsmen x) (next_batsman_index x) (bowler x) (bowler_overs_session x)
    (bowler_overs_today x) (match_over x) (result_summary x) (extras x) (extras_nb x) (extras_b
    x) (extras_lb x) (extras_w x) (innings_summaries x) (innings_batting_team x)
    (follow_on_enforced x) (follow_on_threshold x) (fow x) (current_over_legal_balls x)
    (_limits_session_number x) (current_conditions x) (day_counter x) (current_day x)
    (day_overs_target x) (day_overs_scheduled x) (overs_in_day x) (day_no_play x)
    (day_overs_lost_start x) (day_overs_lost_end x).
Definition set_last_bowler (v : option string) (x : Match) : Match :=
  mkMatch (team1 x) (team2 x) (random x) (gui_askyesno x) (gui_dialogs x) (_hattrick_count x)
    (_hattrick_pending_bowler x) (_last_ball_was_bowler_wicket x) (_last_wicket_bowler x)
    (innings_declared x) (retired_hurt_pending x) (retired_hurt_returning x)
    (retired_hurt_priority x) (_wk_name_by_innings x) (innings x) (runs x) (wickets_taken x)
    (overs_completed x) (overs_per_session x) (session_overs_completed x) (session_number x) v
    (current_batsmen x) (next_batsman_index x) (bowler x) (bowler_overs_session x)
    (bowler_overs_today x) (match_over x) (result_summary x) (extras x) (extras_nb x) (extras_b
    x) (extras_lb x) (extras_w x) (innings_summaries x) (innings_batting_team x)
    (follow_on_enforced x) (follow_on_threshold x) (fow x) (current_over_legal_balls x)
    (_limits_session_number x) (current_conditions x) (day_counter x) (current_day x)
    (day_overs_target x) (day_overs_scheduled x) (overs_in_day x) (day_no_play x)
    (day_overs_lost_start x) (day_overs_lost_end x).
Definition set_current_batsmen (v : list PlayerRef) (x : Match) : Match :=
  mkMatch (team1 x) (team2 x) (random x) (gui_askyesno x) (gui_dialogs x) (_hattrick_count x)
    (_hattrick_pending_bowler x) (_last_ball_was_bowler_wicket x) (_last_wicket_bowler x)
    (innings_declared x) (retired_hurt_pending x) (retired_hurt_returning x)
    (retired_hurt_priority x) (_wk_name_by_innings x) (innings x) (runs x) (wickets_taken x)
    (overs_completed x) (overs_per_session x) (session_overs_completed x) (session_number x)
    (last_bowler x) v (next_batsman_index x) (bowler x) (bowler_overs_session x)
    (bowler_overs_today x) (match_over x) (result_summary x) (extras x) (extras_nb x) (extras_b
    x) (extras_lb x) (extras_w x) (innings_summaries x) (innings_batting_team x)
    (follow_on_enforced x) (follow_on_threshold x) (fow x) (current_over_legal_balls x)
    (_limits_session_number x) (current_conditions x) (day_counter x) (current_day x)
    (day_overs_target x) (day_overs_scheduled x) (overs_in_day x) (day_no_play x)
    (day_overs_lost_start x) (day_overs_lost_end x).
Definition set_next_batsman_index (v : nat) (x : Match) : Match :=
  mkMatch (team1 x) (team2 x) (random x) (gui_askyesno x) (gui_dialogs x) (_hattrick_count x)
    (_hattrick_pending_bowler x) (_last_ball_was_bowler_wicket x) (_last_wicket_bowler x)
    (innings_declared x) (retired_hurt_pending x) (retired_hurt_returning x)
    (retired_hurt_priority x) (_wk_name_by_innings x) (innings x) (runs x) (wickets_taken x)
    (overs_completed x) (overs_per_session x) (session_overs_completed x) (session_number x)
    (last_bowler x) (current_batsmen x) v (bowler x) (bowler_overs_session x)
    (bowler_overs_today x) (match_over x) (result_summary x) (extras x) (extras_nb x) (extras_b
    x) (extras_lb x) (extras_w x) (innings_summaries x) (innings_batting_team x)
    (follow_on_enforced x) (follow_on_threshold x) (fow x) (current_over_legal_balls x)
    (_limits_session_number x) (current_conditions x) (day_counter x) (current_day x)
    (day_overs_target x) (day_overs_scheduled x) (overs_in_day x) (day_no_play x)
    (day_overs_lost_start x) (day_overs_lost_end x).
Definition set_bowler (v : option PlayerRef) (x : Match) : Match :=
  mkMatch (team1 x) (team2 x) (random x) (gui_askyesno x) (gui_dialogs x) (_hattrick_count x)
    (_hattrick_pending_bowler x) (_last_ball_was_bowler_wicket x) (_last_wicket_bowler x)
    (innings_declared x) (retired_hurt_pending x) (retired_hurt_returning x)
    (retired_hurt_priority x) (_wk_name_by_innings x) (innings x) (runs x) (wickets_taken x)
    (overs_completed x) (overs_per_session x) (session_overs_completed x) (session_number x)
    (last_bowler x) (current_batsmen x) (next_batsman_index x) v (bowler_overs_session x)
    (bowler_overs_today x) (match_over x) (result_summary x) (extras x) (extras_nb x) (extras_b
    x) (extras_lb x) (extras_w x) (innings_summaries x) (innings_batting_team x)
    (follow_on_enforced x) (follow_on_threshold x) (fow x) (current_over_legal_balls x)
    (_limits_session_number x) (current_conditions x) (day_counter x) (current_day x)
    (day_overs_target x) (day_overs_scheduled x) (overs_in_day x) (day_no_play x)
    (day_overs_lost_start x) (day_overs_lost_end x).
Definition set_bowler_overs_session (v : gmap string Z) (x : Match) : Match :=
  mkMatch (team1 x) (team2 x) (random x) (gui_askyesno x) (gui_dialogs x) (_hattrick_count x)
    (_hattrick_pending_bowler x) (_last_ball_was_bowler_wicket x) (_last_wicket_bowler x)
    (innings_declared x) (retired_hurt_pending x) (retired_hurt_returning x)
    (retired_hurt_priority x) (_wk_name_by_innings x) (innings x) (runs x) (wickets_taken x)
    (overs_completed x) (overs_per_session x) (session_overs_completed x) (session_number x)
    (last_bowler x) (current_batsmen x) (next_batsman_index x) (bowler x) v (bowler_overs_today
    x) (match_over x) (result_summary x) (extras x) (extras_nb x) (extras_b x) (extras_lb x)
    (extras_w x) (innings_summaries x) (innings_batting_team x) (follow_on_enforced x)
    (follow_on_threshold x) (fow x) (current_over_legal_balls x) (_limits_session_number x)
    (current_conditions x) (day_counter x) (current_day x) (day_overs_target x)
    (day_overs_scheduled x) (overs_in_day x) (day_no_play x) (day_overs_lost_start x)
    (day_overs_lost_end x).
Definition set_bowler_overs_today (v : gmap string Z) (x : Match) : Match :=
  mkMatch (team1 x) (team2 x) (random x) (gui_askyesno x) (gui_dialogs x) (_hattrick_count x)
    (_hattrick_pending_bowler x) (_last_ball_was_bowler_wicket x) (_last_wicket_bowler x)
    (innings_declared x) (retired_hurt_pending x) (retired_hurt_returning x)
    (retired_hurt_priority x) (_wk_name_by_innings x) (innings x) (runs x) (wickets_taken x)
    (overs_completed x) (overs_per_session x) (session_overs_completed x) (session_number x)
    (last_bowler x) (current_batsmen x) (next_batsman_index x) (bowler x) (bowler_overs_session
    x) v (match_over x) (result_summary x) (extras x) (extras_nb x) (extras_b x) (extras_lb x)
    (extras_w x) (innings_summaries x) (innings_batting_team x) (follow_on_enforced x)
    (follow_on_threshold x) (fow x) (current_over_legal_balls x) (_limits_session_number x)
    (current_conditions x) (day_counter x) (current_day x) (day_overs_target x)
    (day_overs_scheduled x) (overs_in_day x) (day_no_play x) (day_overs_lost_start x)
    (day_overs_lost_end x).
Definition set_match_over (v : bool) (x : Match) : Match :=
  mkMatch (team1 x) (team2 x) (random x) (gui_askyesno x) (gui_dialogs x) (_hattrick_count x)
    (_hattrick_pending_bowler x) (_last_ball_was_bowler_wicket x) (_last_wicket_bowler x)
    (innings_declared x) (retired_hurt_pending x) (retired_hurt_returning x)
    (retired_hurt_priority x) (_wk_name_by_innings x) (innings x) (runs x) (wickets_taken x)
    (overs_completed x) (overs_per_session x) (session_overs_completed x) (session_number x)
    (last_bowler x) (current_batsmen x) (next_batsman_index x) (bowler x) (bowler_overs_session
    x) (bowler_overs_today x) v (result_summary x) (extras x) (extras_nb x) (extras_b x)
    (extras_lb x) (extras_w x) (innings_summaries x) (innings_batting_team x)
    (follow_on_enforced x) (follow_on_threshold x) (fow x) (current_over_legal_balls x)
    (_limits_session_number x) (current_conditions x) (day_counter x) (current_day x)
    (day_overs_target x) (day_overs_scheduled x) (overs_in_day x) (day_no_play x)
    (day_overs_lost_start x) (day_overs_lost_end x).
Definition set_result_summary (v : option ResultSummary) (x : Match) : Match :=
  mkMatch (team1 x) (team2 x) (random x) (gui_askyesno x) (gui_dialogs x) (_hattrick_count x)
    (_hattrick_pending_bowler x) (_last_ball_was_bowler_wicket x) (_last_wicket_bowler x)
    (innings_declared x) (retired_hurt_pending x) (retired_hurt_returning x)
    (retired_hurt_priority x) (_wk_name_by_innings x) (innings x) (runs x) (wickets_taken x)
    (overs_completed x) (overs_per_session x) (session_overs_completed x) (session_number x)
    (last_bowler x) (current_batsmen x) (next_batsman_index x) (bowler x) (bowler_overs_session
    x) (bowler_overs_today x) (match_over x) v (extras x) (extras_nb x) (extras_b x) (extras_lb
    x) (extras_w x) (innings_summaries x) (innings_batting_team x) (follow_on_enforced x)
    (follow_on_threshold x) (fow x) (current_over_legal_balls x) (_limits_session_number x)
    (current_conditions x) (day_counter x) (current_day x) (day_overs_target x)
    (day_overs_scheduled x) (overs_in_day x) (day_no_play x) (day_overs_lost_start x)
    (day_overs_lost_end x).
Definition set_extras (v : Z) (x : Match) : Match :=
  mkMatch (team1 x) (team2 x) (random x) (gui_askyesno x) (gui_dialogs x) (_hattrick_count x)
    (_hattrick_pending_bowler x) (_last_ball_was_bowler_wicket x) (_last_wicket_bowler x)
    (innings_declared x) (retired_hurt_pending x) (retired_hurt_returning x)
    (retired_hurt_priority x) (_wk_name_by_innings x) (innings x) (runs x) (wickets_taken x)
    (overs_completed x) (overs_per_session x) (session_overs_completed x) (session_number x)
    (last_bowler x) (current_batsmen x) (next_batsman_index x) (bowler x) (bowler_overs_session
    x) (bowler_overs_today x) (match_over x) (result_summary x) v (extras_nb x) (extras_b x)
    (extras_lb x) (extras_w x) (innings_summaries x) (innings_batting_team x)
    (follow_on_enforced x) (follow_on_threshold x) (fow x) (current_over_legal_balls x)
    (_limits_session_number x) (current_conditions x) (day_counter x) (current_day x)
    (day_overs_target x) (day_overs_scheduled x) (overs_in_day x) (day_no_play x)
    (day_overs_lost_start x) (day_overs_lost_end x).
Definition set_extras_nb (v : Z) (x : Match) : Match :=
  mkMatch (team1 x) (team2 x) (random x) (gui_askyesno x) (gui_dialogs x) (_hattrick_count x)
    (_hattrick_pending_bowler x) (_last_ball_was_bowler_wicket x) (_last_wicket_bowler x)
    (innings_declared x) (retired_hurt_pending x) (retired_hurt_returning x)
    (retired_hurt_priority x) (_wk_name_by_innings x) (innings x) (runs x) (wickets_taken x)
    (overs_completed x) (overs_per_session x) (session_overs_completed x) (session_number x)
    (last_bowler x) (current_batsmen x) (next_batsman_index x) (bowler x) (bowler_overs_session
    x) (bowler_overs_today x) (match_over x) (result_summary x) (extras x) v (extras_b x)
    (extras_lb x) (extras_w x) (innings_summaries x) (innings_batting_team x)
    (follow_on_enforced x) (follow_on_threshold x) (fow x) (current_over_legal_balls x)
    (_limits_session_number x) (current_conditions x) (day_counter x) (current_day x)
    (day_overs_target x) (day_overs_scheduled x) (overs_in_day x) (day_no_play x)
    (day_overs_lost_start x) (day_overs_lost_end x).
Definition set_extras_b (v : Z) (x : Match) : Match :=
  mkMatch (team1 x) (team2 x) (random x) (gui_askyesno x) (gui_dialogs x) (_hattrick_count x)
    (_hattrick_pending_bowler x) (_last_ball_was_bowler_wicket x) (_last_wicket_bowler x)
    (innings_declared x) (retired_hurt_pending x) (retired_hurt_returning x)
    (retired_hurt_priority x) (_wk_name_by_innings x) (innings x) (runs x) (wickets_taken x)
    (overs_completed x) (overs_per_session x) (session_overs_completed x) (session_number x)
    (last_bowler x) (current_batsmen x) (next_batsman_index x) (bowler x) (bowler_overs_session
    x) (bowler_overs_today x) (match_over x) (result_summary x) (extras x) (extras_nb x) v
    (extras_lb x) (extras_w x) (innings_summaries x) (innings_batting_team x)
    (follow_on_enforced x) (follow_on_threshold x) (fow x) (current_over_legal_balls x)
    (_limits_session_number x) (current_conditions x) (day_counter x) (current_day x)
    (day_overs_target x) (day_overs_scheduled x) (overs_in_day x) (day_no_play x)
    (day_overs_lost_start x) (day_overs_lost_end x).
Definition set_extras_lb (v : Z) (x : Match) : Match :=
  mkMatch (team1 x) (team2 x) (random x) (gui_askyesno x) (gui_dialogs x) (_hattrick_count x)
    (_hattrick_pending_bowler x) (_last_ball_was_bowler_wicket x) (_last_wicket_bowler x)
    (innings_declared x) (retired_hurt_pending x) (retired_hurt_returning x)
    (retired_hurt_priority x) (_wk_name_by_innings x) (innings x) (runs x) (wickets_taken x)
    (overs_completed x) (overs_per_session x) (session_overs_completed x) (session_number x)
    (last_bowler x) (current_batsmen x) (next_batsman_index x) (bowler x) (bowler_overs_session
    x) (bowler_overs_today x) (match_over x) (result_summary x) (extras x) (extras_nb x)
    (extras_b x) v (extras_w x) (innings_summaries x) (innings_batting_team x)
    (follow_on_enforced x) (follow_on_threshold x) (fow x) (current_over_legal_balls x)
    (_limits_session_number x) (current_conditions x) (day_counter x) (current_day x)
    (day_overs_target x) (day_overs_scheduled x) (overs_in_day x) (day_no_play x)
    (day_overs_lost_start x) (day_overs_lost_end x).
Definition set_extras_w (v : Z) (x : Match) : Match :=
  mkMatch (team1 x) (team2 x) (random x) (gui_askyesno x) (gui_dialogs x) (_hattrick_count x)
    (_hattrick_pending_bowler x) (_last_ball_was_bowler_wicket x) (_last_wicket_bowler x)
    (innings_declared x) (retired_hurt_pending x) (retired_hurt_returning x)
    (retired_hurt_priority x) (_wk_name_by_innings x) (innings x) (runs x) (wickets_taken x)
    (overs_completed x) (overs_per_session x) (session_overs_completed x) (session_number x)
    (last_bowler x) (current_batsmen x) (next_batsman_index x) (bowler x) (bowler_overs_session
    x) (bowler_overs_today x) (match_over x) (result_summary x) (extras x) (extras_nb x)
    (extras_b x) (extras_lb x) v (innings_summaries x) (innings_batting_team x)
    (follow_on_enforced x) (follow_on_threshold x) (fow x) (current_over_legal_balls x)
    (_limits_session_number x) (current_conditions x) (day_counter x) (current_day x)
    (day_overs_target x) (day_overs_scheduled x) (overs_in_day x) (day_no_play x)
    (day_overs_lost_start x) (day_overs_lost_end x).
Definition set_innings_summaries (v : gmap Z Summary.t) (x : Match) : Match :=
  mkMatch (team1 x) (team2 x) (random x) (gui_askyesno x) (gui_dialogs x) (_hattrick_count x)
    (_hattrick_pending_bowler x) (_last_ball_was_bowler_wicket x) (_last_wicket_bowler x)
    (innings_declared x) (retired_hurt_pending x) (retired_hurt_returning x)
    (retired_hurt_priority x) (_wk_name_by_innings x) (innings x) (runs x) (wickets_taken x)
    (overs_completed x) (overs_per_session x) (session_overs_completed x) (session_number x)
    (last_bowler x) (current_batsmen x) (next_batsman_index x) (bowler x) (bowler_overs_session
    x) (bowler_overs_today x) (match_over x) (result_summary x) (extras x) (extras_nb x)
    (extras_b x) (extras_lb x) (extras_w x) v (innings_batting_team x) (follow_on_enforced x)
    (follow_on_threshold x) (fow x) (current_over_legal_balls x) (_limits_session_number x)
    (current_conditions x) (day_counter x) (current_day x) (day_overs_target x)
    (day_overs_scheduled x) (overs_in_day x) (day_no_play x) (day_overs_lost_start x)
    (day_overs_lost_end x).
Definition set_innings_batting_team (v : gmap Z Z) (x : Match) : Match :=
  mkMatch (team1 x) (team2 x) (random x) (gui_askyesno x) (gui_dialogs x) (_hattrick_count x)
    (_hattrick_pending_bowler x) (_last_ball_was_bowler_wicket x) (_last_wicket_bowler x)
    (innings_declared x) (retired_hurt_pending x) (retired_hurt_returning x)
    (retired_hurt_priority x) (_wk_name_by_innings x) (innings x) (runs x) (wickets_taken x)
    (overs_completed x) (overs_per_session x) (session_overs_completed x) (session_number x)
    (last_bowler x) (current_batsmen x) (next_batsman_index x) (bowler x) (bowler_overs_session
    x) (bowler_overs_today x) (match_over x) (result_summary x) (extras x) (extras_nb x)
    (extras_b x) (extras_lb x) (extras_w x) (innings_summaries x) v (follow_on_enforced x)
    (follow_on_threshold x) (fow x) (current_over_legal_balls x) (_limits_session_number x)
    (current_conditions x) (day_counter x) (current_day x) (day_overs_target x)
    (day_overs_scheduled x) (overs_in_day x) (day_no_play x) (day_overs_lost_start x)
    (day_overs_lost_end x).
Definition set_follow_on_enforced (v : bool) (x : Match) : Match :=
  mkMatch (team1 x) (team2 x) (random x) (gui_askyesno x) (gui_dialogs x) (_hattrick_count x)
    (_hattrick_pending_bowler x) (_last_ball_was_bowler_wicket x) (_last_wicket_bowler x)
    (innings_declared x) (retired_hurt_pending x) (retired_hurt_returning x)
    (retired_hurt_priority x) (_wk_name_by_innings x) (innings x) (runs x) (wickets_taken x)
    (overs_completed x) (overs_per_session x) (session_overs_completed x) (session_number x)
    (last_bowler x) (current_batsmen x) (next_batsman_index x) (bowler x) (bowler_overs_session
    x) (bowler_overs_today x) (match_over x) (result_summary x) (extras x) (extras_nb x)
    (extras_b x) (extras_lb x) (extras_w x) (innings_summaries x) (innings_batting_team x) v
    (follow_on_threshold x) (fow x) (current_over_legal_balls x) (_limits_session_number x)
    (current_conditions x) (day_counter x) (current_day x) (day_overs_target x)
    (day_overs_scheduled x) (overs_in_day x) (day_no_play x) (day_overs_lost_start x)
    (day_overs_lost_end x).
Definition set_follow_on_threshold (v : Z) (x : Match) : Match :=
  mkMatch (team1 x) (team2 x) (random x) (gui_askyesno x) (gui_dialogs x) (_hattrick_count x)
    (_hattrick_pending_bowler x) (_last_ball_was_bowler_wicket x) (_last_wicket_bowler x)
    (innings_declared x) (retired_hurt_pending x) (retired_hurt_returning x)
    (retired_hurt_priority x) (_wk_name_by_innings x) (innings x) (runs x) (wickets_taken x)
    (overs_completed x) (overs_per_session x) (session_overs_completed x) (session_number x)
    (last_bowler x) (current_batsmen x) (next_batsman_index x) (bowler x) (bowler_overs_session
    x) (bowler_overs_today x) (match_over x) (result_summary x) (extras x) (extras_nb x)
    (extras_b x) (extras_lb x) (extras_w x) (innings_summaries x) (innings_batting_team x)
    (follow_on_enforced x) v (fow x) (current_over_legal_balls x) (_limits_session_number x)
    (current_conditions x) (day_counter x) (current_day x) (day_overs_target x)
    (day_overs_scheduled x) (overs_in_day x) (day_no_play x) (day_overs_lost_start x)
    (day_overs_lost_end x).
Definition set_fow (v : list (Z * Z)) (x : Match) : Match :=
  mkMatch (team1 x) (team2 x) (random x) (gui_askyesno x) (gui_dialogs x) (_hattrick_count x)
    (_hattrick_pending_bowler x) (_last_ball_was_bowler_wicket x) (_last_wicket_bowler x)
    (innings_declared x) (retired_hurt_pending x) (retired_hurt_returning x)
    (retired_hurt_priority x) (_wk_name_by_innings x) (innings x) (runs x) (wickets_taken x)
    (overs_completed x) (overs_per_session x) (session_overs_completed x) (session_number x)
    (last_bowler x) (current_batsmen x) (next_batsman_index x) (bowler x) (bowler_overs_session
    x) (bowler_overs_today x) (match_over x) (result_summary x) (extras x) (extras_nb x)
    (extras_b x) (extras_lb x) (extras_w x) (innings_summaries x) (innings_batting_team x)
    (follow_on_enforced x) (follow_on_threshold x) v (current_over_legal_balls x)
    (_limits_session_number x) (current_conditions x) (day_counter x) (current_day x)
    (day_overs_target x) (day_overs_scheduled x) (overs_in_day x) (day_no_play x)
    (day_overs_lost_start x) (day_overs_lost_end x).
Definition set_current_over_legal_balls (v : Z) (x : Match) : Match :=
  mkMatch (team1 x) (team2 x) (random x) (gui_askyesno x) (gui_dialogs x) (_hattrick_count x)
    (_hattrick_pending_bowler x) (_last_ball_was_bowler_wicket x) (_last_wicket_bowler x)
    (innings_declared x) (retired_hurt_pending x) (retired_hurt_returning x)
    (retired_hurt_priority x) (_wk_name_by_innings x) (innings x) (runs x) (wickets_taken x)
    (overs_completed x) (overs_per_session x) (session_overs_completed x) (session_number x)
    (last_bowler x) (current_batsmen x) (next_batsman_index x) (bowler x) (bowler_overs_session
    x) (bowler_overs_today x) (match_over x) (result_summary x) (extras x) (extras_nb x)
    (extras_b x) (extras_lb x) (extras_w x) (innings_summaries x) (innings_batting_team x)
    (follow_on_enforced x) (follow_on_threshold x) (fow x) v (_limits_session_number x)
    (current_conditions x) (day_counter x) (current_day x) (day_overs_target x)
    (day_overs_scheduled x) (overs_in_day x) (day_no_play x) (day_overs_lost_start x)
    (day_overs_lost_end x).
Definition set__limits_session_number (v : Z) (x : Match) : Match :=
  mkMatch (team1 x) (team2 x) (random x) (gui_askyesno x) (gui_dialogs x) (_hattrick_count x)
    (_hattrick_pending_bowler x) (_last_ball_was_bowler_wicket x) (_last_wicket_bowler x)
    (innings_declared x) (retired_hurt_pending x) (retired_hurt_returning x)
    (retired_hurt_priority x) (_wk_name_by_innings x) (innings x) (runs x) (wickets_taken x)
    (overs_completed x) (overs_per_session x) (session_overs_completed x) (session_number x)
    (last_bowler x) (current_batsmen x) (next_batsman_index x) (bowler x) (bowler_overs_session
    x) (bowler_overs_today x) (match_over x) (result_summary x) (extras x) (extras_nb x)
    (extras_b x) (extras_lb x) (extras_w x) (innings_summaries x) (innings_batting_team x)
    (follow_on_enforced x) (follow_on_threshold x) (fow x) (current_over_legal_balls x) v
    (current_conditions x) (day_counter x) (current_day x) (day_overs_target x)
    (day_overs_scheduled x) (overs_in_day x) (day_no_play x) (day_overs_lost_start x)
    (day_overs_lost_end x).
Definition set_current_conditions (v : option Condition.t) (x : Match) : Match :=
  mkMatch (team1 x) (team2 x) (random x) (gui_askyesno x) (gui_dialogs x) (_hattrick_count x)
    (_hattrick_pending_bowler x) (_last_ball_was_bowler_wicket x) (_last_wicket_bowler x)
    (innings_declared x) (retired_hurt_pending x) (retired_hurt_returning x)
    (retired_hurt_priority x) (_wk_name_by_innings x) (innings x) (runs x) (wickets_taken x)
    (overs_completed x) (overs_per_session x) (session_overs_completed x) (session_number x)
    (last_bowler x) (current_batsmen x) (next_batsman_index x) (bowler x) (bowler_overs_session
    x) (bowler_overs_today x) (match_over x) (result_summary x) (extras x) (extras_nb x)
    (extras_b x) (extras_lb x) (extras_w x) (innings_summaries x) (innings_batting_team x)
    (follow_on_enforced x) (follow_on_threshold x) (fow x) (current_over_legal_balls x)
    (_limits_session_number x) v (day_counter x) (current_day x) (day_overs_target x)
    (day_overs_scheduled x) (overs_in_day x) (day_no_play x) (day_overs_lost_start x)
    (day_overs_lost_end x).
Definition set_day_counter (v : Z) (x : Match) : Match :=
  mkMatch (team1 x) (team2 x) (random x) (gui_askyesno x) (gui_dialogs x) (_hattrick_count x)
    (_hattrick_pending_bowler x) (_last_ball_was_bowler_wicket x) (_last_wicket_bowler x)
    (innings_declared x) (retired_hurt_pending x) (retired_hurt_returning x)
    (retired_hurt_priority x) (_wk_name_by_innings x) (innings x) (runs x) (wickets_taken x)
    (overs_completed x) (overs_per_session x) (session_overs_completed x) (session_number x)
    (last_bowler x) (current_batsmen x) (next_batsman_index x) (bowler x) (bowler_overs_session
    x) (bowler_overs_today x) (match_over x) (result_summary x) (extras x) (extras_nb x)
    (extras_b x) (extras_lb x) (extras_w x) (innings_summaries x) (innings_batting_team x)
    (follow_on_enforced x) (follow_on_threshold x) (fow x) (current_over_legal_balls x)
    (_limits_session_number x) (current_conditions x) v (current_day x) (day_overs_target x)
    (day_overs_scheduled x) (overs_in_day x) (day_no_play x) (day_overs_lost_start x)
    (day_overs_lost_end x).
Definition set_current_day (v : Z) (x : Match) : Match :=
  mkMatch (team1 x) (team2 x) (random x) (gui_askyesno x) (gui_dialogs x) (_hattrick_count x)
    (_hattrick_pending_bowler x) (_last_ball_was_bowler_wicket x) (_last_wicket_bowler x)
    (innings_declared x) (retired_hurt_pending x) (retired_hurt_returning x)
    (retired_hurt_priority x) (_wk_name_by_innings x) (innings x) (runs x) (wickets_taken x)
    (overs_completed x) (overs_per_session x) (session_overs_completed x) (session_number x)
    (last_bowler x) (current_batsmen x) (next_batsman_index x) (bowler x) (bowler_overs_session
    x) (bowler_overs_today x) (match_over x) (result_summary x) (extras x) (extras_nb x)
    (extras_b x) (extras_lb x) (extras_w x) (innings_summaries x) (innings_batting_team x)
    (follow_on_enforced x) (follow_on_threshold x) (fow x) (current_over_legal_balls x)
    (_limits_session_number x) (current_conditions x) (day_counter x) v (day_overs_target x)
    (day_overs_scheduled x) (overs_in_day x) (day_no_play x) (day_overs_lost_start x)
    (day_overs_lost_end x).
Definition set_day_overs_target (v : Z) (x : Match) : Match :=
  mkMatch (team1 x) (team2 x) (random x) (gui_askyesno x) (gui_dialogs x) (_hattrick_count x)
    (_hattrick_pending_bowler x) (_last_ball_was_bowler_wicket x) (_last_wicket_bowler x)
    (innings_declared x) (retired_hurt_pending x) (retired_hurt_returning x)
    (retired_hurt_priority x) (_wk_name_by_innings x) (innings x) (runs x) (wickets_taken x)
    (overs_completed x) (overs_per_session x) (session_overs_completed x) (session_number x)
    (last_bowler x) (current_batsmen x) (next_batsman_index x) (bowler x) (bowler_overs_session
    x) (bowler_overs_today x) (match_over x) (result_summary x) (extras x) (extras_nb x)
    (extras_b x) (extras_lb x) (extras_w x) (innings_summaries x) (innings_batting_team x)
    (follow_on_enforced x) (follow_on_threshold x) (fow x) (current_over_legal_balls x)
    (_limits_session_number x) (current_conditions x) (day_counter x) (current_day x) v
    (day_overs_scheduled x) (overs_in_day x) (day_no_play x) (day_overs_lost_start x)
    (day_overs_lost_end x).
Definition set_day_overs_scheduled (v : Z) (x : Match) : Match :=
  mkMatch (team1 x) (team2 x) (random x) (gui_askyesno x) (gui_dialogs x) (_hattrick_count x)
    (_hattrick_pending_bowler x) (_last_ball_was_bowler_wicket x) (_last_wicket_bowler x)
    (innings_declared x) (retired_hurt_pending x) (retired_hurt_returning x)
    (retired_hurt_priority x) (_wk_name_by_innings x) (innings x) (runs x) (wickets_taken x)
    (overs_completed x) (overs_per_session x) (session_overs_completed x) (session_number x)
    (last_bowler x) (current_batsmen x) (next_batsman_index x) (bowler x) (bowler_overs_session
    x) (bowler_overs_today x) (match_over x) (result_summary x) (extras x) (extras_nb x)
    (extras_b x) (extras_lb x) (extras_w x) (innings_summaries x) (innings_batting_team x)
    (follow_on_enforced x) (follow_on_threshold x) (fow x) (current_over_legal_balls x)
    (_limits_session_number x) (current_conditions x) (day_counter x) (current_day x)
    (day_overs_target x) v (overs_in_day x) (day_no_play x) (day_overs_lost_start x)
    (day_overs_lost_end x).
Definition set_overs_in_day (v : Z) (x : Match) : Match :=
  mkMatch (team1 x) (team2 x) (random x) (gui_askyesno x) (gui_dialogs x) (_hattrick_count x)
    (_hattrick_pending_bowler x) (_last_ball_was_bowler_wicket x) (_last_wicket_bowler x)
    (innings_declared x) (retired_hurt_pending x) (retired_hurt_returning x)
    (retired_hurt_priority x) (_wk_name_by_innings x) (innings x) (runs x) (wickets_taken x)
    (overs_completed x) (overs_per_session x) (session_overs_completed x) (session_number x)
    (last_bowler x) (current_batsmen x) (next_batsman_index x) (bowler x) (bowler_overs_session
    x) (bowler_overs_today x) (match_over x) (result_summary x) (extras x) (extras_nb x)
    (extras_b x) (extras_lb x) (extras_w x) (innings_summaries x) (innings_batting_team x)
    (follow_on_enforced x) (follow_on_threshold x) (fow x) (current_over_legal_balls x)
    (_limits_session_number x) (current_conditions x) (day_counter x) (current_day x)
    (day_overs_target x) (day_overs_scheduled x) v (day_no_play x) (day_overs_lost_start x)
    (day_overs_lost_end x).
Definition set_day_no_play (v : bool) (x : Match) : Match :=
  mkMatch (team1 x) (team2 x) (random x) (gui_askyesno x) (gui_dialogs x) (_hattrick_count x)
    (_hattrick_pending_bowler x) (_last_ball_was_bowler_wicket x) (_last_wicket_bowler x)
    (innings_declared x) (retired_hurt_pending x) (retired_hurt_returning x)
    (retired_hurt_priority x) (_wk_name_by_innings x) (innings x) (runs x) (wickets_taken x)
    (overs_completed x) (overs_per_session x) (session_overs_completed x) (session_number x)
    (last_bowler x) (current_batsmen x) (next_batsman_index x) (bowler x) (bowler_overs_session
    x) (bowler_overs_today x) (match_over x) (result_summary x) (extras x) (extras_nb x)
    (extras_b x) (extras_lb x) (extras_w x) (innings_summaries x) (innings_batting_team x)
    (follow_on_enforced x) (follow_on_threshold x) (fow x) (current_over_legal_balls x)
    (_limits_session_number x) (current_conditions x) (day_counter x) (current_day x)
    (day_overs_target x) (day_overs_scheduled x) (overs_in_day x) v (day_overs_lost_start x)
    (day_overs_lost_end x).
Definition set_day_overs_lost_start (v : Z) (x : Match) : Match :=
  mkMatch (team1 x) (team2 x) (random x) (gui_askyesno x) (gui_dialogs x) (_hattrick_count x)
    (_hattrick_pending_bowler x) (_last_ball_was_bowler_wicket x) (_last_wicket_bowler x)
    (innings_declared x) (retired_hurt_pending x) (retired_hurt_returning x)
    (retired_hurt_priority x) (_wk_name_by_innings x) (innings x) (runs x) (wickets_taken x)
    (overs_completed x) (overs_per_session x) (session_overs_completed x) (session_number x)
    (last_bowler x) (current_batsmen x) (next_batsman_index x) (bowler x) (bowler_overs_session
    x) (bowler_overs_today x) (match_over x) (result_summary x) (extras x) (extras_nb x)
    (extras_b x) (extras_lb x) (extras_w x) (innings_summaries x) (innings_batting_team x)
    (follow_on_enforced x) (follow_on_threshold x) (fow x) (current_over_legal_balls x)
    (_limits_session_number x) (current_conditions x) (day_counter x) (current_day x)
    (day_overs_target x) (day_overs_scheduled x) (overs_in_day x) (day_no_play x) v
    (day_overs_lost_end x).
Definition set_day_overs_lost_end (v : Z) (x : Match) : Match :=
  mkMatch (team1 x) (team2 x) (random x) (gui_askyesno x) (gui_dialogs x) (_hattrick_count x)
    (_hattrick_pending_bowler x) (_last_ball_was_bowler_wicket x) (_last_wicket_bowler x)
    (innings_declared x) (retired_hurt_pending x) (retired_hurt_returning x)
    (retired_hurt_priority x) (_wk_name_by_innings x) (innings x) (runs x) (wickets_taken x)
    (overs_completed x) (overs_per_session x) (session_overs_completed x) (session_number x)
    (last_bowler x) (current_batsmen x) (next_batsman_index x) (bowler x) (bowler_overs_session
    x) (bowler_overs_today x) (match_over x) (result_summary x) (extras x) (extras_nb x)
    (extras_b x) (extras_lb x) (extras_w x) (innings_summaries x) (innings_batting_team x)
    (follow_on_enforced x) (follow_on_threshold x) (fow x) (current_over_legal_balls x)
    (_limits_session_number x) (current_conditions x) (day_counter x) (current_day x)
    (day_overs_target x) (day_overs_scheduled x) (overs_in_day x) (day_no_play x)
    (day_overs_lost_start x) v.

(** ** Access to players, teams and tallies *)

(** [self.team1 if tid == 1 else self.team2] *)
Definition players (tid : Z) (m : Match) : list Player :=
  if tid =? 1 then team1 m else team2 m.

Definition no_player : Player := Player.mk "" "" "" None false 0 0 0 0 "" 0 0 0.

Definition get_player (r : PlayerRef) (m : Match) : Player :=
  default no_player (players r.1 m !! r.2).

(** A write through a reference reaches the object in its team's list. *)
Definition upd_player (r : PlayerRef) (f : Player -> Player) (m : Match) : Match :=
  if r.1 =? 1 then set_team1 (alter f r.2 (team1 m)) m
  else set_team2 (alter f r.2 (team2 m)) m.

(** The team whose turn it is to bat, as stored for the current innings. *)
Definition batting_side (m : Match) : Z :=
  default (if (innings m =? 1) || (innings m =? 3) then 1 else 2)
          (innings_batting_team m !! innings m).

(** A team list is represented by its number. *)
Definition _batting_team (m : Match) : Z := if batting_side m =? 1 then 1 else 2.
Definition _bowling_team (m : Match) : Z := if batting_side m =? 1 then 2 else 1.

(** [{p.name: 0 for p in team}] *)
Definition zero_tally (ps : list Player) : gmap string Z :=
  list_to_map (map (fun p => (Player.name p, 0)) ps).

(** [d[k]] for a key that [setdefault] has put in. *)
Definition tally (d : gmap string Z) (k : string) : Z := default 0 (d !! k).

(** [d.setdefault(k, 0)] *)
Definition setdefault0 (k : string) (d : gmap string Z) : gmap string Z :=
  match d !! k with
  | Some _ => d
  | None => <[k := 0]> d
  end.

(** Truth value of an optional string: [None] and [""] are false. *)
Definition truthy (o : option string) : bool :=
  match o with
  | Some s => negb (String.eqb s "")
  | None => false
  end.

Definition same_ref (a b : PlayerRef) : bool :=
  (a.1 =? b.1) && Nat.eqb a.2 b.2.

Definition is_ref (o : option PlayerRef) (b : PlayerRef) : bool :=
  match o with
  | Some a => same_ref a b
  | None => false
  end.

(** ** Dismissal text *)

Definition _get_wicketkeeper_name (fielding_team : Z) (m : Match) : string * Match :=
  match _wk_name_by_innings m !! innings m with
  | Some n => (n, m)
  | None =>
      let ps := players fielding_team m in
      let wk_name :=
        match List.find Player.is_wk ps with
        | Some p => Player.name p
        | None =>
            match ps with
            | p :: _ => Player.name p
            | [] => "the wicketkeeper"
            end
        end in
      (wk_name, set__wk_name_by_innings (<[innings m := wk_name]> (_wk_name_by_innings m)) m)
  end.

(** [wk_name or self._get_wicketkeeper_name(fielding_team)] *)
Definition wk_name_or (wk_name : option string) (fielding_team : Z) (m : Match)
  : string * Match :=
  if truthy wk_name then (default "" wk_name, m)
  else _get_wicketkeeper_name fielding_team m.

(** [random.choice(candidates) if candidates else "a fielder"] over the
    fielding side's names other than the bowler's and the keeper's. *)
Definition choose_fielder (fielding_team : Z) (bname wk : string) (m : Match)
  : string * Match :=
  let candidates :=
    filter (fun n => n ≠ bname ∧ n ≠ wk) (map Player.name (players fielding_team m)) in
  match candidates with
  | [] => ("a fielder", m)
  | _ =>
      let '(o, rng) := choice candidates (random m) in
      (default "a fielder" o, set_random rng m)
  end.

Definition _set_dismissal (batsman : PlayerRef) (method : string) (fielding_team : Z)
    (bowler : option PlayerRef) (fielder_name wk_name : option string) (m : Match) : Match :=
  let mth := strip method in
  let ml := lower mth in
  let bname := match bowler with Some b => Player.name (get_player b m) | None => "" end in
  if String.eqb ml "caught wk" then
    let '(wk, m) := wk_name_or wk_name fielding_team m in
    upd_player batsman (Player.set_how_out (strip ("c " +:+ wk +:+ " b " +:+ bname))) m
  else if String.eqb ml "stumped wk" then
    let '(wk, m) := wk_name_or wk_name fielding_team m in
    upd_player batsman (Player.set_how_out (strip ("st " +:+ wk +:+ " b " +:+ bname))) m
  else if String.eqb ml "caught" then
    let '(f, m) :=
      if truthy fielder_name then (default "" fielder_name, m)
      else
        let '(wk, m) := wk_name_or wk_name fielding_team m in
        choose_fielder fielding_team bname wk m in
    upd_player batsman (Player.set_how_out (strip ("c " +:+ f +:+ " b " +:+ bname))) m
  else if String.eqb ml "lbw" then
    upd_player batsman (Player.set_how_out (strip ("lbw b " +:+ bname))) m
  else if String.eqb ml "bowled" then
    upd_player batsman (Player.set_how_out (strip ("b " +:+ bname))) m
  else if String.eqb ml "run out" then
    upd_player batsman (Player.set_how_out "run out") m
  else
    upd_player batsman (Player.set_how_out mth) m.

(** ** Conditions of the day and ratings *)

Definition _current_condition_modifiers_for_over (m : Match) : Z * Z :=
  match current_conditions m with
  | None => (0, 0)
  | Some c =>
      if day_no_play m then (0, 0)
      else
        let over_num := overs_in_day m + 1 in
        match List.find (fun ph => (Phase.start ph <=? over_num) && (over_num <=? Phase.end_ ph))
                        (Condition.phases c) with
        | Some ph => (Phase.bat ph, Phase.bowl ph)
        | None => (0, 0)
        end
  end.

(** [l.index(x)] *)
Fixpoint list_index (x : string) (l : list string) : option Z :=
  match l with
  | [] => None
  | y :: l' => if String.eqb x y then Some 0 else (fun i => i + 1) <$> list_index x l'
  end.

Definition apply_rating_modifier (rating : string) (modifier : Z) : string :=
  match list_index rating RATINGS_ORDER with
  | None => rating
  | Some idx =>
      let new_idx := Z.max 0 (Z.min (Z.of_nat (length RATINGS_ORDER) - 1) (idx + modifier)) in
      index_or RATINGS_ORDER new_idx rating
  end.

(** ** Hat-trick tracking *)

Definition _register_bowler_wicket_for_hattrick (b : PlayerRef) (m : Match) : Match :=
  let m :=
    if _last_ball_was_bowler_wicket m && is_ref (_last_wicket_bowler m) b
    then set__hattrick_count (_hattrick_count m + 1) m
    else set__hattrick_count 1 m in
  let m := set__last_ball_was_bowler_wicket true m in
  let m := set__last_wicket_bowler (Some b) m in
  if _hattrick_count m =? 2 then set__hattrick_pending_bowler (Some b) m
  else if _hattrick_count m =? 3 then
    let m := set__hattrick_pending_bowler None m in
    let m := set__hattrick_count 0 m in
    let m := set__last_ball_was_bowler_wicket false m in
    set__last_wicket_bowler None m
  else m.

Definition _break_hattrick_chain (m : Match) : Match :=
  let m := set__last_ball_was_bowler_wicket false m in
  let m := set__hattrick_pending_bowler None m in
  set__last_wicket_bowler None m.

(** Only the effect on the tracking state; the text it returns is commentary. *)
Definition _apply_hattrick_miss_prefix (b : PlayerRef) (m : Match) : Match :=
  if is_ref (_hattrick_pending_bowler m) b then
    let m := set__hattrick_pending_bowler None m in
    let m := set__hattrick_count 0 m in
    let m := set__last_ball_was_bowler_wicket false m in
    set__last_wicket_bowler None m
  else m.

(** ** Closing an innings *)

Definition batting_row (p : Player) : BatRow.t :=
  BatRow.mk (Player.name p) (Player.runs p) (Player.balls_faced p) (Player.fours p)
    (Player.sixes p)
    (if truthy (Some (Player.how_out p)) then Player.how_out p
     else if (0 <? Player.balls_faced p) || (0 <? Player.runs p) then "not out" else "").

Definition bowling_row (p : Player) : BowlRow.t :=
  BowlRow.mk (Player.name p) (Player.overs_bowled p) (Player.runs_conceded p)
    (Player.wickets p).

Definition _snapshot_innings_summary (m : Match) : Match :=
  let batting_rows := map batting_row (players (_batting_team m) m) in
  let bowling_rows :=
    map bowling_row
      (List.filter (fun p => truthy (Some (strip (default "" (Player.bowling_rating p)))))
                   (players (_bowling_team m) m)) in
  set_innings_summaries
    (<[innings m :=
         Summary.mk (innings m) (runs m) (wickets_taken m) (overs_completed m) (extras m)
           (extras_b m) (extras_lb m) (extras_nb m) (extras_w m) (fow m)
           batting_rows bowling_rows]> (innings_summaries m)) m.

(** [self.innings_summaries.get(i, {}).get("runs", 0)] *)
Definition summary_runs (i : Z) (m : Match) : Z :=
  match innings_summaries m !! i with
  | Some s => Summary.runs s
  | None => 0
  end.

Definition totals_by_team_completed (m : Match) : Z * Z :=
  map_fold
    (fun inn summ (acc : Z * Z) =>
       let runs := Summary.runs summ in
       let tid := default (if (inn =? 1) || (inn =? 3) then 1 else 2)
                          (innings_batting_team m !! inn) in
       if tid =? 1 then (acc.1 + runs, acc.2) else (acc.1, acc.2 + runs))
    (0, 0) (innings_summaries m).

Definition totals_by_team_including_current (m : Match) : Z * Z :=
  let '(t1, t2) := totals_by_team_completed m in
  if batting_side m =? 1 then (t1 + runs m, t2) else (t1, t2 + runs m).

Definition determine_result (m : Match) : Match :=
  if match_over m then m
  else if (size (innings_summaries m) <? 4)%nat then m
  else
    let '(t1, t2) := totals_by_team_completed m in
    let m :=
      if t2 <? t1 then set_result_summary (Some (Win 1 (Runs (t1 - t2)))) m
      else if t1 <? t2 then set_result_summary (Some (Win 2 (Runs (t2 - t1)))) m
      else set_result_summary (Some Tie) m in
    set_match_over true m.

(** The yes/no dialog: the next pending answer, [False] when it fails. *)
Definition askyesno (title : string) (lead : Z) (m : Match) : bool * Match :=
  let m := set_gui_dialogs (gui_dialogs m ++ [AskYesNo title lead]) m in
  (hd false (gui_askyesno m), set_gui_askyesno (tl (gui_askyesno m)) m).

Definition offer_follow_on_if_available (m : Match) : Match :=
  if negb (innings m =? 2) then m
  else
    let lead := summary_runs 1 m - summary_runs 2 m in
    if follow_on_threshold m <=? lead then
      let '(answer, m) := askyesno "Follow-on Available" lead m in
      set_follow_on_enforced answer m
    else m.

Definition reset_batting (p : Player) : Player :=
  Player.set_how_out ""
    (Player.set_sixes 0 (Player.set_fours 0 (Player.set_balls_faced 0 (Player.set_runs 0 p)))).

Definition reset_bowling (p : Player) : Player :=
  Player.set_runs_conceded 0 (Player.set_overs_bowled 0 (Player.set_wickets 0 p)).

(** [for p in team: ...] applied to the team with the given number. *)
Definition map_team (tid : Z) (f : Player -> Player) (m : Match) : Match :=
  if tid =? 1 then set_team1 (map f (team1 m)) m else set_team2 (map f (team2 m)) m.

Definition end_innings (force : bool) (m : Match) : Match :=
  if negb force && negb (innings_declared m) && (wickets_taken m <? 10) then m
  else
    let m := _snapshot_innings_summary m in
    let t1 := summary_runs 1 m in
    let t2 := summary_runs 2 m + summary_runs 3 m in
    if (innings m =? 3) && follow_on_enforced m
       && (default 2 (innings_batting_team m !! 3) =? 2) && (t2 <? t1) then
      let margin := t1 - t2 in
      let m := set_result_summary (Some (Win 1 (InningsAndRuns margin))) m in
      set_match_over true m
    else if 4 <=? innings m then
      let m := determine_result m in
      set_match_over true m
    else
      let m := offer_follow_on_if_available m in
      let m := set_innings (innings m + 1) m in
      let m :=
        if innings m =? 2 then
          set_innings_batting_team (<[2 := 2]> (innings_batting_team m)) m
        else if innings m =? 3 then
          set_innings_batting_team
            (<[3 := if follow_on_enforced m then 2 else 1]> (innings_batting_team m)) m
        else if innings m =? 4 then
          set_innings_batting_team
            (<[4 := if default 1 (innings_batting_team m !! 3) =? 2 then 1 else 2]>
               (innings_batting_team m)) m
        else m in
      let m := set_runs 0 m in
      let m := set_wickets_taken 0 m in
      let m := set_overs_completed 0 m in
      let m := set_current_over_legal_balls 0 m in
      let m := set__limits_session_number (session_number m) m in
      let m := set_fow [] m in
      let m := set_extras 0 m in
      let m := set_extras_nb 0 m in
      let m := set_extras_b 0 m in
      let m := set_extras_lb 0 m in
      let m := set_extras_w 0 m in
      let batting_team := _batting_team m in
      let bowling_team := _bowling_team m in
      let m := set_bowler_overs_session (zero_tally (players bowling_team m)) m in
      let m := set_bowler_overs_today (zero_tally (players bowling_team m)) m in
      let m := set_last_bowler None m in
      let m := set__limits_session_number (session_number m) m in
      let m := map_team batting_team reset_batting m in
      let m := map_team bowling_team reset_bowling m in
      let m := set_current_batsmen [(batting_team, 0%nat); (batting_team, 1%nat)] m in
      let m := set_next_batsman_index 2 m in
      let m := set_bowler None m in
      set_last_bowler None m.

Definition declare_innings (m : Match) : Match :=
  let m := set_innings_declared true m in
  end_innings false m.

Definition _increment_wicket_and_maybe_end (m : Match) : Match * bool :=
  if 10 <=? wickets_taken m then (m, true)
  else
    let m := set_wickets_taken (wickets_taken m + 1) m in
    let m := set_fow (fow m ++ [(wickets_taken m, runs m)]) m in
    if wickets_taken m =? 10 then (end_innings false m, true)
    else (m, false).

(** ** A new day *)

Definition start_new_day (m : Match) : Match :=
  let m := set_current_day (day_counter m) m in
  if MAX_DAYS <? day_counter m then
    let m := set_match_over true m in
    set_result_summary (Some Draw) m
  else
    let '(o, rng) := choice MATCH_CONDITIONS_DECK (random m) in
    let m := set_random rng m in
    let template := default (Condition.mk "" 1 0 0 false []) o in
    let m := set_current_conditions (Some template) m in
    let m := set_day_no_play (Condition.no_play template) m in
    let m := set_day_overs_lost_start (Condition.overs_lost_start template) m in
    let m := set_day_overs_lost_end (Condition.overs_lost_end template) m in
    let m :=
      if day_no_play m then set_day_overs_scheduled 0 m
      else
        let lost_total := day_overs_lost_start m + day_overs_lost_end m in
        set_day_overs_scheduled (Z.max 0 (DAY_OVERS - lost_total)) m in
    let m := set_overs_in_day 0 m in
    let m := set_session_overs_completed 0 m in
    let m := set_session_number 1 m in
    let m := set_last_bowler None m in
    let bowling_team := _bowling_team m in
    let m := set_bowler_overs_today (zero_tally (players bowling_team m)) m in
    let m := set_bowler_overs_session (zero_tally (players bowling_team m)) m in
    let m := set_last_bowler None m in
    let m := set__limits_session_number (session_number m) m in
    let batting_team := _batting_team m in
    let in_batting_team (p : PlayerRef) :=
      (p.1 =? batting_team) && (p.2 <? length (players batting_team m))%nat in
    let moved :=
      fold_left
        (fun (acc : list PlayerRef * bool) p =>
           if negb (in_batting_team p) then acc
           else if existsb (same_ref p) acc.1 then acc
           else (acc.1 ++ [p], true))
        (retired_hurt_pending m) (retired_hurt_returning m, false) in
    let m := set_retired_hurt_returning moved.1 m in
    let m :=
      set_retired_hurt_pending
        (List.filter (fun p => negb (in_batting_team p)) (retired_hurt_pending m)) m in
    let m := if moved.2 then set_retired_hurt_priority true m else m in
    set_day_counter (day_counter m + 1) m.

(** ** Chase completion *)

Definition check_chase_complete (m : Match) : bool * Match :=
  if negb (innings m =? 4) || match_over m then (false, m)
  else
    let '(t1, t2) := totals_by_team_including_current m in
    let bt := default 2 (innings_batting_team m !! 4) in
    if (bt =? 1) && (t2 <? t1) then
      let wkts_remaining := Z.max 0 (10 - wickets_taken m) in
      let m := set_match_over true m in
      (true, set_result_summary (Some (Win 1 (Wickets wkts_remaining))) m)
    else if (bt =? 2) && (t1 <? t2) then
      let wkts_remaining := Z.max 0 (10 - wickets_taken m) in
      let m := set_match_over true m in
      (true, set_result_summary (Some (Win 2 (Wickets wkts_remaining))) m)
    else (false, m).

(** ** The next batter *)

Definition clear_retired_marker (p : PlayerRef) (m : Match) : Match :=
  if String.eqb (lower (strip (Player.how_out (get_player p m)))) "retired hurt"
  then upd_player p (Player.set_how_out "") m
  else m.

(** [self.retired_hurt_returning.pop(0)] and what follows it. *)
Definition resume_retired (p : PlayerRef) (rest : list PlayerRef) (m : Match)
  : option PlayerRef * Match :=
  let m := set_retired_hurt_returning rest m in
  let m := clear_retired_marker p m in
  let m :=
    match retired_hurt_returning m with
    | [] => set_retired_hurt_priority false m
    | _ => m
    end in
  (Some p, m).

Definition _take_next_batsman (batting_team : Z) (m : Match) : option PlayerRef * Match :=
  match retired_hurt_returning m, retired_hurt_priority m with
  | p :: rest, true => resume_retired p rest m
  | _, _ =>
      if (next_batsman_index m <? length (players batting_team m))%nat then
        let p := (batting_team, next_batsman_index m) in
        (Some p, set_next_batsman_index (next_batsman_index m + 1) m)
      else
        match retired_hurt_returning m with
        | p :: rest => resume_retired p rest m
        | [] => (None, m)
        end
  end.

Definition _no_batsmen_left (batting_team : Z) (m : Match) : bool :=
  (length (players batting_team m) <=? next_batsman_index m)%nat
  && match retired_hurt_returning m with [] => true | _ => false end.

Definition _maybe_end_innings_no_batsmen (batting_team : Z) (m : Match) : bool * Match :=
  if (length (current_batsmen m) <? 2)%nat && _no_batsmen_left batting_team m
  then (true, end_innings true m)
  else (false, m).

Definition _bowler_can_bowl (bowler : option PlayerRef) (m : Match) : bool :=
  match bowler with
  | None => false
  | Some b =>
      let name := Player.name (get_player b m) in
      if 2 <=? tally (bowler_overs_session m) name then false
      else if 4 <=? tally (bowler_overs_today m) name then false
      else if bool_decide (last_bowler m = Some name) then false
      else true
  end.

(** ** The ball resolver *)

Definition _loose_ball_payload (card : Card.t) : Payload.t :=
  Payload.mk (Card.text card) (Card.out card) (Card.method card)
    (Card.batsman_runs card) (Card.bowler_runs card) (Card.extras_runs card)
    (Card.score_inc card)
    (default false (Card.no_ball card))
    (default false (Card.extra_ball card))
    (default false (Card.retired_hurt card)).

Definition no_card : Card.t := Card.mk "" None None 0 0 0 0 None None None.

(** [random.choice(self.LOOSE_BALL_CARDS)] *)
Definition draw_loose_ball (rng : list nat) : Payload.t * list nat :=
  let '(o, rng) := choice LOOSE_BALL_CARDS rng in
  (_loose_ball_payload (default no_card o), rng).

Definition dismissal_cells : list string :=
  ["Caught"; "Bowled"; "LBW"; "Stumped WK"; "Caught WK"].

(** The batsman and bowler arguments of the source are not used by it. *)
Definition simulate_ball (adj_bat_rating adj_bowl_rating : string) (rng : list nat)
  : Outcome * list nat :=
  let bat_row := dict_get BATTING_CHART adj_bat_rating (["";""] ++ replicate 11 "*") in
  let '(dice, rng) := roll_2d6 rng in
  if dice =? 12 then
    let '(p, rng) := draw_loose_ball rng in
    (ODict "Loose Ball" p, rng)
  else
    let bat_result := index_or bat_row dice (last_or bat_row "") in
    if String.eqb bat_result "*" then
      let bowl_row :=
        dict_get BOWLER_WICKET_CHART adj_bowl_rating (["";""] ++ replicate 11 "Not out") in
      let '(dice_w, rng) := roll_2d6 rng in
      let bowl_result := index_or bowl_row dice_w "Not out" in
      if String.eqb bowl_result "No ball" then
        (OAppeal "No Ball" None None, rng)
      else if String.eqb bowl_result "Loose Ball" then
        let '(p, rng) := draw_loose_ball rng in
        (OAppeal "Loose Ball" None (Some p), rng)
      else if existsb (String.eqb bowl_result) dismissal_cells then
        (OAppeal "Out" (Some bowl_result) None, rng)
      else
        (OAppeal "Not Out" None None, rng)
    else if String.eqb bat_result "Loose Ball" then
      let '(p, rng) := draw_loose_ball rng in
      (ODict "Loose Ball" p, rng)
    else
      match py_int bat_result with
      | Some n => (OInt n, rng)
      | None => (OInt 0, rng)
      end.

(** ** Applying an outcome *)

(** How the handling of one ball leaves the loop of [start_over]: it goes
    on to the bookkeeping at the end of the ball, [start_over] returns, or an
    exception escapes. *)
Inductive Flow := FNext | FReturn | FRaise.

(** The result of handling an outcome: the match, where control goes, and
    the locals [legal_delivery] and [bowler_wicket_this_ball]. *)
Record Handled := mkHandled {
  h_match : Match;
  h_flow : Flow;
  legal_delivery : bool;
  bowler_wicket_this_ball : bool
}.

Definition bowler_methods : list string :=
  ["bowled"; "lbw"; "caught"; "caught wk"; "stumped wk"].

Definition add_runs (n : Z) (p : Player) : Player := Player.set_runs (Player.runs p + n) p.
Definition add_balls_faced (n : Z) (p : Player) : Player :=
  Player.set_balls_faced (Player.balls_faced p + n) p.
Definition add_fours (n : Z) (p : Player) : Player := Player.set_fours (Player.fours p + n) p.
Definition add_sixes (n : Z) (p : Player) : Player := Player.set_sixes (Player.sixes p + n) p.
Definition add_wickets (n : Z) (p : Player) : Player :=
  Player.set_wickets (Player.wickets p + n) p.
Definition add_overs_bowled (n : Z) (p : Player) : Player :=
  Player.set_overs_bowled (Player.overs_bowled p + n) p.
Definition add_runs_conceded (n : Z) (p : Player) : Player :=
  Player.set_runs_conceded (Player.runs_conceded p + n) p.

(** [self.bowler.wickets += 1] with the hat-trick registration; gives the
    new [bowler_wicket_this_ball]. *)
Definition credit_bowler (method_lower : string) (b : PlayerRef) (m : Match) : Match * bool :=
  if existsb (String.eqb method_lower) bowler_methods then
    let m := upd_player b (add_wickets 1) m in
    (_register_bowler_wicket_for_hattrick b m, true)
  else (m, false).

(** The striker leaves retired hurt and the next batter takes the place. *)
Definition retire_hurt (striker : PlayerRef) (batting_team : Z) (m : Match) : Match * Flow :=
  let m := upd_player striker (Player.set_how_out "Retired Hurt") m in
  let m :=
    if existsb (same_ref striker) (retired_hurt_pending m) then m
    else set_retired_hurt_pending (retired_hurt_pending m ++ [striker]) m in
  let '(nb, m) := _take_next_batsman batting_team m in
  match nb with
  | Some p => (set_current_batsmen (<[0%nat := p]> (current_batsmen m)) m, FNext)
  | None =>
      let m := set_current_batsmen [] m in
      let '(ended, m) := _maybe_end_innings_no_batsmen batting_team m in
      (m, if ended then FReturn else FNext)
  end.

(** A no-ball, called on appeal or directly. *)
Definition no_ball_outcome (b : PlayerRef) (m : Match) : Handled :=
  let m := _apply_hattrick_miss_prefix b m in
  let m := set_runs (runs m + 1) m in
  let '(won, m) := check_chase_complete m in
  if won then mkHandled m FReturn true false
  else
    let m := set_extras (extras m + 1) m in
    let m := set_extras_nb (extras_nb m + 1) m in
    let m := upd_player b (add_runs_conceded 1) m in
    mkHandled m FNext false false.

Definition appeal_out (striker b : PlayerRef) (batting_team bowling_team : Z)
    (method_key : option string) (m : Match) : Handled :=
  let method := strip (default "" method_key) in
  let method_lower := lower method in
  let '(wk_name, fielder_name, m) :=
    if String.eqb method_lower "caught wk" || String.eqb method_lower "stumped wk" then
      let '(wk, m) := _get_wicketkeeper_name bowling_team m in
      (Some wk, None, m)
    else if String.eqb method_lower "caught" then
      let '(wk, m) := _get_wicketkeeper_name bowling_team m in
      let '(f, m) := choose_fielder bowling_team (Player.name (get_player b m)) wk m in
      (Some wk, Some f, m)
    else (None, None, m) in
  let m := _set_dismissal striker method bowling_team (Some b) fielder_name wk_name m in
  let '(m, bw) := credit_bowler (lower method) b m in
  let '(m, ended) := _increment_wicket_and_maybe_end m in
  if ended then mkHandled m FReturn true bw
  else
    let '(nb, m) := _take_next_batsman batting_team m in
    match nb with
    | Some p => mkHandled (set_current_batsmen (<[0%nat := p]> (current_batsmen m)) m) FNext true bw
    | None =>
        let m := set_current_batsmen [] m in
        let '(ended, m) := _maybe_end_innings_no_batsmen batting_team m in
        mkHandled m (if ended then FReturn else FNext) true bw
    end.

(** The fielder and keeper named for a loose-ball dismissal. *)
Definition loose_ball_names (method_lower text_lower : string) (b : PlayerRef)
    (bowling_team : Z) (m : Match) : option string * option string * Match :=
  if String.eqb method_lower "caught" then
    if contains "wicketkeeper" text_lower || contains "keeper" text_lower
       || contains "wk" text_lower then
      let '(wk, m) := _get_wicketkeeper_name bowling_team m in
      (Some wk, Some wk, m)
    else
      let '(wk, m) := _get_wicketkeeper_name bowling_team m in
      let '(f, m) := choose_fielder bowling_team (Player.name (get_player b m)) wk m in
      (None, Some f, m)
  else if String.eqb method_lower "caught wk" || String.eqb method_lower "stumped wk" then
    let '(wk, m) := _get_wicketkeeper_name bowling_team m in
    (Some wk, Some wk, m)
  else (None, None, m).

(** The extras of a loose-ball card, split by what its text says. *)
Definition book_extras_kind (text_lower : string) (no_ball : bool) (extras_runs : Z)
    (m : Match) : Match :=
  let m :=
    if contains "no ball" text_lower || no_ball then set_extras_nb (extras_nb m + 1) m
    else m in
  let m :=
    if contains "bye" text_lower then set_extras_b (extras_b m + extras_runs) m else m in
  if contains "leg bye" text_lower || contains "leg byes" text_lower
  then set_extras_lb (extras_lb m + extras_runs) m
  else m.

Definition no_payload : Payload.t := Payload.mk "" None None 0 0 0 0 false false false.

Definition appeal_loose_ball (striker b : PlayerRef) (batting_team bowling_team : Z)
    (card_key : option Payload.t) (m : Match) : Handled :=
  let m := _apply_hattrick_miss_prefix b m in
  let card := default no_payload card_key in
  let bats_runs := Payload.batsman_runs card in
  let extras_runs := Payload.extras_runs card in
  let bowler_runs := Payload.bowler_runs card in
  let score_inc := Payload.score_inc card in
  let m := upd_player striker (add_runs bats_runs) m in
  let m := set_runs (runs m + score_inc) m in
  let '(won, m) := check_chase_complete m in
  if won then mkHandled m FReturn true false
  else
    let m := upd_player b (add_runs_conceded bowler_runs) m in
    let m := set_extras (extras m + extras_runs) m in
    let text_lower := lower (Payload.text card) in
    let m := book_extras_kind text_lower (Payload.no_ball card) extras_runs m in
    let legal := negb (Payload.extra_ball card || Payload.no_ball card) in
    if Payload.retired_hurt card then
      let '(m, flow) := retire_hurt striker batting_team m in
      mkHandled m flow legal false
    else
      let out_flag := default "" (Payload.out card) in
      let who := lower (strip out_flag) in
      if String.eqb who "striker" || String.eqb who "non-striker" then
        let method_tmp := lower (strip (default "" (Payload.method card))) in
        let who :=
          if String.eqb method_tmp "run out" && contains "bowler" text_lower
          then "non-striker" else who in
        let replace_index := if String.eqb who "striker" then 0%nat else 1%nat in
        match current_batsmen m !! replace_index with
        | None => mkHandled m FRaise legal false
        | Some out_player =>
            let method := strip (default "" (Payload.method card)) in
            let method_lower := lower method in
            let '(m, bw) := credit_bowler method_lower b m in
            let '(wk_name, fielder_name, m) :=
              loose_ball_names method_lower text_lower b bowling_team m in
            let m :=
              _set_dismissal out_player method bowling_team (Some b) fielder_name wk_name m in
            let '(m, ended) := _increment_wicket_and_maybe_end m in
            if ended then mkHandled m FReturn legal bw
            else
              let '(nb, m) := _take_next_batsman batting_team m in
              match nb with
              | Some p =>
                  mkHandled (set_current_batsmen (<[replace_index := p]> (current_batsmen m)) m)
                            FNext legal bw
              | None =>
                  let m :=
                    set_current_batsmen
                      (List.filter (fun p => negb (same_ref p out_player)) (current_batsmen m))
                      m in
                  let '(ended, m) := _maybe_end_innings_no_batsmen batting_team m in
                  mkHandled m (if ended then FReturn else FNext) legal bw
              end
        end
      else mkHandled m FNext legal false.

(** A dictionary that is neither an appeal nor a no-ball: this is where the
    ["Loose Ball"] payload of the resolver is applied. *)
Definition unknown_dict (striker b : PlayerRef) (batting_team bowling_team : Z)
    (outcome : Payload.t) (m : Match) : Handled :=
  let m := _apply_hattrick_miss_prefix b m in
  let bats_runs := Payload.batsman_runs outcome in
  let extras_runs := Payload.extras_runs outcome in
  let bowler_runs := Payload.bowler_runs outcome in
  let score_inc := Payload.score_inc outcome in
  let m := upd_player striker (add_runs bats_runs) m in
  let m := set_runs (runs m + score_inc) m in
  let m := set_extras (extras m + extras_runs) m in
  let m := upd_player b (add_runs_conceded bowler_runs) m in
  let text_lower := lower (Payload.text outcome) in
  let legal := negb (contains "no ball" text_lower || Payload.no_ball outcome) in
  let m := book_extras_kind text_lower (Payload.no_ball outcome) extras_runs m in
  let finish (m : Match) (bw : bool) : Handled :=
    let '(won, m) := check_chase_complete m in
    mkHandled m (if won then FReturn else FNext) legal bw in
  if Payload.retired_hurt outcome then
    let '(m, flow) := retire_hurt striker batting_team m in
    match flow with
    | FNext => finish m false
    | _ => mkHandled m flow legal false
    end
  else
    let out_flag := default "" (Payload.out outcome) in
    if String.eqb (lower (strip out_flag)) "striker" then
      let method := strip (default "" (Payload.method outcome)) in
      let method_lower := lower method in
      let '(m, bw) := credit_bowler method_lower b m in
      let '(m, ended) := _increment_wicket_and_maybe_end m in
      if ended then mkHandled m FReturn legal bw
      else
        let '(wk_name, fielder_name, m) :=
          loose_ball_names method_lower text_lower b bowling_team m in
        let m := _set_dismissal striker method bowling_team (Some b) fielder_name wk_name m in
        let '(nb, m) := _take_next_batsman batting_team m in
        match nb with
        | Some p => finish (set_current_batsmen (<[0%nat := p]> (current_batsmen m)) m) bw
        | None =>
            let m := set_current_batsmen (tl (current_batsmen m)) m in
            let '(ended, m) := _maybe_end_innings_no_batsmen batting_team m in
            if ended then mkHandled m FReturn legal bw else finish m bw
        end
    else finish m false.

(** The bare string ["W"]. *)
Definition wicket_outcome (striker b : PlayerRef) (batting_team bowling_team : Z)
    (m : Match) : Handled :=
  let m := upd_player b (add_wickets 1) m in
  let m := _register_bowler_wicket_for_hattrick b m in
  let m := _set_dismissal striker "Bowled" bowling_team (Some b) None None m in
  let '(m, ended) := _increment_wicket_and_maybe_end m in
  if ended then mkHandled m FReturn true true
  else
    let '(nb, m) := _take_next_batsman batting_team m in
    match nb with
    | Some p => mkHandled (set_current_batsmen (<[0%nat := p]> (current_batsmen m)) m) FNext true true
    | None =>
        let m := set_current_batsmen [] m in
        let '(ended, m) := _maybe_end_innings_no_batsmen batting_team m in
        mkHandled m (if ended then FReturn else FNext) true true
    end.

Definition swap_strike (l : list PlayerRef) : list PlayerRef :=
  match l with
  | [a; b] => [b; a]
  | _ => l
  end.

(** [runs = int(outcome)] and what follows. *)
Definition runs_outcome (striker b : PlayerRef) (runs_scored : Z) (m : Match) : Handled :=
  let m := set_runs (runs m + runs_scored) m in
  let m := upd_player striker (add_runs runs_scored) m in
  let m :=
    if runs_scored =? 4 then upd_player striker (add_fours 1) m
    else if runs_scored =? 6 then upd_player striker (add_sixes 1) m
    else m in
  let m := upd_player b (add_runs_conceded runs_scored) m in
  let m := _apply_hattrick_miss_prefix b m in
  let '(won, m) := check_chase_complete m in
  if won then mkHandled m FReturn true false
  else
    let m :=
      if (runs_scored mod 2 =? 1) && Nat.eqb (length (current_batsmen m)) 2
      then set_current_batsmen (swap_strike (current_batsmen m)) m
      else m in
    mkHandled m FNext true false.

Definition handle_outcome (striker b : PlayerRef) (batting_team bowling_team : Z)
    (outcome : Outcome) (m : Match) : Handled :=
  match outcome with
  | OAppeal appeal_result method card =>
      if String.eqb appeal_result "Not Out" then
        mkHandled (_apply_hattrick_miss_prefix b m) FNext true false
      else if String.eqb appeal_result "Out" then
        appeal_out striker b batting_team bowling_team method m
      else if String.eqb appeal_result "No Ball" then
        no_ball_outcome b m
      else if String.eqb appeal_result "Loose Ball" then
        appeal_loose_ball striker b batting_team bowling_team card m
      else mkHandled m FNext true false
  | ODict type p =>
      if String.eqb type "Appeal" then mkHandled m FNext true false
      else if String.eqb type "No Ball" then no_ball_outcome b m
      else unknown_dict striker b batting_team bowling_team p m
  | OStr s =>
      if String.eqb s "W" then wicket_outcome striker b batting_team bowling_team m
      else
        match py_int s with
        | Some n => runs_outcome striker b n m
        | None => mkHandled m FRaise true false
        end
  | OInt n => runs_outcome striker b n m
  end.

(** ** An over *)

(** How the [while ball < 6] loop is left. *)
Inductive LoopExit := LoopDone | LoopReturn | LoopRaise.

(** The bookkeeping at the end of a ball that did not end the call; gives the
    new value of [ball]. *)
Definition end_of_ball (striker : PlayerRef) (ball : nat) (h : Handled) : Handled * nat :=
  match h_flow h with
  | FNext =>
      let m := h_match h in
      let m := if bowler_wicket_this_ball h then m else _break_hattrick_chain m in
      if legal_delivery h then
        let m := upd_player striker (add_balls_faced 1) m in
        let ball := S ball in
        let m := set_current_over_legal_balls (Z.of_nat ball) m in
        (mkHandled m FNext true (bowler_wicket_this_ball h), ball)
      else (mkHandled m FNext false (bowler_wicket_this_ball h), ball)
  | _ => (h, ball)
  end.

(** One pass through the loop body, from the roll of the dice to the end of
    the ball. *)
Definition play_ball (striker b : PlayerRef) (batting_team bowling_team : Z)
    (ball : nat) (m : Match) : Handled * nat :=
  let '(bat_mod, bowl_mod) := _current_condition_modifiers_for_over m in
  let adj_bat_rating :=
    apply_rating_modifier (Player.batting_rating (get_player striker m)) bat_mod in
  let base_bowl_rating :=
    if truthy (Player.bowling_rating (get_player b m))
    then default "" (Player.bowling_rating (get_player b m)) else "A" in
  let adj_bowl_rating := apply_rating_modifier base_bowl_rating bowl_mod in
  let '(outcome, rng) := simulate_ball adj_bat_rating adj_bowl_rating (random m) in
  let m := set_random rng m in
  end_of_ball striker ball (handle_outcome striker b batting_team bowling_team outcome m).

(** The loop; [fuel] bounds the number of deliveries, since no-balls do not
    advance [ball].  [None] means the bound was reached. *)
Fixpoint over_loop (fuel : nat) (b : PlayerRef) (batting_team bowling_team : Z)
    (ball : nat) (m : Match) : option (Match * LoopExit) :=
  match fuel with
  | O => None
  | S fuel =>
      if (6 <=? ball)%nat then Some (m, LoopDone)
      else
        match current_batsmen m with
        | [] => Some (m, LoopDone)
        | striker :: _ =>
            let '(h, ball) := play_ball striker b batting_team bowling_team ball m in
            let m := h_match h in
            match h_flow h with
            | FReturn => Some (m, LoopReturn)
            | FRaise => Some (m, LoopRaise)
            | FNext =>
                if (10 <=? wickets_taken m) || (length (current_batsmen m) <? 2)%nat
                then Some (m, LoopDone)
                else over_loop fuel b batting_team bowling_team ball m
            end
        end
  end.

(** What follows the loop: the over is booked, then session, innings and day
    may end. *)
Definition end_of_over (bowler_name : string) (b : PlayerRef)
    (batting_team bowling_team : Z) (m : Match) : Match :=
  let m :=
    if Nat.eqb (length (current_batsmen m)) 2
    then set_current_batsmen (swap_strike (current_batsmen m)) m else m in
  let bname := Player.name (get_player b m) in
  let m := upd_player b (add_overs_bowled 1) m in
  let m :=
    set_bowler_overs_session
      (<[bname := tally (bowler_overs_session m) bname + 1]> (bowler_overs_session m)) m in
  let m :=
    set_bowler_overs_today
      (<[bname := tally (bowler_overs_today m) bname + 1]> (bowler_overs_today m)) m in
  let m := set_overs_completed (overs_completed m + 1) m in
  let m := set_overs_in_day (overs_in_day m + 1) m in
  let m := set_session_overs_completed (session_overs_completed m + 1) m in
  let m := set_last_bowler (Some bowler_name) m in
  let m :=
    if (overs_per_session m <=? session_overs_completed m)
       && ((day_overs_scheduled m =? 0) || (overs_in_day m <? day_overs_scheduled m)) then
      let m := set_session_number (session_number m + 1) m in
      let m := set_session_overs_completed 0 m in
      let m := set_last_bowler None m in
      let m := set_bowler_overs_session (zero_tally (players bowling_team m)) m in
      set__limits_session_number (session_number m) m
    else m in
  let '(won, m) := check_chase_complete m in
  if won then m
  else
    let m := if 10 <=? wickets_taken m then end_innings false m else m in
    if negb (match_over m) && (0 <? day_overs_scheduled m)
       && (day_overs_scheduled m <=? overs_in_day m)
    then start_new_day m
    else m.

(** How a call of [start_over] ends. *)
Inductive Status :=
| Raised          (* an exception escapes; a finished match raises AttributeError,
                     [Match] having no [_showinfo_deferred] *)
| NewDay          (* the day had no overs left: the next day is begun *)
| Rejected        (* an error box is shown and nothing is bowled *)
| Stopped         (* the call returns from inside the over *)
| OverBowled.     (* the over is booked *)

Definition showerror (title message : string) (m : Match) : Match :=
  set_gui_dialogs (gui_dialogs m ++ [ShowError title message]) m.

(** [next((p for p in bowling_team if p.name == bowler_name), None)] *)
Fixpoint find_name (bowler_name : string) (ps : list Player) (i : nat) : option nat :=
  match ps with
  | [] => None
  | p :: ps' =>
      if String.eqb (Player.name p) bowler_name then Some i
      else find_name bowler_name ps' (S i)
  end.

Definition find_bowler (bowler_name : string) (bowling_team : Z) (m : Match)
  : option PlayerRef :=
  (fun i => (bowling_team, i)) <$> find_name bowler_name (players bowling_team m) 0.

Definition start_over (fuel : nat) (bowler_name : string) (m : Match)
  : option (Match * Status) :=
  if match_over m then Some (m, Raised)
  else if (day_overs_scheduled m =? 0) || (day_overs_scheduled m <=? overs_in_day m) then
    Some (start_new_day m, NewDay)
  else
    let batting_team := _batting_team m in
    let bowling_team := _bowling_team m in
    let m :=
      if negb (_limits_session_number m =? session_number m) then
        let m := set_bowler_overs_session (zero_tally (players bowling_team m)) m in
        let m := set_last_bowler None m in
        set__limits_session_number (session_number m) m
      else m in
    let m := set_bowler (find_bowler bowler_name bowling_team m) m in
    match bowler m with
    | None => Some (showerror "Error" "Invalid bowler selected" m, Rejected)
    | Some b =>
        let bname := Player.name (get_player b m) in
        let m := set_bowler_overs_session (setdefault0 bname (bowler_overs_session m)) m in
        let m := set_bowler_overs_today (setdefault0 bname (bowler_overs_today m)) m in
        if 2 <=? tally (bowler_overs_session m) bname then
          Some (showerror "Error"
                  (bowler_name +:+ " has already bowled 2 overs this session.") m, Rejected)
        else if 4 <=? tally (bowler_overs_today m) bname then
          Some (showerror "Error"
                  (bowler_name +:+ " has already bowled 4 overs today.") m, Rejected)
        else if bool_decide (Some bowler_name = last_bowler m) then
          Some (showerror "Error" "Bowler cannot bowl consecutive overs." m, Rejected)
        else
          let m := set_current_over_legal_balls 0 m in
          let m := set__limits_session_number (session_number m) m in
          match over_loop fuel b batting_team bowling_team 0 m with
          | None => None
          | Some (m, LoopReturn) => Some (m, Stopped)
          | Some (m, LoopRaise) => Some (m, Raised)
          | Some (m, LoopDone) =>
              let m := end_of_over bowler_name b batting_team bowling_team m in
              Some (m, OverBowled)
          end
    end.

(** ** Construction *)

(** [Match(team1, team2, gui)], with what the environment will supply. *)
Definition new_match (team1 team2 : list Player) (rng : list nat) (answers : list bool)
  : Match :=
  start_new_day
    {| team1 := team1; team2 := team2;
       random := rng; gui_askyesno := answers; gui_dialogs := [];
       _hattrick_count := 0; _hattrick_pending_bowler := None;
       _last_ball_was_bowler_wicket := false; _last_wicket_bowler := None;
       innings_declared := false;
       retired_hurt_pending := []; retired_hurt_returning := [];
       retired_hurt_priority := false;
       _wk_name_by_innings := ∅;
       innings := 1; runs := 0; wickets_taken := 0; overs_completed := 0;
       overs_per_session := 8; session_overs_completed := 0; session_number := 1;
       last_bowler := None;
       current_batsmen := [(1, 0%nat); (1, 1%nat)]; next_batsman_index := 2;
       bowler := None;
       bowler_overs_session := zero_tally team2; bowler_overs_today := zero_tally team2;
       match_over := false; result_summary := None;
       extras := 0; extras_nb := 0; extras_b := 0; extras_lb := 0; extras_w := 0;
       innings_summaries := ∅; innings_batting_team := {[1 := 1]};
       follow_on_enforced := false; follow_on_threshold := 200;
       fow := []; current_over_legal_balls := 0; _limits_session_number := 1;
       current_conditions := None; day_counter := 1; current_day := 1;
       day_overs_target := DAY_OVERS; day_overs_scheduled := DAY_OVERS; overs_in_day := 0;
       day_no_play := false; day_overs_lost_start := 0; day_overs_lost_end := 0 |}.

(** ** Reachable matches *)

(** The states a match goes through: it is constructed with two elevens,
    overs are started, the batting side may declare, and the environment
    decides what the random module and the follow-on dialog will answer
    next. *)
Inductive reachable : Match -> Prop :=
| reach_new team1 team2 rng answers :
    length team1 = 11%nat -> length team2 = 11%nat ->
    reachable (new_match team1 team2 rng answers)
| reach_start_over m fuel bowler_name m' st :
    reachable m -> start_over fuel bowler_name m = Some (m', st) -> reachable m'
| reach_declare m :
    reachable m -> reachable (declare_innings m)
| reach_random m rng :
    reachable m -> reachable (set_random rng m)
| reach_answers m answers :
    reachable m -> reachable (set_gui_askyesno answers m).

(** Several overs in a row, one bowler name per over. *)
Fixpoint bowl_overs (fuel : nat) (bowlers : list string) (m : Match) : option Match :=
  match bowlers with
  | [] => Some m
  | bowler_name :: rest =>
      match start_over fuel bowler_name m with
      | Some (m', _) => bowl_overs fuel rest m'
      | None => None
      end
  end.

(** ** Observations the specification speaks of *)

(** The runs scored off the bat by all batters of the batting side. *)
Definition off_the_bat (m : Match) : Z :=
  foldr Z.add 0 (map Player.runs (players (_batting_team m) m)).

(** The same, read from the batting rows of a completed innings. *)
Definition summary_off_the_bat (s : Summary.t) : Z :=
  foldr Z.add 0 (map BatRow.runs (Summary.batting_rows s)).

(** How many times the follow-on dialog has been opened. *)
Definition asks (ds : list Dialog) : nat :=
  length (List.filter (fun d => match d with AskYesNo _ _ => true | _ => false end) ds).

(** ** A sample match *)

Definition player (name bat : string) (bowl : option string) (wk : bool) : Player :=
  Player.mk name "" bat bowl wk 0 0 0 0 "" 0 0 0.

Definition lions : list Player :=
  [player "Archer" "A" None false; player "Banks" "B" None false;
   player "Cole" "F" None false; player "Dunn" "B" None false;
   player "Eyre" "C" (Some "D") false; player "Finch" "C" None true;
   player "Gale" "D" (Some "C") false; player "Hart" "E" (Some "B") false;
   player "Ives" "F" (Some "A") false; player "Joyce" "F" (Some "A") false;
   player "Kerr" "G" (Some "B") false].

Definition tigers : list Player :=
  [player "Lowe" "A" None false; player "Mace" "B" None false;
   player "Nash" "F" None false; player "Orr" "B" None false;
   player "Pike" "C" (Some "D") false; player "Quin" "C" None true;
   player "Rudd" "D" (Some "C") false; player "Shaw" "E" (Some "B") false;
   player "Tate" "F" (Some "A") false; player "Ure" "F" (Some "A") false;
   player "Vane" "G" (Some "B") false].

(** Lions bat first; the first draw picks the card of day one. *)
Definition sample_match (rng : list nat) : Match := new_match lions tigers rng [].

(** * Vocabulary of the properties *)

(** Cells of the charts, scenarios, the invariants of a match and the
    stages into which the longer engine functions are cut. *)

(** What a cell of a batting row can be. *)
Definition bat_cell_ok (cell : string) : Prop :=
  cell = "*" \/ cell = "Loose Ball"
  \/ exists n, py_int cell = Some n /\ n ∈ [0; 1; 2; 3; 4; 6]
               /\ String.eqb cell "*" = false /\ String.eqb cell "Loose Ball" = false.

Definition bat_row_ok (row : list string) : Prop :=
  forall dice, 2 <= dice <= 11 -> bat_cell_ok (index_or row dice (last_or row "")).

(** What the appeal branch makes of a cell of a bowler row. *)
Definition appeal_of_cell (bowl_result : string) (rng : list nat) : Outcome * list nat :=
  if String.eqb bowl_result "No ball" then (OAppeal "No Ball" None None, rng)
  else if String.eqb bowl_result "Loose Ball" then
    let '(p, rng) := draw_loose_ball rng in (OAppeal "Loose Ball" None (Some p), rng)
  else if existsb (String.eqb bowl_result) dismissal_cells then
    (OAppeal "Out" (Some bowl_result) None, rng)
  else (OAppeal "Not Out" None None, rng).

Definition appeal_ok (o : Outcome) : Prop :=
  exists r method card,
    o = OAppeal r method card
    /\ r ∈ ["Not Out"; "Out"; "No Ball"; "Loose Ball"]
    /\ (r = "Out" -> exists mth, method = Some mth /\ mth ∈ dismissal_cells)
    /\ (r = "Loose Ball" ->
        exists c, c ∈ LOOSE_BALL_CARDS /\ card = Some (_loose_ball_payload c)).

(** The branch for a loose ball, taken on a sum of 12 and on a
    ["Loose Ball"] cell. *)
Definition draw_loose_ball_as_outcome (rng : list nat) : Outcome * list nat :=
  let '(p, rng) := draw_loose_ball rng in
  (ODict "Loose Ball" p, rng).

(** A closed innings of [r] runs, all out. *)
Definition closed_innings (i r : Z) : Summary.t :=
  Summary.mk i r 10 40 0 0 0 0 0 [] [] [].

(** The match a call of [start_over] leaves. *)
Definition match_after (r : option (Match * Status)) : Match :=
  match r with
  | Some (m, _) => m
  | None => sample_match []
  end.

(** The fourth innings of a match in which the first three were all out for
    100 each: Tigers are 99 for 9, two runs short of winning, with their
    last pair in. *)
Definition last_pair_chasing (rng : list nat) : Match :=
  let m := sample_match [0%nat] in
  let m := set_innings 4 m in
  let m :=
    set_innings_batting_team
      (<[4 := 2]> (<[3 := 1]> (<[2 := 2]> (innings_batting_team m)))) m in
  let m :=
    set_innings_summaries
      (<[3 := closed_innings 3 100]>
         (<[2 := closed_innings 2 100]> (<[1 := closed_innings 1 100]> ∅))) m in
  let m := set_runs 99 m in
  let m := set_wickets_taken 9 m in
  let m := set_current_batsmen [(2, 9%nat); (2, 10%nat)] m in
  let m := set_next_batsman_index 11 m in
  let m := set_bowler_overs_session (zero_tally (team1 m)) m in
  let m := set_bowler_overs_today (zero_tally (team1 m)) m in
  set_random rng m.

(** A third innings played as a follow-on: Lions made [r1], Tigers [r2] and,
    batting again, are all out for [r3]. *)
Definition follow_on_innings (r1 r2 r3 : Z) : Match :=
  let m := sample_match [0%nat] in
  let m := set_innings 3 m in
  let m := set_follow_on_enforced true m in
  let m :=
    set_innings_batting_team (<[3 := 2]> (<[2 := 2]> (innings_batting_team m))) m in
  let m :=
    set_innings_summaries (<[2 := closed_innings 2 r2]> (<[1 := closed_innings 1 r1]> ∅)) m in
  let m := set_runs r3 m in
  set_wickets_taken 10 m.

Record Inv (m : Match) : Prop := {
  inv_wickets : 0 <= wickets_taken m <= 10;
  inv_session : map_Forall (fun _ n => n <= 2) (bowler_overs_session m);
  inv_today : map_Forall (fun _ n => n <= 4) (bowler_overs_today m);
  inv_marker : _limits_session_number m = session_number m;
  inv_threshold : follow_on_threshold m = 200;
  inv_innings : 1 <= innings m <= 4;
  inv_side1 : innings_batting_team m !! 1 = Some 1;
  inv_side2 : 2 <= innings m -> innings_batting_team m !! 2 = Some 2;
  inv_side3 :
    3 <= innings m ->
    innings_batting_team m !! 3 = Some (if follow_on_enforced m then 2 else 1);
  inv_side4 :
    4 <= innings m ->
    innings_batting_team m !! 4 = Some (if follow_on_enforced m then 1 else 2);
  inv_asks : (asks (gui_dialogs m) <= 1)%nat;
  inv_before : innings m <= 2 -> asks (gui_dialogs m) = 0%nat /\ follow_on_enforced m = false;
  inv_enforced : follow_on_enforced m = true -> asks (gui_dialogs m) = 1%nat;
  inv_offered :
    3 <= innings m ->
    asks (gui_dialogs m)
    = if 200 <=? summary_runs 1 m - summary_runs 2 m then 1%nat else 0%nat
}.

(** The part of the match the invariants read, wickets aside, together with
    the players' names, the summaries of the innings and the counters of the
    day; a match that is over stays over. *)
Record same_core (m m' : Match) : Prop := {
  sc_session : bowler_overs_session m' = bowler_overs_session m;
  sc_today : bowler_overs_today m' = bowler_overs_today m;
  sc_marker : _limits_session_number m' = _limits_session_number m;
  sc_session_number : session_number m' = session_number m;
  sc_threshold : follow_on_threshold m' = follow_on_threshold m;
  sc_dialogs : gui_dialogs m' = gui_dialogs m;
  sc_innings : innings m' = innings m;
  sc_enforced : follow_on_enforced m' = follow_on_enforced m;
  sc_sides : innings_batting_team m' = innings_batting_team m;
  sc_names1 : map Player.name (team1 m') = map Player.name (team1 m);
  sc_names2 : map Player.name (team2 m') = map Player.name (team2 m);
  sc_summaries : innings_summaries m' = innings_summaries m;
  sc_last_bowler : last_bowler m' = last_bowler m;
  sc_overs_in_day : overs_in_day m' = overs_in_day m;
  sc_scheduled : day_overs_scheduled m' = day_overs_scheduled m;
  sc_session_overs : session_overs_completed m' = session_overs_completed m;
  sc_per_session : overs_per_session m' = overs_per_session m;
  sc_day_counter : day_counter m' = day_counter m;
  sc_over : match_over m = true -> match_over m' = true
}.

(** [m'] comes from [m] by steps that leave that part alone and keep the
    wicket count within its range. *)
Definition keep (m m' : Match) : Prop :=
  same_core m m' /\ (0 <= wickets_taken m <= 10 -> 0 <= wickets_taken m' <= 10).

(** [m'] comes from [m] by steps that preserve the invariants. *)
Definition step (m m' : Match) : Prop := Inv m -> Inv m'.

(** A change that touches neither the core nor the wickets. *)
Definition frame (m m' : Match) : Prop :=
  same_core m m' /\ wickets_taken m' = wickets_taken m.

(** The batting side chosen for the innings that begins. *)
Definition choose_side (m : Match) : Match :=
  if innings m =? 2 then
    set_innings_batting_team (<[2 := 2]> (innings_batting_team m)) m
  else if innings m =? 3 then
    set_innings_batting_team
      (<[3 := if follow_on_enforced m then 2 else 1]> (innings_batting_team m)) m
  else if innings m =? 4 then
    set_innings_batting_team
      (<[4 := if default 1 (innings_batting_team m !! 3) =? 2 then 1 else 2]>
         (innings_batting_team m)) m
  else m.

(** The counters of the innings set back, once the side is chosen. *)
Definition reset_counters (m : Match) : Match :=
  let m := set_runs 0 m in
  let m := set_wickets_taken 0 m in
  let m := set_overs_completed 0 m in
  let m := set_current_over_legal_balls 0 m in
  let m := set__limits_session_number (session_number m) m in
  let m := set_fow [] m in
  let m := set_extras 0 m in
  let m := set_extras_nb 0 m in
  let m := set_extras_b 0 m in
  let m := set_extras_lb 0 m in
  set_extras_w 0 m.

(** The tallies, the players and the crease of the new innings. *)
Definition reset_sides (m : Match) : Match :=
  let batting_team := _batting_team m in
  let bowling_team := _bowling_team m in
  let m := set_bowler_overs_session (zero_tally (players bowling_team m)) m in
  let m := set_bowler_overs_today (zero_tally (players bowling_team m)) m in
  let m := set_last_bowler None m in
  let m := set__limits_session_number (session_number m) m in
  let m := map_team batting_team reset_batting m in
  let m := map_team bowling_team reset_bowling m in
  let m := set_current_batsmen [(batting_team, 0%nat); (batting_team, 1%nat)] m in
  let m := set_next_batsman_index 2 m in
  let m := set_bowler None m in
  set_last_bowler None m.

Definition next_innings (m : Match) : Match :=
  reset_sides (reset_counters (choose_side (set_innings (innings m + 1) m))).

(** What the invariants ask of a match whose next innings is about to
    begin, the follow-on question being settled. *)
Record Closing (m : Match) : Prop := {
  cl_innings : 1 <= innings m <= 3;
  cl_threshold : follow_on_threshold m = 200;
  cl_side1 : innings_batting_team m !! 1 = Some 1;
  cl_side2 : 2 <= innings m -> innings_batting_team m !! 2 = Some 2;
  cl_side3 :
    3 <= innings m ->
    innings_batting_team m !! 3 = Some (if follow_on_enforced m then 2 else 1);
  cl_asks : (asks (gui_dialogs m) <= 1)%nat;
  cl_before : innings m = 1 -> asks (gui_dialogs m) = 0%nat /\ follow_on_enforced m = false;
  cl_enforced : follow_on_enforced m = true -> asks (gui_dialogs m) = 1%nat;
  cl_offered :
    2 <= innings m ->
    asks (gui_dialogs m)
    = if 200 <=? summary_runs 1 m - summary_runs 2 m then 1%nat else 0%nat
}.

(** The schedule and the bowling limits of the day, once its card is drawn. *)
Definition schedule_day (template : Condition.t) (m : Match) : Match :=
  let m := set_current_conditions (Some template) m in
  let m := set_day_no_play (Condition.no_play template) m in
  let m := set_day_overs_lost_start (Condition.overs_lost_start template) m in
  let m := set_day_overs_lost_end (Condition.overs_lost_end template) m in
  let m :=
    if day_no_play m then set_day_overs_scheduled 0 m
    else
      let lost_total := day_overs_lost_start m + day_overs_lost_end m in
      set_day_overs_scheduled (Z.max 0 (DAY_OVERS - lost_total)) m in
  let m := set_overs_in_day 0 m in
  let m := set_session_overs_completed 0 m in
  let m := set_session_number 1 m in
  let m := set_last_bowler None m in
  let bowling_team := _bowling_team m in
  let m := set_bowler_overs_today (zero_tally (players bowling_team m)) m in
  let m := set_bowler_overs_session (zero_tally (players bowling_team m)) m in
  let m := set_last_bowler None m in
  set__limits_session_number (session_number m) m.

(** The retired-hurt batters of the batting side queue up to return. *)
Definition recall_retired_hurt (m : Match) : Match :=
  let batting_team := _batting_team m in
  let in_batting_team (p : PlayerRef) :=
    (p.1 =? batting_team) && (p.2 <? length (players batting_team m))%nat in
  let moved :=
    fold_left
      (fun (acc : list PlayerRef * bool) p =>
         if negb (in_batting_team p) then acc
         else if existsb (same_ref p) acc.1 then acc
         else (acc.1 ++ [p], true))
      (retired_hurt_pending m) (retired_hurt_returning m, false) in
  let m := set_retired_hurt_returning moved.1 m in
  let m :=
    set_retired_hurt_pending
      (List.filter (fun p => negb (in_batting_team p)) (retired_hurt_pending m)) m in
  let m := if moved.2 then set_retired_hurt_priority true m else m in
  set_day_counter (day_counter m + 1) m.

(** A handler that lets the over go on has kept the core; one that makes
    [start_over] return has at least preserved the invariants. *)
Definition handled_ok (m : Match) (h : Handled) : Prop :=
  match h_flow h with
  | FReturn => step m (h_match h)
  | _ => keep m (h_match h)
  end.

(** The over entered in the books: strike, bowler's figures, tallies,
    counters and the session break. *)
Definition book_over (bowler_name : string) (b : PlayerRef) (bowling_team : Z)
    (m : Match) : Match :=
  let m :=
    if Nat.eqb (length (current_batsmen m)) 2
    then set_current_batsmen (swap_strike (current_batsmen m)) m else m in
  let bname := Player.name (get_player b m) in
  let m := upd_player b (add_overs_bowled 1) m in
  let m :=
    set_bowler_overs_session
      (<[bname := tally (bowler_overs_session m) bname + 1]> (bowler_overs_session m)) m in
  let m :=
    set_bowler_overs_today
      (<[bname := tally (bowler_overs_today m) bname + 1]> (bowler_overs_today m)) m in
  let m := set_overs_completed (overs_completed m + 1) m in
  let m := set_overs_in_day (overs_in_day m + 1) m in
  let m := set_session_overs_completed (session_overs_completed m + 1) m in
  let m := set_last_bowler (Some bowler_name) m in
  if (overs_per_session m <=? session_overs_completed m)
     && ((day_overs_scheduled m =? 0) || (overs_in_day m <? day_overs_scheduled m)) then
    let m := set_session_number (session_number m + 1) m in
    let m := set_session_overs_completed 0 m in
    let m := set_last_bowler None m in
    let m := set_bowler_overs_session (zero_tally (players bowling_team m)) m in
    set__limits_session_number (session_number m) m
  else m.

(** The state in which the bowler is checked: limits of a new session
    reset, bowler looked up, tallies given an entry. *)
Definition select_bowler (bowler_name : string) (m : Match) : Match :=
  let bowling_team := _bowling_team m in
  let m :=
    if negb (_limits_session_number m =? session_number m) then
      let m := set_bowler_overs_session (zero_tally (players bowling_team m)) m in
      let m := set_last_bowler None m in
      set__limits_session_number (session_number m) m
    else m in
  set_bowler (find_bowler bowler_name bowling_team m) m.

Definition enter_tallies (b : PlayerRef) (m : Match) : Match :=
  let bname := Player.name (get_player b m) in
  let m := set_bowler_overs_session (setdefault0 bname (bowler_overs_session m)) m in
  set_bowler_overs_today (setdefault0 bname (bowler_overs_today m)) m.

(** Whether a bowler found on the bowling side may not bowl the next over. *)
Definition ineligible (bowler_name : string) (m : Match) : Prop :=
  2 <= tally (bowler_overs_session m) bowler_name
  \/ 4 <= tally (bowler_overs_today m) bowler_name
  \/ last_bowler m = Some bowler_name.

(** Lions declare at 264 after nine overs of the sample match, every die
    showing two; the Tigers' innings is about to begin, and the answer to
    the next question will be yes. *)
Definition lions_declared_at_264 : Match :=
  declare_innings
    (set_gui_askyesno [true]
       (default (sample_match [])
          (bowl_overs 7
             ["Tate"; "Ure"; "Tate"; "Ure"; "Shaw"; "Rudd"; "Shaw"; "Rudd"; "Tate"]
             (sample_match (0%nat :: replicate 300 1%nat))))).

(** A match that is on has a wicket in hand. *)
Definition live (m : Match) : Prop := match_over m = false -> wickets_taken m < 10.

(** [m'] comes from [m] by steps that preserve [live]. *)
Definition lstep (m m' : Match) : Prop := live m -> live m'.

Definition handled_live (m : Match) (h : Handled) : Prop := lstep m (h_match h).

(** Nine wickets down in the first innings of the sample match: every ball
    of Tate's over and the first three of Ure's draw the loose-ball card
    "Ball keeps low - LBW", the last three of Ure's a dropped catch. *)
Definition nine_down : Match :=
  default (sample_match [])
    (bowl_overs 7 ["Tate"; "Ure"]
       (sample_match
          (0%nat :: concat (replicate 9 [5; 5; 18]) ++ concat (replicate 3 [5; 5; 14]))%nat)).

(** What closing an innings records. *)
Definition closed_with (wkts : Z) (m m' : Match) : Prop :=
  (exists s, innings_summaries m' !! innings m = Some s
             /\ Summary.wickets s = wkts /\ Summary.runs s = runs m)
  /\ (match_over m' = true \/ innings m' = innings m + 1 /\ wickets_taken m' = 0).

(** The sample match after Tate has bowled the first over, every die
    showing two. *)
Definition after_tate : Match :=
  match_after (start_over 7 "Tate" (sample_match (0%nat :: replicate 200 1%nat))).

(** Whether the over now to be bowled completes the session. *)
Definition completes_session (m : Match) : bool :=
  (overs_per_session m <=? session_overs_completed m + 1)
  && ((day_overs_scheduled m =? 0) || (overs_in_day m + 1 <? day_overs_scheduled m)).

(** Lions declare at 216 after six overs of the sample match, every ball
    hit for six; the Tigers' innings is about to begin.  The draws to come
    give five overs of dropped catches and then ten balls of "Ball keeps low
    - LBW", the answer to the follow-on question will be yes, and three more
    overs of dropped catches follow. *)
Definition lions_declared_at_216 : Match :=
  declare_innings
    (set_gui_askyesno [true]
       (default (sample_match [])
          (bowl_overs 7 ["Tate"; "Ure"; "Tate"; "Ure"; "Shaw"; "Rudd"]
             (sample_match
                (0 :: concat (replicate 3 (concat (replicate 6 [1; 2])
                                           ++ concat (replicate 6 [0; 2])))
                   ++ concat (replicate 30 [5; 5; 14])
                   ++ concat (replicate 10 [5; 5; 18])
                   ++ concat (replicate 18 [5; 5; 14]))%nat)))).

(** * Properties *)

(** ** The ball resolver *)

Lemma randint_1_6_range rng : 1 <= (randint 1 6 rng).1 <= 6.
Proof.
  unfold randint. cbn [fst]. change (6 - 1 + 1) with 6.
  pose proof (Z.mod_pos_bound (Z.of_nat (hd 0%nat rng)) 6 ltac:(lia)). lia.
Qed.

Lemma roll_2d6_range rng : 2 <= (roll_2d6 rng).1 <= 12.
Proof.
  unfold roll_2d6.
  pose proof (randint_1_6_range rng) as H1.
  destruct (randint 1 6 rng) as [d1 rng1].
  pose proof (randint_1_6_range rng1) as H2.
  destruct (randint 1 6 rng1) as [d2 rng2].
  simpl in *. lia.
Qed.

Lemma choice_nonempty {A : Type} (l : list A) rng :
  l <> [] -> exists x, (choice l rng).1 = Some x /\ l !! (hd 0%nat rng mod length l)%nat = Some x.
Proof.
  intros Hl. unfold choice; cbn [fst].
  destruct (l !! (hd 0%nat rng mod length l)%nat) as [x|] eqn:E; [eauto|].
  apply lookup_ge_None in E.
  assert (length l <> 0%nat) by (destruct l; simpl; congruence).
  pose proof (Nat.mod_upper_bound (hd 0%nat rng) (length l) ltac:(assumption)). lia.
Qed.

(** A loose-ball draw always yields the payload of a card of the deck, the
    one at the position the draw selects. *)
Lemma draw_loose_ball_card rng :
  exists card,
    LOOSE_BALL_CARDS !! (hd 0%nat rng mod 20)%nat = Some card
    /\ draw_loose_ball rng = (_loose_ball_payload card, tl rng).
Proof.
  unfold draw_loose_ball.
  destruct (choice_nonempty LOOSE_BALL_CARDS rng) as (c & Hc & Hl); [discriminate|].
  exists c. split; [exact Hl|].
  unfold choice in *. cbn [fst] in Hc. rewrite Hc. reflexivity.
Qed.

Lemma dict_get_cases {V : Type} (P : V -> Prop) (d : list (string * V)) k dflt :
  P dflt -> Forall P (map snd d) -> P (dict_get d k dflt).
Proof.
  intros Hd Hall. induction d as [|[k' v] d IH]; simpl; [exact Hd|].
  inversion Hall; subst. destruct (String.eqb k k'); auto.
Qed.

Ltac each_sum dice :=
  let H := fresh in
  assert (H : dice = 2 \/ dice = 3 \/ dice = 4 \/ dice = 5 \/ dice = 6 \/ dice = 7
              \/ dice = 8 \/ dice = 9 \/ dice = 10 \/ dice = 11 \/ dice = 12) by lia;
  repeat (destruct H as [-> | H]); [..| subst dice].

Ltac in_list := repeat first [apply list_elem_of_here | apply list_elem_of_further].

Ltac split_rows :=
  lazymatch goal with
  | |- Forall _ [] => apply List.Forall_nil
  | |- Forall _ (_ :: _) => apply List.Forall_cons; [| split_rows]
  end.

Ltac bat_cell :=
  first
    [ left; reflexivity
    | right; left; reflexivity
    | right; right; eexists; split; [reflexivity|]; split; [in_list | split; reflexivity] ].

Lemma batting_rows_ok bat :
  bat_row_ok (dict_get BATTING_CHART bat (["";""] ++ replicate 11 "*")).
Proof.
  apply dict_get_cases.
  - intros dice Hd. each_sum dice; try lia; vm_compute; bat_cell.
  - unfold BATTING_CHART; cbn [map snd].
    split_rows; intros dice Hd; each_sum dice; try lia; vm_compute; bat_cell.
Qed.

Lemma appeal_of_cell_ok cell rng : appeal_ok (appeal_of_cell cell rng).1.
Proof.
  unfold appeal_of_cell, appeal_ok.
  destruct (String.eqb cell "No ball").
  { simpl. do 3 eexists. split; [reflexivity|]. split; [set_solver|]. split; discriminate. }
  destruct (String.eqb cell "Loose Ball").
  { destruct (draw_loose_ball_card rng) as (c & Hc & ->). simpl.
    do 3 eexists. split; [reflexivity|]. split; [set_solver|]. split; [discriminate|].
    intros _. exists c. split; [|reflexivity].
    apply list_elem_of_lookup. eauto. }
  destruct (existsb (String.eqb cell) dismissal_cells) eqn:E.
  { simpl. do 3 eexists. split; [reflexivity|]. split; [set_solver|]. split; [|discriminate].
    intros _. exists cell. split; [reflexivity|].
    apply existsb_exists in E as (x & Hx & Heq). apply String.eqb_eq in Heq. subst x.
    apply list_elem_of_In. exact Hx. }
  simpl. do 3 eexists. split; [reflexivity|]. split; [set_solver|]. split; discriminate.
Qed.

Lemma simulate_ball_unfold bat bowl rng :
  simulate_ball bat bowl rng =
  let bat_row := dict_get BATTING_CHART bat (["";""] ++ replicate 11 "*") in
  let '(dice, rng) := roll_2d6 rng in
  if dice =? 12 then
    let '(p, rng) := draw_loose_ball rng in (ODict "Loose Ball" p, rng)
  else
    let bat_result := index_or bat_row dice (last_or bat_row "") in
    if String.eqb bat_result "*" then
      let bowl_row :=
        dict_get BOWLER_WICKET_CHART bowl (["";""] ++ replicate 11 "Not out") in
      let '(dice_w, rng) := roll_2d6 rng in
      appeal_of_cell (index_or bowl_row dice_w "Not out") rng
    else if String.eqb bat_result "Loose Ball" then
      let '(p, rng) := draw_loose_ball rng in (ODict "Loose Ball" p, rng)
    else
      match py_int bat_result with
      | Some n => (OInt n, rng)
      | None => (OInt 0, rng)
      end.
Proof. reflexivity. Qed.

(** C10. Whatever the two ratings and the random draws, [simulate_ball] returns
    a number of runs among 0, 1, 2, 3, 4 and 6, or a dictionary of type
    ["Loose Ball"] built by [_loose_ball_payload] from a card of the deck (so with
    every payload key present), or an ["Appeal"] dictionary whose result is
    one of ["Not Out"], ["Out"], ["No Ball"] and ["Loose Ball"]; it never
    returns the bare strings ["W"] or ["Loose Ball"]. *)
Theorem simulate_ball_outcome_kinds (adj_bat_rating adj_bowl_rating : string)
    (rng : list nat) :
  let o := (simulate_ball adj_bat_rating adj_bowl_rating rng).1 in
  ((exists n, o = OInt n /\ n ∈ [0; 1; 2; 3; 4; 6])
   \/ (exists c, c ∈ LOOSE_BALL_CARDS /\ o = ODict "Loose Ball" (_loose_ball_payload c))
   \/ appeal_ok o)
  /\ o <> OStr "W" /\ o <> OStr "Loose Ball".
Proof.
  cbv zeta.
  assert (Hloose : forall r,
    let o := (let '(p, r') := draw_loose_ball r in (ODict "Loose Ball" p, r')).1 in
    exists c, c ∈ LOOSE_BALL_CARDS /\ o = ODict "Loose Ball" (_loose_ball_payload c)).
  { intros r. destruct (draw_loose_ball_card r) as (c & Hc & ->). cbn.
    exists c. split; [|reflexivity]. apply list_elem_of_lookup. eauto. }
  assert (Hkind :
    (exists n, (simulate_ball adj_bat_rating adj_bowl_rating rng).1 = OInt n
               /\ n ∈ [0; 1; 2; 3; 4; 6])
    \/ (exists c, c ∈ LOOSE_BALL_CARDS
               /\ (simulate_ball adj_bat_rating adj_bowl_rating rng).1
                  = ODict "Loose Ball" (_loose_ball_payload c))
    \/ appeal_ok (simulate_ball adj_bat_rating adj_bowl_rating rng).1).
  { rewrite simulate_ball_unfold. cbv zeta.
    pose proof (roll_2d6_range rng) as Hr.
    destruct (roll_2d6 rng) as [dice rng1]. cbn [fst] in Hr.
    destruct (dice =? 12) eqn:E12.
    { right. left. apply Hloose. }
    apply Z.eqb_neq in E12.
    pose proof (batting_rows_ok adj_bat_rating dice ltac:(lia)) as Hcell.
    set (cell := index_or _ dice _) in *. clearbody cell.
    destruct Hcell as [-> | [-> | (n & Hn & Hin & Hs & Hl)]].
    - right. right. cbn [String.eqb Ascii.eqb Bool.eqb].
      destruct (roll_2d6 rng1) as [dice_w rng2]. apply appeal_of_cell_ok.
    - right. left. apply Hloose.
    - left. rewrite Hs, Hl, Hn. cbn. eauto. }
  split; [exact Hkind|].
  split; intros Heq; rewrite Heq in Hkind;
    destruct Hkind as [(n & H & _) | [(c & _ & H) | (r & mt & cd & H & _)]]; discriminate.
Qed.

(** C7. Whatever the two ratings, a two-dice sum of 12 resolves to a loose
    ball: the outcome is the payload of the card that [random.choice] picks from
    the twenty-card deck (the card at the position the next draw selects), and
    it is the same for every pair of ratings, the batting chart playing no
    part. *)
Theorem dice_twelve_is_loose_ball (adj_bat_rating adj_bowl_rating : string)
    (rng : list nat) :
  (roll_2d6 rng).1 = 12 ->
  let rest := (roll_2d6 rng).2 in
  (exists card,
     LOOSE_BALL_CARDS !! (hd 0%nat rest mod 20)%nat = Some card
     /\ simulate_ball adj_bat_rating adj_bowl_rating rng
        = (ODict "Loose Ball" (_loose_ball_payload card), tl rest))
  /\ (forall i, (i < 20)%nat -> is_Some (LOOSE_BALL_CARDS !! i))
  /\ forall bat' bowl',
       simulate_ball bat' bowl' rng = simulate_ball adj_bat_rating adj_bowl_rating rng.
Proof.
  intros H12 rest. subst rest.
  assert (Hall : forall bat bowl,
    simulate_ball bat bowl rng = draw_loose_ball_as_outcome (roll_2d6 rng).2).
  { intros bat bowl. rewrite simulate_ball_unfold. cbv zeta.
    destruct (roll_2d6 rng) as [dice rng1]. cbn [fst snd] in *. subst dice.
    reflexivity. }
  split; [|split].
  - rewrite Hall. unfold draw_loose_ball_as_outcome.
    destruct (draw_loose_ball_card (roll_2d6 rng).2) as (c & Hc & ->). eauto.
  - intros i Hi. apply lookup_lt_is_Some. exact Hi.
  - intros bat' bowl'. rewrite !Hall. reflexivity.
Qed.

Lemma dice_twelve_is_loose_ball_witness :
  (roll_2d6 [5; 5; 23]%nat).1 = 12
  /\ simulate_ball "C" "E" [5; 5; 23]%nat
     = (ODict "Loose Ball"
          (Payload.mk "Bouncer edged to slips - caught" (Some "striker") (Some "Caught")
             0 0 0 0 false false false), []).
Proof.
  split; [reflexivity|].
  destruct (dice_twelve_is_loose_ball "C" "E" [5; 5; 23]%nat eq_refl)
    as [(card & Hcard & Hsim) _].
  rewrite Hsim. vm_compute in Hcard. injection Hcard as <-. reflexivity.
Defined.

(** ** Evaluating a call *)

Lemma match_after_eq r st : snd <$> r = Some st -> r = Some (match_after r, st).
Proof. destruct r as [[m s]|]; simpl; congruence. Qed.

(** ** The team total against runs off the bat and extras *)

(** C1, evaluated where it fails.  The first card of the deck, "Quick single
    - run out at bowler's end", credits nothing to the batter and nothing to
    extras but has [score_inc] 2 (every other card has [score_inc] equal to
    batter runs plus extras, which is also the default the handlers give
    it).  Drawn on the first ball of the sample match it leaves, at the end
    of the over, a team total of 2 against 0 runs off the bat and 0 extras;
    and if the side then declares, the summary of its innings records 2 runs
    with batting rows and extras that add up to 0. *)
Theorem quick_single_card_breaks_total :
  exists m,
    start_over 7 "Tate" (sample_match [0; 5; 5; 0]%nat) = Some (m, OverBowled)
    /\ runs m = 2 /\ off_the_bat m = 0 /\ extras m = 0
    /\ runs m <> off_the_bat m + extras m
    /\ exists s,
         innings_summaries (declare_innings m) !! 1 = Some s
         /\ Summary.runs s = 2
         /\ summary_off_the_bat s + Summary.extras s = 0.
Proof.
  eexists. split; [apply match_after_eq; vm_compute; reflexivity|].
  do 3 (split; [vm_compute; reflexivity|]).
  split; [vm_compute; discriminate|].
  exists (default (closed_innings 0 0)
            (innings_summaries
               (declare_innings
                  (match_after (start_over 7 "Tate" (sample_match [0; 5; 5; 0]%nat)))) !! 1)).
  split; [|split; vm_compute; reflexivity].
  match goal with |- ?o = Some (default ?d ?o) =>
    destruct o eqn:E; [reflexivity | vm_compute in E; discriminate]
  end.
Qed.

(** ** Chase completion *)

(** C4, evaluated where it fails.  With nine wickets down and 99 on the
    board against a target of 101, a sum of 12 draws the card "Batsman
    attempting 3rd run - run out 2 runs".  The two runs take the batting
    side past the other side's total, but the handler of a directly drawn
    loose ball books the run-out before it checks the chase: the tenth wicket
    closes the innings and the match is decided by [determine_result] as a
    win by 1 run.  The same card reached through an appeal is checked right
    after the runs are added and gives the win by 10 - 9 = 1 wicket. *)
Theorem chase_win_lost_to_run_out :
  (exists m,
     start_over 7 "Ives" (last_pair_chasing [5; 5; 5]%nat) = Some (m, Stopped)
     /\ match_over m = true
     /\ (totals_by_team_including_current m).1 < (totals_by_team_including_current m).2
     /\ result_summary m = Some (Win 2 (Runs 1))
     /\ result_summary m <> Some (Win 2 (Wickets (10 - 9))))
  /\ (exists m,
        start_over 7 "Ives" (last_pair_chasing [0; 1; 5; 5; 5]%nat) = Some (m, Stopped)
        /\ match_over m = true
        /\ result_summary m = Some (Win 2 (Wickets (10 - 9)))).
Proof.
  split.
  - eexists. split; [apply match_after_eq; vm_compute; reflexivity|].
    do 3 (split; [vm_compute; reflexivity|]).
    vm_compute; discriminate.
  - eexists. split; [apply match_after_eq; vm_compute; reflexivity|].
    split; vm_compute; reflexivity.
Qed.

(** ** The summary of an innings *)

Lemma summary_runs_snapshot i m :
  summary_runs i (_snapshot_innings_summary m)
  = if bool_decide (innings m = i) then runs m else summary_runs i m.
Proof.
  unfold summary_runs, _snapshot_innings_summary. cbn.
  rewrite lookup_insert. destruct (decide (innings m = i)) as [->|Hne].
  - rewrite bool_decide_eq_true_2 by reflexivity. reflexivity.
  - rewrite bool_decide_eq_false_2 by assumption. reflexivity.
Qed.

(** ** Reading and writing players *)

Lemma players_upd_player tid r f m :
  players tid (upd_player r f m)
  = if bool_decide ((tid =? 1) = (r.1 =? 1)) then alter f r.2 (players tid m)
    else players tid m.
Proof.
  unfold players, upd_player.
  destruct (tid =? 1) eqn:Et, (r.1 =? 1) eqn:Er; cbn; rewrite ?Et; reflexivity.
Qed.

Lemma get_player_upd_same r f m :
  is_Some (players r.1 m !! r.2) ->
  get_player r (upd_player r f m) = f (get_player r m).
Proof.
  intros [p Hp]. unfold get_player. rewrite players_upd_player.
  rewrite bool_decide_eq_true_2 by reflexivity.
  rewrite list_lookup_alter, decide_True by reflexivity. rewrite Hp. reflexivity.
Qed.

Lemma get_player_upd_preserve {A : Type} (proj : Player -> A) r r' f m :
  (forall p, proj (f p) = proj p) ->
  proj (get_player r (upd_player r' f m)) = proj (get_player r m).
Proof.
  intros Hf. unfold get_player. rewrite players_upd_player.
  case_bool_decide; [|reflexivity].
  rewrite list_lookup_alter. case_decide as Hi; [|reflexivity].
  rewrite ?Hi. destruct (players r.1 m !! r.2); simpl; [apply Hf | reflexivity].
Qed.

Lemma valid_upd_player r r' f m :
  is_Some (players r.1 (upd_player r' f m) !! r.2) <-> is_Some (players r.1 m !! r.2).
Proof.
  rewrite players_upd_player. case_bool_decide; [|reflexivity].
  rewrite !lookup_lt_is_Some, length_alter. reflexivity.
Qed.

Lemma check_chase_complete_cases m :
  check_chase_complete m = (false, m)
  \/ exists w n,
       check_chase_complete m
       = (true, set_result_summary (Some (Win w (Wickets n))) (set_match_over true m)).
Proof.
  unfold check_chase_complete.
  destruct (negb (innings m =? 4) || match_over m); [left; reflexivity|].
  destruct (totals_by_team_including_current m) as [t1 t2].
  destruct ((default 2 (innings_batting_team m !! 4) =? 1) && (t2 <? t1));
    [right; eauto|].
  destruct ((default 2 (innings_batting_team m !! 4) =? 2) && (t1 <? t2));
    [right; eauto | left; reflexivity].
Qed.

Lemma _apply_hattrick_miss_prefix_cases b m :
  _apply_hattrick_miss_prefix b m = m
  \/ _apply_hattrick_miss_prefix b m
     = set__last_wicket_bowler None
         (set__last_ball_was_bowler_wicket false
            (set__hattrick_count 0 (set__hattrick_pending_bowler None m))).
Proof. unfold _apply_hattrick_miss_prefix. destruct (is_ref _ b); auto. Qed.

(** ** Rating "A" on a sum of 7 *)

Lemma sum_7_on_row_A bowl rng :
  (roll_2d6 rng).1 = 7 -> simulate_ball "A" bowl rng = (OInt 4, (roll_2d6 rng).2).
Proof.
  intros H7. rewrite simulate_ball_unfold. cbv zeta.
  destruct (roll_2d6 rng) as [dice rest]. cbn [fst snd] in *. subst dice. reflexivity.
Qed.

(** C8 as stated fails: the cell of row "A" under a sum of 7 holds "4", not
    "2"; the ball scores four and the batters do not cross. *)
Lemma rating_A_sum_7_is_not_two :
  let m := sample_match [0; 2; 3]%nat in
  let striker : PlayerRef := (1, 0%nat) in
  let m' := h_match (play_ball striker (2, 8%nat) 1 2 0 m).1 in
  Player.batting_rating (get_player striker m) = "A"
  /\ (roll_2d6 (random m)).1 = 7
  /\ index_or (dict_get BATTING_CHART "A" []) 7 "" <> "2"
  /\ runs m' <> runs m + 2
  /\ Player.runs (get_player striker m') <> Player.runs (get_player striker m) + 2
  /\ current_batsmen m' <> swap_strike (current_batsmen m).
Proof.
  cbv zeta.
  do 2 (split; [vm_compute; reflexivity|]).
  repeat split; vm_compute; discriminate.
Qed.

Lemma get_player_same_teams r m m' :
  team1 m' = team1 m -> team2 m' = team2 m -> get_player r m' = get_player r m.
Proof. intros H1 H2. unfold get_player, players. rewrite H1, H2. reflexivity. Qed.

(** The end of the ball leaves the total, the pair at the crease and the
    striker's runs and fours as the outcome left them. *)
Lemma end_of_ball_striker striker ball h :
  let m' := h_match (end_of_ball striker ball h).1 in
  runs m' = runs (h_match h)
  /\ current_batsmen m' = current_batsmen (h_match h)
  /\ Player.runs (get_player striker m') = Player.runs (get_player striker (h_match h))
  /\ Player.fours (get_player striker m') = Player.fours (get_player striker (h_match h)).
Proof.
  unfold end_of_ball.
  destruct (h_flow h); cbn; [|auto|auto].
  destruct (legal_delivery h), (bowler_wicket_this_ball h); cbn.
  all: repeat split.
  all: try (unfold upd_player; destruct (_ =? 1); reflexivity).
  all: try (rewrite (get_player_same_teams striker (upd_player _ _ _)) by reflexivity).
  all: try (rewrite (get_player_upd_preserve Player.runs) by reflexivity).
  all: try (rewrite (get_player_upd_preserve Player.fours) by reflexivity).
  all: try reflexivity.
Qed.

(** C8, amended.  A striker whose adjusted rating is "A" facing a dice sum
    of 7 meets the cell "4" of the batting chart: exactly 4 runs are added to
    the team total and to the striker's tally (and one four is counted), and
    the strike does not change hands on that ball, runs being even. *)
Theorem rating_A_sum_7_scores_four (m : Match) (striker b : PlayerRef)
    (batting_team bowling_team : Z) (ball : nat) :
  is_Some (players striker.1 m !! striker.2) ->
  apply_rating_modifier (Player.batting_rating (get_player striker m))
    (_current_condition_modifiers_for_over m).1 = "A" ->
  (roll_2d6 (random m)).1 = 7 ->
  let m' := h_match (play_ball striker b batting_team bowling_team ball m).1 in
  index_or (dict_get BATTING_CHART "A" []) 7 "" = "4"
  /\ runs m' = runs m + 4
  /\ Player.runs (get_player striker m') = Player.runs (get_player striker m) + 4
  /\ Player.fours (get_player striker m') = Player.fours (get_player striker m) + 1
  /\ current_batsmen m' = current_batsmen m.
Proof.
  intros Hvalid Hrating Hroll m'.
  split; [reflexivity|].
  subst m'. unfold play_ball.
  destruct (_current_condition_modifiers_for_over m) as [bat_mod bowl_mod].
  cbn [fst] in Hrating. rewrite Hrating.
  rewrite (sum_7_on_row_A _ _ Hroll).
  cbn [handle_outcome].
  set (m0 := set_random _ m).
  assert (Hv0 : is_Some (players striker.1 m0 !! striker.2)) by exact Hvalid.
  change (runs m) with (runs m0). change (current_batsmen m) with (current_batsmen m0).
  change (get_player striker m) with (get_player striker m0).
  clearbody m0. clear Hvalid Hrating Hroll.
  destruct (end_of_ball_striker striker ball (runs_outcome striker b 4 m0))
    as (-> & -> & -> & ->).
  unfold runs_outcome.
  change (4 =? 4) with true. change (4 mod 2 =? 1) with false. cbv iota. cbn [andb].
  set (m1 := upd_player b (add_runs_conceded 4) _).
  assert (Hruns1 : runs m1 = runs m0 + 4).
  { subst m1. unfold upd_player. repeat destruct (_ =? 1); reflexivity. }
  assert (Hbats1 : current_batsmen m1 = current_batsmen m0).
  { subst m1. unfold upd_player. repeat destruct (_ =? 1); reflexivity. }
  assert (Hpr1 : Player.runs (get_player striker m1)
                 = Player.runs (get_player striker m0) + 4).
  { subst m1.
    rewrite (get_player_upd_preserve Player.runs) by reflexivity.
    rewrite (get_player_upd_preserve Player.runs) by reflexivity.
    rewrite get_player_upd_same by exact Hv0. reflexivity. }
  assert (Hpf1 : Player.fours (get_player striker m1)
                 = Player.fours (get_player striker m0) + 1).
  { subst m1.
    rewrite (get_player_upd_preserve Player.fours) by reflexivity.
    rewrite get_player_upd_same by (rewrite valid_upd_player; exact Hv0).
    cbn. rewrite (get_player_upd_preserve Player.fours) by reflexivity. reflexivity. }
  clearbody m1.
  destruct (_apply_hattrick_miss_prefix_cases b m1) as [-> | ->];
    match goal with
    | |- context [check_chase_complete ?x] =>
        destruct (check_chase_complete_cases x) as [-> | (w & n & ->)]
    end;
    cbn [h_match]; repeat split; assumption.
Qed.

Lemma rating_A_sum_7_scores_four_witness :
  let m := sample_match [0; 2; 3]%nat in
  let m' := h_match (play_ball (1, 0%nat) (2, 8%nat) 1 2 0 m).1 in
  runs m' = 4 /\ current_batsmen m' = [(1, 0%nat); (1, 1%nat)].
Proof.
  cbv zeta.
  destruct (rating_A_sum_7_scores_four (sample_match [0; 2; 3]%nat) (1, 0%nat) (2, 8%nat)
              1 2 0
              (ltac:(vm_compute; eexists; reflexivity))
              (ltac:(vm_compute; reflexivity))
              (ltac:(vm_compute; reflexivity)))
    as (_ & Hr & _ & _ & Hb).
  split; [rewrite Hr | rewrite Hb]; vm_compute; reflexivity.
Defined.

(** * Invariants of a match *)

(** ** What holds of every reachable match *)

Lemma same_core_refl m : same_core m m.
Proof. split; auto. Qed.

Lemma same_core_trans m1 m2 m3 : same_core m1 m2 -> same_core m2 m3 -> same_core m1 m3.
Proof. intros [] []. split; first [congruence | auto]. Qed.

Lemma keep_refl m : keep m m.
Proof. split; [apply same_core_refl | auto]. Qed.

Lemma keep_trans m1 m2 m3 : keep m1 m2 -> keep m2 m3 -> keep m1 m3.
Proof. intros [H1 W1] [H2 W2]. split; [eapply same_core_trans; eassumption | auto]. Qed.

Lemma keep_step m m' : keep m m' -> step m m'.
Proof.
  intros [[] Hw] [].
  split; unfold summary_runs in *;
    try rewrite ?sc_session0, ?sc_today0, ?sc_marker0, ?sc_session_number0,
      ?sc_threshold0, ?sc_dialogs0, ?sc_innings0, ?sc_enforced0, ?sc_sides0,
      ?sc_summaries0; auto.
Qed.

Lemma step_trans m1 m2 m3 : step m1 m2 -> step m2 m3 -> step m1 m3.
Proof. unfold step. auto. Qed.

Lemma keep_then_step m1 m2 m3 : keep m1 m2 -> step m2 m3 -> step m1 m3.
Proof. intros H1 H2. eapply step_trans; [apply keep_step; exact H1 | exact H2]. Qed.

Lemma frame_keep m m' : frame m m' -> keep m m'.
Proof. intros [H W]. split; [exact H | rewrite W; auto]. Qed.

Lemma frame_refl m : frame m m.
Proof. split; [apply same_core_refl | reflexivity]. Qed.

Lemma frame_trans m1 m2 m3 : frame m1 m2 -> frame m2 m3 -> frame m1 m3.
Proof. intros [H1 W1] [H2 W2]. split; [eapply same_core_trans; eassumption | congruence]. Qed.

Lemma name_get_player b m :
  Player.name (get_player b m)
  = default "" (map Player.name (players b.1 m) !! b.2).
Proof.
  unfold get_player. change (map Player.name) with (fmap (M := list) Player.name).
  rewrite list_lookup_fmap.
  destruct (players b.1 m !! b.2); reflexivity.
Qed.

Lemma same_core_names tid m m' :
  same_core m m' -> map Player.name (players tid m') = map Player.name (players tid m).
Proof. intros []. unfold players. destruct (tid =? 1); assumption. Qed.

Lemma same_core_bowler_name b m m' :
  same_core m m' -> Player.name (get_player b m') = Player.name (get_player b m).
Proof. intros H. rewrite !name_get_player, (same_core_names _ _ _ H). reflexivity. Qed.

Lemma zero_tally_names ps ps' :
  map Player.name ps' = map Player.name ps -> zero_tally ps' = zero_tally ps.
Proof.
  intros H. unfold zero_tally.
  replace (map (fun p => (Player.name p, 0)) ps')
    with (map (fun n : string => (n, 0)) (map Player.name ps'))
    by (rewrite map_map; reflexivity).
  replace (map (fun p => (Player.name p, 0)) ps)
    with (map (fun n : string => (n, 0)) (map Player.name ps))
    by (rewrite map_map; reflexivity).
  rewrite H. reflexivity.
Qed.

Lemma zero_tally_zero ps k n : zero_tally ps !! k = Some n -> n = 0.
Proof.
  unfold zero_tally. intros H. apply elem_of_list_to_map_2 in H.
  apply list_elem_of_In, in_map_iff in H as (p & Hp & _). congruence.
Qed.

Lemma zero_tally_bounded ps b : 0 <= b -> map_Forall (fun _ n => n <= b) (zero_tally ps).
Proof. intros Hb k n H. apply zero_tally_zero in H. lia. Qed.

Lemma asks_showerror ds title message :
  asks (ds ++ [ShowError title message]) = asks ds.
Proof. unfold asks. rewrite List.filter_app, length_app. simpl. lia. Qed.

Lemma asks_askyesno ds title lead :
  asks (ds ++ [AskYesNo title lead]) = S (asks ds).
Proof. unfold asks. rewrite List.filter_app, length_app. simpl. lia. Qed.

(** ** Helpers that leave the core alone *)

Lemma frame_upd_player r f m :
  (forall p, Player.name (f p) = Player.name p) -> frame m (upd_player r f m).
Proof.
  intros Hf.
  assert (Hn : forall l, map Player.name (alter f r.2 l) = map Player.name l).
  { intros l. change (map Player.name) with (fmap (M := list) Player.name).
    apply list_eq. intros i. rewrite !list_lookup_fmap, list_lookup_alter.
    case_decide; [|reflexivity]. subst i.
    destruct (l !! r.2); simpl; [rewrite Hf|]; reflexivity. }
  unfold upd_player. destruct (r.1 =? 1); (split; [split|]); cbn; auto.
Qed.

(** A setter of a field outside the core. *)
Ltac frame_setter :=
  solve [split; [split; first [reflexivity | exact (fun e => e) | intros _; reflexivity]
                | reflexivity]].

Ltac note_frame0 p := idtac.
Ltac note_frame p := note_frame0 p.

(** Case analysis on the innermost scrutinee, recording what is known of a
    call before it is split into its results. *)
Ltac dig_frame p :=
  lazymatch p with
  | if ?c then _ else _ => dig_frame c
  | match ?q with _ => _ end => dig_frame q
  | _ => note_frame p; destruct p
  end.

Ltac frame_tac :=
  lazymatch goal with
  | |- frame ?m ?m => apply frame_refl
  | H : frame ?y ?x |- frame ?m ?x => apply (frame_trans m y); [frame_tac | exact H]
  | |- frame ?m (upd_player ?r ?f ?x) =>
      apply (frame_trans m x); [frame_tac | apply frame_upd_player; intros ?; reflexivity]
  | |- frame ?m (if ?c then _ else _) =>
      dig_frame c; cbn [fst snd] in *; cbv beta iota; frame_tac
  | |- frame ?m (match ?p with _ => _ end) =>
      dig_frame p; cbn [fst snd] in *; cbv beta iota; frame_tac
  | |- frame ?m (snd ?p) =>
      lazymatch p with
      | (_, _) => cbn [snd]; frame_tac
      | _ => dig_frame p; cbn [fst snd] in *; cbv beta iota; frame_tac
      end
  | |- frame ?m (?setter ?v ?x) => apply (frame_trans m x); [frame_tac | frame_setter]
  end.

Lemma frame__get_wicketkeeper_name ft m : frame m (_get_wicketkeeper_name ft m).2.
Proof. unfold _get_wicketkeeper_name. frame_tac. Qed.

Ltac note_frame1 p :=
  lazymatch p with
  | _get_wicketkeeper_name ?ft ?x => pose proof (frame__get_wicketkeeper_name ft x)
  | _ => note_frame0 p
  end.
Ltac note_frame p ::= note_frame1 p.

Lemma frame_wk_name_or o ft m : frame m (wk_name_or o ft m).2.
Proof. unfold wk_name_or. frame_tac. Qed.

Lemma frame_choose_fielder ft bname wk m : frame m (choose_fielder ft bname wk m).2.
Proof. unfold choose_fielder. frame_tac. Qed.

Ltac note_frame2 p :=
  lazymatch p with
  | wk_name_or ?o ?ft ?x => pose proof (frame_wk_name_or o ft x)
  | choose_fielder ?ft ?a ?b ?x => pose proof (frame_choose_fielder ft a b x)
  | _ => note_frame1 p
  end.
Ltac note_frame p ::= note_frame2 p.

Lemma frame__set_dismissal (batsman : PlayerRef) (method : string) (ft : Z)
    (b : option PlayerRef) (fielder_name wk_name : option string) (m : Match) :
  frame m (_set_dismissal batsman method ft b fielder_name wk_name m).
Proof. unfold _set_dismissal. cbv zeta. frame_tac. Qed.

Lemma frame__register_bowler_wicket_for_hattrick b m :
  frame m (_register_bowler_wicket_for_hattrick b m).
Proof. unfold _register_bowler_wicket_for_hattrick. cbv zeta. frame_tac. Qed.

Lemma frame__break_hattrick_chain m : frame m (_break_hattrick_chain m).
Proof. unfold _break_hattrick_chain. frame_tac. Qed.

Lemma frame__apply_hattrick_miss_prefix b m : frame m (_apply_hattrick_miss_prefix b m).
Proof. unfold _apply_hattrick_miss_prefix. frame_tac. Qed.

Lemma frame_check_chase_complete m : frame m (check_chase_complete m).2.
Proof. unfold check_chase_complete. frame_tac. Qed.

Lemma frame_clear_retired_marker p m : frame m (clear_retired_marker p m).
Proof. unfold clear_retired_marker. frame_tac. Qed.

Lemma frame_resume_retired p rest m : frame m (resume_retired p rest m).2.
Proof.
  unfold resume_retired. cbv zeta. cbn [snd].
  match goal with |- frame _ (match ?l with _ => _ end) => destruct l end.
  - apply (frame_trans _ (clear_retired_marker p (set_retired_hurt_returning rest m))).
    + apply (frame_trans _ (set_retired_hurt_returning rest m));
        [frame_setter | apply frame_clear_retired_marker].
    + frame_setter.
  - apply (frame_trans _ (set_retired_hurt_returning rest m));
      [frame_setter | apply frame_clear_retired_marker].
Qed.

Lemma frame__take_next_batsman t m : frame m (_take_next_batsman t m).2.
Proof.
  unfold _take_next_batsman.
  destruct (retired_hurt_returning m) as [|p rest] eqn:E.
  - destruct (_ <? _)%nat; cbn [snd]; [frame_setter | apply frame_refl].
  - destruct (retired_hurt_priority m); [apply frame_resume_retired|].
    destruct (_ <? _)%nat; cbn [snd]; [frame_setter | apply frame_resume_retired].
Qed.

Lemma frame_credit_bowler method_lower b m : frame m (credit_bowler method_lower b m).1.
Proof.
  unfold credit_bowler. destruct (existsb _ _); cbn [fst]; [|apply frame_refl].
  eapply frame_trans; [|apply frame__register_bowler_wicket_for_hattrick].
  apply frame_upd_player. reflexivity.
Qed.

Lemma frame_loose_ball_names method_lower text_lower b bt m :
  frame m (loose_ball_names method_lower text_lower b bt m).2.
Proof. unfold loose_ball_names. frame_tac. Qed.

Lemma frame_book_extras_kind text_lower nb extras_runs m :
  frame m (book_extras_kind text_lower nb extras_runs m).
Proof. unfold book_extras_kind. cbv zeta. frame_tac. Qed.

Lemma _snapshot_innings_summary_step m : step m (_snapshot_innings_summary m).
Proof.
  intros [Hw Hs Ht Hm Hth Hi H1 H2 H3 H4 Ha Hb He Ho].
  split; [unfold _snapshot_innings_summary; cbn; auto ..|].
  intros Hi3. rewrite !summary_runs_snapshot.
  change (innings (_snapshot_innings_summary m)) with (innings m) in Hi3.
  rewrite !bool_decide_eq_false_2 by lia. apply Ho. exact Hi3.
Qed.

(** ** Closing an innings preserves the invariants *)

Lemma frame_map_team tid f m :
  (forall p, Player.name (f p) = Player.name p) -> frame m (map_team tid f m).
Proof.
  intros Hf.
  assert (Hn : forall l, map Player.name (map f l) = map Player.name l).
  { intros l. rewrite map_map. apply map_ext. exact Hf. }
  unfold map_team. destruct (tid =? 1); (split; [split|]); cbn; auto.
Qed.

Lemma frame_determine_result m : frame m (determine_result m).
Proof. unfold determine_result. frame_tac. Qed.

Lemma end_innings_unfold force m :
  end_innings force m =
  if negb force && negb (innings_declared m) && (wickets_taken m <? 10) then m
  else
    let m := _snapshot_innings_summary m in
    let t1 := summary_runs 1 m in
    let t2 := summary_runs 2 m + summary_runs 3 m in
    if (innings m =? 3) && follow_on_enforced m
       && (default 2 (innings_batting_team m !! 3) =? 2) && (t2 <? t1) then
      set_match_over true
        (set_result_summary (Some (Win 1 (InningsAndRuns (t1 - t2)))) m)
    else if 4 <=? innings m then set_match_over true (determine_result m)
    else next_innings (offer_follow_on_if_available m).
Proof.
  unfold end_innings, next_innings, reset_sides, reset_counters, choose_side.
  reflexivity.
Qed.

Lemma offer_follow_on_closing m :
  Inv m -> innings m <= 3 -> Closing (offer_follow_on_if_available m).
Proof.
  intros [Hw Hs Ht Hm Hth Hi H1 H2 H3 H4 Ha Hb He Ho] Hle.
  unfold offer_follow_on_if_available.
  destruct (innings m =? 2) eqn:E2; cbn [negb].
  - apply Z.eqb_eq in E2.
    destruct (Hb ltac:(lia)) as [Ha0 He0]. rewrite Hth.
    destruct (200 <=? _) eqn:El.
    + unfold askyesno.
      split; [cbn -[asks]; rewrite ?asks_askyesno, ?Ha0; auto; try lia ..|].
      intros _. change (200 <=? _) with (200 <=? summary_runs 1 m - summary_runs 2 m).
      rewrite El. cbn -[asks]. rewrite asks_askyesno, Ha0. reflexivity.
    + split; auto; try lia. intros _. rewrite El. exact Ha0.
  - apply Z.eqb_neq in E2. split; auto; try lia.
    intros ?. apply Hb. lia.
Qed.

Lemma choose_side_core m :
  bowler_overs_session (choose_side m) = bowler_overs_session m
  /\ bowler_overs_today (choose_side m) = bowler_overs_today m
  /\ session_number (choose_side m) = session_number m
  /\ follow_on_threshold (choose_side m) = follow_on_threshold m
  /\ gui_dialogs (choose_side m) = gui_dialogs m
  /\ innings (choose_side m) = innings m
  /\ follow_on_enforced (choose_side m) = follow_on_enforced m
  /\ team1 (choose_side m) = team1 m /\ team2 (choose_side m) = team2 m.
Proof. unfold choose_side. repeat destruct (_ =? _); repeat split. Qed.

Lemma choose_side_summaries m : innings_summaries (choose_side m) = innings_summaries m.
Proof. unfold choose_side. repeat destruct (_ =? _); reflexivity. Qed.

Lemma reset_sides_inv m :
  wickets_taken m = 0 ->
  follow_on_threshold m = 200 ->
  1 <= innings m <= 4 ->
  innings_batting_team m !! 1 = Some 1 ->
  (2 <= innings m -> innings_batting_team m !! 2 = Some 2) ->
  (3 <= innings m ->
   innings_batting_team m !! 3 = Some (if follow_on_enforced m then 2 else 1)) ->
  (4 <= innings m ->
   innings_batting_team m !! 4 = Some (if follow_on_enforced m then 1 else 2)) ->
  (asks (gui_dialogs m) <= 1)%nat ->
  (innings m <= 2 -> asks (gui_dialogs m) = 0%nat /\ follow_on_enforced m = false) ->
  (follow_on_enforced m = true -> asks (gui_dialogs m) = 1%nat) ->
  (3 <= innings m ->
   asks (gui_dialogs m)
   = if 200 <=? summary_runs 1 m - summary_runs 2 m then 1%nat else 0%nat) ->
  Inv (reset_sides m).
Proof.
  intros Hw Ht Hi H1 H2 H3 H4 Ha Hb He Ho.
  unfold reset_sides. cbv zeta.
  set (m1 := set__limits_session_number _ _).
  set (m2 := map_team _ reset_bowling (map_team _ reset_batting m1)).
  assert (F : frame m1 m2).
  { subst m2. eapply frame_trans; apply frame_map_team; reflexivity. }
  destruct F as [[Fs Ft Fm Fn Fth Fd Fi Fe Fsd _ _ Fsum _ _ _ _ _ _ _] Fw].
  assert (Inv m2).
  { split; unfold summary_runs in *;
      rewrite ?Fs, ?Ft, ?Fm, ?Fn, ?Fth, ?Fd, ?Fi, ?Fe, ?Fsd, ?Fw, ?Fsum; subst m1; cbn; auto;
      try lia; apply zero_tally_bounded; lia. }
  clearbody m2.
  match goal with H : Inv m2 |- _ => destruct H as [Iw Is It Im Ith Ii I1 I2 I3 I4 Ia Ib Ie Io] end.
  split; cbn; auto.
Qed.

Lemma next_innings_inv m : Closing m -> Inv (next_innings m).
Proof.
  intros [cl_innings0 cl_threshold0 cl_side4 cl_side5 cl_side6 cl_asks0 cl_before0
          cl_enforced0 cl_offered0].
  unfold next_innings.
  set (m1 := set_innings (innings m + 1) m).
  destruct (choose_side_core m1) as (Cs & Ct & Cn & Cth & Cd & Ci & Ce & _).
  pose proof (choose_side_summaries m1) as Csum.
  assert (Hsides :
    innings_batting_team (choose_side m1) !! 1 = Some 1
    /\ innings_batting_team (choose_side m1) !! 2 = Some 2
    /\ (3 <= innings m1 ->
        innings_batting_team (choose_side m1) !! 3
        = Some (if follow_on_enforced m then 2 else 1))
    /\ (4 <= innings m1 ->
        innings_batting_team (choose_side m1) !! 4
        = Some (if follow_on_enforced m then 1 else 2))).
  { unfold choose_side. subst m1. cbn [innings set_innings].
    destruct (innings m + 1 =? 2) eqn:E2; [apply Z.eqb_eq in E2|apply Z.eqb_neq in E2].
    { cbn. rewrite lookup_insert_ne, lookup_insert_eq by discriminate.
      repeat split; intros; auto; lia. }
    destruct (innings m + 1 =? 3) eqn:E3; [apply Z.eqb_eq in E3|apply Z.eqb_neq in E3].
    { cbn. rewrite !lookup_insert_ne, lookup_insert_eq by discriminate.
      repeat split; intros; auto; try lia. apply cl_side5; lia. }
    destruct (innings m + 1 =? 4) eqn:E4; [apply Z.eqb_eq in E4|apply Z.eqb_neq in E4].
    { cbn. rewrite !lookup_insert_ne, lookup_insert_eq by discriminate.
      rewrite cl_side6 by lia.
      repeat split; intros; auto; try lia;
        [apply cl_side5; lia | destruct (follow_on_enforced m); reflexivity]. }
    lia. }
  destruct Hsides as (S1 & S2 & S3 & S4).
  apply reset_sides_inv; unfold reset_counters, summary_runs in *; cbn;
    rewrite ?Cs, ?Ct, ?Cn, ?Cth, ?Cd, ?Ci, ?Ce, ?Csum; subst m1; cbn; auto; try lia.
  - intros ?. apply cl_before0. lia.
  - intros ?. apply cl_offered0. lia.
Qed.

Lemma end_innings_step force m : step m (end_innings force m).
Proof.
  intros HI. rewrite end_innings_unfold.
  destruct (_ && _ && _); [exact HI|]. cbv zeta.
  set (m1 := _snapshot_innings_summary m).
  assert (H1 : Inv m1).
  { apply _snapshot_innings_summary_step. exact HI. }
  clearbody m1.
  destruct (_ && _ && _ && _).
  { apply (keep_step m1); [|exact H1]. apply frame_keep. frame_tac. }
  destruct (4 <=? innings m1) eqn:E4.
  { apply (keep_step m1); [|exact H1]. apply frame_keep.
    eapply frame_trans; [apply frame_determine_result | frame_setter]. }
  apply Z.leb_gt in E4.
  apply next_innings_inv, offer_follow_on_closing; [exact H1 | lia].
Qed.

Lemma declare_innings_step m : step m (declare_innings m).
Proof.
  unfold declare_innings. eapply keep_then_step; [|apply end_innings_step].
  apply frame_keep. frame_setter.
Qed.

(** ** A new day preserves the invariants *)

Lemma start_new_day_unfold m :
  start_new_day m =
  let m := set_current_day (day_counter m) m in
  if MAX_DAYS <? day_counter m then
    set_result_summary (Some Draw) (set_match_over true m)
  else
    let '(o, rng) := choice MATCH_CONDITIONS_DECK (random m) in
    recall_retired_hurt
      (schedule_day (default (Condition.mk "" 1 0 0 false []) o) (set_random rng m)).
Proof. unfold start_new_day, recall_retired_hurt, schedule_day. reflexivity. Qed.

Lemma recall_retired_hurt_step m : step m (recall_retired_hurt m).
Proof.
  intros HI. unfold recall_retired_hurt. cbv zeta.
  match goal with |- Inv (set_day_counter _ ?x) =>
    assert (F : frame m x);
      [match goal with |- frame _ (if ?c then _ else _) => destruct c end; frame_tac|];
    assert (I : Inv x) by (apply (keep_step m); [apply frame_keep, F | exact HI]);
    clear F; generalize dependent x
  end.
  intros x [Hw Hs Ht Hm Hth Hi H1 H2 H3 H4 Ha Hb He Ho]. split; cbn; auto.
Qed.

Lemma schedule_day_inv template m : Inv m -> Inv (schedule_day template m).
Proof.
  intros [Hw Hs Ht Hm Hth Hi H1 H2 H3 H4 Ha Hb He Ho].
  unfold schedule_day. cbv zeta. cbn [day_no_play set_day_overs_lost_end
    set_day_overs_lost_start set_day_no_play].
  destruct (Condition.no_play template);
    (split; cbn; auto; apply zero_tally_bounded; lia).
Qed.

Lemma start_new_day_step m : step m (start_new_day m).
Proof.
  intros HI. rewrite start_new_day_unfold. cbv zeta.
  destruct (MAX_DAYS <? _).
  { apply (keep_step m); [|exact HI]. apply frame_keep. frame_tac. }
  destruct (choice MATCH_CONDITIONS_DECK _) as [o rng].
  apply recall_retired_hurt_step.
  apply schedule_day_inv.
  apply (keep_step m); [|exact HI]. apply frame_keep. frame_tac.
Qed.

Lemma new_match_inv team1 team2 rng answers : Inv (new_match team1 team2 rng answers).
Proof.
  unfold new_match. apply start_new_day_step.
  split; cbn; auto; try lia; try discriminate.
  - apply zero_tally_bounded; lia.
  - apply zero_tally_bounded; lia.
Qed.

(** ** Wickets *)

Lemma increment_wicket_spec m :
  let r := _increment_wicket_and_maybe_end m in
  if r.2 then step m r.1 else keep m r.1.
Proof.
  unfold _increment_wicket_and_maybe_end.
  destruct (10 <=? wickets_taken m) eqn:E10; cbn [fst snd].
  { intros H; exact H. }
  apply Z.leb_gt in E10. cbv zeta.
  set (m1 := set_fow _ _).
  assert (K : keep m m1).
  { subst m1. split; [split; first [reflexivity | exact (fun e => e)]|]. cbn. lia. }
  destruct (wickets_taken m1 =? 10); cbn [fst snd]; [|exact K].
  eapply keep_then_step; [exact K | apply end_innings_step].
Qed.

Lemma maybe_end_innings_spec t m :
  let r := _maybe_end_innings_no_batsmen t m in
  if r.1 then step m r.2 else r.2 = m.
Proof.
  unfold _maybe_end_innings_no_batsmen.
  destruct (_ && _); cbn [fst snd]; [apply end_innings_step | reflexivity].
Qed.

(** ** Handling an outcome preserves the invariants *)

(** Records what is known of a call before its result is taken apart. *)
Ltac note_call p :=
  lazymatch p with
  | _take_next_batsman ?t ?x => pose proof (frame__take_next_batsman t x)
  | check_chase_complete ?x => pose proof (frame_check_chase_complete x)
  | credit_bowler ?a ?b ?x => pose proof (frame_credit_bowler a b x)
  | loose_ball_names ?a ?b ?c ?d ?x => pose proof (frame_loose_ball_names a b c d x)
  | _increment_wicket_and_maybe_end ?x => pose proof (increment_wicket_spec x)
  | _maybe_end_innings_no_batsmen ?t ?x => pose proof (maybe_end_innings_spec t x)
  | _ => note_frame p
  end.

Ltac dig_call p :=
  lazymatch p with
  | if ?c then _ else _ => dig_call c
  | match ?q with _ => _ end => dig_call q
  | _ => note_call p; destruct p
  end.

Ltac keep_tac :=
  lazymatch goal with
  | H : ?x = _ |- keep _ ?x => subst x; keep_tac
  | |- keep ?m ?m => apply keep_refl
  | H : keep ?m ?x |- keep ?m ?x => exact H
  | H : keep ?y ?x |- keep ?m ?x => apply (keep_trans m y); [keep_tac | exact H]
  | H : frame ?y ?x |- keep ?m ?x =>
      apply (keep_trans m y); [keep_tac | apply frame_keep; exact H]
  | |- keep ?m (upd_player ?r ?f ?x) =>
      apply (keep_trans m x);
        [keep_tac | apply frame_keep, frame_upd_player; intros ?; reflexivity]
  | |- keep ?m (_apply_hattrick_miss_prefix ?b ?x) =>
      apply (keep_trans m x);
        [keep_tac | apply frame_keep, frame__apply_hattrick_miss_prefix]
  | |- keep ?m (_register_bowler_wicket_for_hattrick ?b ?x) =>
      apply (keep_trans m x);
        [keep_tac | apply frame_keep, frame__register_bowler_wicket_for_hattrick]
  | |- keep ?m (_break_hattrick_chain ?x) =>
      apply (keep_trans m x); [keep_tac | apply frame_keep, frame__break_hattrick_chain]
  | |- keep ?m (_set_dismissal ?a ?b ?c ?d ?e ?f ?x) =>
      apply (keep_trans m x); [keep_tac | apply frame_keep, frame__set_dismissal]
  | |- keep ?m (book_extras_kind ?a ?b ?c ?x) =>
      apply (keep_trans m x); [keep_tac | apply frame_keep, frame_book_extras_kind]
  | |- keep ?m (if ?c then _ else _) => destruct c; keep_tac
  | |- keep ?m (?setter ?v ?x) =>
      apply (keep_trans m x); [keep_tac | apply frame_keep; frame_setter]
  end.

Ltac step_tac :=
  lazymatch goal with
  | H : ?x = _ |- step _ ?x => subst x; step_tac
  | H : step ?y ?x |- step ?m ?x => apply (keep_then_step m y x); [keep_tac | exact H]
  | |- step ?m ?x => apply keep_step; keep_tac
  end.

(** Walks down the body of a handler. *)
Ltac hok :=
  cbv beta iota;
  cbn [fst snd h_match h_flow legal_delivery bowler_wicket_this_ball] in *;
  lazymatch goal with
  | |- handled_ok ?m (mkHandled ?x ?flow _ _) =>
      lazymatch flow with
      | FReturn => change (step m x); step_tac
      | FNext => change (keep m x); keep_tac
      | FRaise => change (keep m x); keep_tac
      | if ?c then _ else _ => destruct c; hok
      | _ => destruct flow; hok
      end
  | |- handled_ok ?m (let x := ?a in @?b x) =>
      let T := type of a in
      lazymatch T with
      | Match =>
          let y := fresh "m" in
          let K := fresh "K" in
          assert (K : keep m a) by keep_tac;
          pose (y := a); change (handled_ok m (b y));
          change a with y in K; clearbody y; hok
      | _ => change (handled_ok m (b a)); hok
      end
  | |- handled_ok ?m (if ?c then _ else _) => dig_call c; hok
  | |- handled_ok ?m (match ?p with _ => _ end) => dig_call p; hok
  end.

Lemma retire_hurt_spec striker t m :
  let r := retire_hurt striker t m in
  match r.2 with
  | FReturn => step m r.1
  | _ => keep m r.1
  end.
Proof.
  unfold retire_hurt. cbv zeta.
  destruct (existsb _ _);
    match goal with
    | |- context [_take_next_batsman ?t ?x] =>
        pose proof (frame__take_next_batsman t x) as F;
        destruct (_take_next_batsman t x) as [[p|] m2]; cbn [fst snd] in *
    end;
    try keep_tac;
    match goal with
    | |- context [_maybe_end_innings_no_batsmen ?t ?x] =>
        pose proof (maybe_end_innings_spec t x) as S;
        destruct (_maybe_end_innings_no_batsmen t x) as [[] m3]; cbn [fst snd] in *
    end;
    first [step_tac | subst m3; keep_tac].
Qed.

Ltac note_call2 p :=
  lazymatch p with
  | retire_hurt ?s ?t ?x => pose proof (retire_hurt_spec s t x)
  | _ => note_call p
  end.

Ltac dig_call p ::=
  lazymatch p with
  | if ?c then _ else _ => dig_call c
  | match ?q with _ => _ end => dig_call q
  | _ => note_call2 p; destruct p
  end.

Lemma no_ball_outcome_ok b m : handled_ok m (no_ball_outcome b m).
Proof. unfold no_ball_outcome. hok. Qed.

Lemma appeal_out_ok striker b bt bw method_key m :
  handled_ok m (appeal_out striker b bt bw method_key m).
Proof. unfold appeal_out. hok. Qed.

Lemma appeal_loose_ball_ok striker b bt bw card_key m :
  handled_ok m (appeal_loose_ball striker b bt bw card_key m).
Proof. unfold appeal_loose_ball. hok. Qed.

Lemma unknown_dict_ok striker b bt bw outcome m :
  handled_ok m (unknown_dict striker b bt bw outcome m).
Proof. unfold unknown_dict. hok. Qed.

Lemma wicket_outcome_ok striker b bt bw m :
  handled_ok m (wicket_outcome striker b bt bw m).
Proof. unfold wicket_outcome. hok. Qed.

Lemma runs_outcome_ok striker b n m : handled_ok m (runs_outcome striker b n m).
Proof. unfold runs_outcome. hok. Qed.

Lemma handle_outcome_ok striker b bt bw outcome m :
  handled_ok m (handle_outcome striker b bt bw outcome m).
Proof.
  unfold handle_outcome. destruct outcome as [n|s|r mt cd|ty p].
  - apply runs_outcome_ok.
  - destruct (String.eqb s "W"); [apply wicket_outcome_ok|].
    destruct (py_int s); [apply runs_outcome_ok | apply keep_refl].
  - destruct (String.eqb r "Not Out").
    { change (keep m (_apply_hattrick_miss_prefix b m)). keep_tac. }
    destruct (String.eqb r "Out"); [apply appeal_out_ok|].
    destruct (String.eqb r "No Ball"); [apply no_ball_outcome_ok|].
    destruct (String.eqb r "Loose Ball"); [apply appeal_loose_ball_ok | apply keep_refl].
  - destruct (String.eqb ty "Appeal"); [apply keep_refl|].
    destruct (String.eqb ty "No Ball"); [apply no_ball_outcome_ok | apply unknown_dict_ok].
Qed.

(** ** An over preserves the invariants *)

Lemma handled_ok_after m m1 h : keep m m1 -> handled_ok m1 h -> handled_ok m h.
Proof.
  unfold handled_ok. intros K H. destruct (h_flow h).
  - eapply keep_trans; eassumption.
  - eapply keep_then_step; eassumption.
  - eapply keep_trans; eassumption.
Qed.

Lemma end_of_ball_ok m striker ball h :
  handled_ok m h -> handled_ok m (end_of_ball striker ball h).1.
Proof.
  unfold end_of_ball, handled_ok. intros H.
  destruct (h_flow h) eqn:E; cbn [fst]; rewrite ?E; try exact H.
  destruct (legal_delivery h), (bowler_wicket_this_ball h);
    cbn [fst h_flow h_match] in *; keep_tac.
Qed.

Lemma end_of_ball_flow striker ball h :
  h_flow (end_of_ball striker ball h).1 = h_flow h.
Proof.
  unfold end_of_ball. destruct (h_flow h) eqn:E; cbn [fst]; rewrite ?E; try reflexivity.
  destruct (legal_delivery h); reflexivity.
Qed.

Lemma play_ball_ok striker b bt bw ball m :
  handled_ok m (play_ball striker b bt bw ball m).1.
Proof.
  unfold play_ball.
  destruct (_current_condition_modifiers_for_over m) as [bat_mod bowl_mod].
  destruct (simulate_ball _ _ (random m)) as [outcome rng].
  apply end_of_ball_ok.
  apply (handled_ok_after m (set_random rng m)); [apply frame_keep; frame_setter|].
  apply handle_outcome_ok.
Qed.

Lemma over_loop_ok fuel b bt bw : forall ball m m' ex,
  over_loop fuel b bt bw ball m = Some (m', ex) ->
  match ex with
  | LoopReturn => step m m'
  | _ => keep m m'
  end.
Proof.
  induction fuel as [|fuel IH]; intros ball m m' ex; cbn [over_loop]; [discriminate|].
  destruct (6 <=? ball)%nat.
  { intros [= <- <-]. apply keep_refl. }
  destruct (current_batsmen m) as [|striker rest].
  { intros [= <- <-]. apply keep_refl. }
  pose proof (play_ball_ok striker b bt bw ball m) as Hok.
  destruct (play_ball striker b bt bw ball m) as [h ball'].
  cbn [fst] in Hok. unfold handled_ok in Hok.
  destruct (h_flow h).
  - destruct (_ || _).
    + intros [= <- <-]. exact Hok.
    + intros Hrec. apply IH in Hrec. destruct ex.
      * eapply keep_trans; eassumption.
      * eapply keep_then_step; eassumption.
      * eapply keep_trans; eassumption.
  - intros [= <- <-]. exact Hok.
  - intros [= <- <-]. exact Hok.
Qed.

Lemma end_of_over_unfold bowler_name b bt bw m :
  end_of_over bowler_name b bt bw m =
  let m := book_over bowler_name b bw m in
  let '(won, m) := check_chase_complete m in
  if won then m
  else
    let m := if 10 <=? wickets_taken m then end_innings false m else m in
    if negb (match_over m) && (0 <? day_overs_scheduled m)
       && (day_overs_scheduled m <=? overs_in_day m)
    then start_new_day m
    else m.
Proof. unfold end_of_over, book_over. reflexivity. Qed.

Lemma book_over_inv bowler_name b bw m :
  Inv m ->
  tally (bowler_overs_session m) (Player.name (get_player b m)) < 2 ->
  tally (bowler_overs_today m) (Player.name (get_player b m)) < 4 ->
  Inv (book_over bowler_name b bw m).
Proof.
  intros HI Hs2 Ht4. unfold book_over.
  set (m1 := if Nat.eqb (length (current_batsmen m)) 2
             then set_current_batsmen (swap_strike (current_batsmen m)) m else m).
  assert (F1 : frame m m1).
  { subst m1. destruct (Nat.eqb _ _); [frame_setter | apply frame_refl]. }
  assert (Hn : Player.name (get_player b m1) = Player.name (get_player b m)).
  { apply same_core_bowler_name, F1. }
  assert (I1 : Inv m1) by (apply (keep_step m); [apply frame_keep, F1 | exact HI]).
  destruct F1 as [[Fs Ft _ _ _ _ _ _ _ _ _ _ _ _ _ _ _ _ _] _].
  rewrite <- Fs, <- Hn in Hs2. rewrite <- Ft, <- Hn in Ht4.
  clearbody m1. clear HI Fs Ft Hn m.
  cbv zeta.
  set (bname := Player.name (get_player b m1)) in *.
  set (m2 := upd_player b (add_overs_bowled 1) m1).
  assert (F2 : frame m1 m2) by (apply frame_upd_player; reflexivity).
  assert (I2 : Inv m2) by (apply (keep_step m1); [apply frame_keep, F2 | exact I1]).
  destruct F2 as [[Fs Ft _ _ _ _ _ _ _ _ _ _ _ _ _ _ _ _ _] _].
  rewrite <- Fs in Hs2. rewrite <- Ft in Ht4.
  clearbody m2 bname. clear I1 Fs Ft m1.
  destruct I2 as [Hw Hs Ht Hm Hth Hi H1 H2 H3 H4 Ha Hb He Ho].
  match goal with |- Inv (if ?c then _ else _) => destruct c end.
  - split; cbn; auto. apply zero_tally_bounded; lia.
    apply map_Forall_insert_2; [lia | exact Ht].
  - split; cbn; auto.
    + apply map_Forall_insert_2; [lia | exact Hs].
    + apply map_Forall_insert_2; [lia | exact Ht].
Qed.

Lemma end_of_over_inv bowler_name b bt bw m :
  Inv m ->
  tally (bowler_overs_session m) (Player.name (get_player b m)) < 2 ->
  tally (bowler_overs_today m) (Player.name (get_player b m)) < 4 ->
  Inv (end_of_over bowler_name b bt bw m).
Proof.
  intros HI Hs2 Ht4. rewrite end_of_over_unfold. cbv zeta.
  pose proof (book_over_inv bowler_name b bw m HI Hs2 Ht4) as I1.
  set (m1 := book_over bowler_name b bw m) in *. clearbody m1.
  pose proof (frame_check_chase_complete m1) as F.
  destruct (check_chase_complete m1) as [won m2]. cbn [snd] in F.
  assert (I2 : Inv m2) by (apply (keep_step m1); [apply frame_keep, F | exact I1]).
  destruct won; [exact I2|].
  set (m3 := if _ <=? _ then _ else _).
  assert (I3 : Inv m3).
  { subst m3. destruct (10 <=? _); [apply end_innings_step|]; exact I2. }
  clearbody m3.
  destruct (_ && _ && _); [apply start_new_day_step|]; exact I3.
Qed.

(** ** Starting an over preserves the invariants *)

Lemma setdefault0_bounded k d bound :
  0 <= bound ->
  map_Forall (fun _ n => n <= bound) d ->
  map_Forall (fun _ n => n <= bound) (setdefault0 k d).
Proof.
  intros Hb H. unfold setdefault0. destruct (d !! k); [exact H|].
  apply map_Forall_insert_2; assumption.
Qed.

Lemma showerror_step title message m : step m (showerror title message m).
Proof.
  intros [Hw Hs Ht Hm Hth Hi H1 H2 H3 H4 Ha Hb He Ho].
  unfold showerror. split; cbn -[asks]; rewrite ?asks_showerror; auto.
Qed.

Lemma start_over_unfold fuel bowler_name m :
  start_over fuel bowler_name m =
  if match_over m then Some (m, Raised)
  else if (day_overs_scheduled m =? 0) || (day_overs_scheduled m <=? overs_in_day m) then
    Some (start_new_day m, NewDay)
  else
    let batting_team := _batting_team m in
    let bowling_team := _bowling_team m in
    let m := select_bowler bowler_name m in
    match bowler m with
    | None => Some (showerror "Error" "Invalid bowler selected" m, Rejected)
    | Some b =>
        let bname := Player.name (get_player b m) in
        let m := enter_tallies b m in
        if 2 <=? tally (bowler_overs_session m) bname then
          Some (showerror "Error"
                  (bowler_name +:+ " has already bowled 2 overs this session.") m, Rejected)
        else if 4 <=? tally (bowler_overs_today m) bname then
          Some (showerror "Error"
                  (bowler_name +:+ " has already bowled 4 overs today.") m, Rejected)
        else if bool_decide (Some bowler_name = last_bowler m) then
          Some (showerror "Error" "Bowler cannot bowl consecutive overs." m, Rejected)
        else
          let m := set_current_over_legal_balls 0 m in
          let m := set__limits_session_number (session_number m) m in
          match over_loop fuel b batting_team bowling_team 0 m with
          | None => None
          | Some (m, LoopReturn) => Some (m, Stopped)
          | Some (m, LoopRaise) => Some (m, Raised)
          | Some (m, LoopDone) =>
              Some (end_of_over bowler_name b batting_team bowling_team m, OverBowled)
          end
    end.
Proof. unfold start_over, select_bowler, enter_tallies. reflexivity. Qed.

Lemma select_bowler_inv bowler_name m : Inv m -> Inv (select_bowler bowler_name m).
Proof.
  intros [Hw Hs Ht Hm Hth Hi H1 H2 H3 H4 Ha Hb He Ho]. unfold select_bowler. cbv zeta.
  destruct (negb _); split; cbn; auto. apply zero_tally_bounded; lia.
Qed.

Lemma enter_tallies_inv b m : Inv m -> Inv (enter_tallies b m).
Proof.
  intros [Hw Hs Ht Hm Hth Hi H1 H2 H3 H4 Ha Hb He Ho]. unfold enter_tallies.
  split; cbn; auto; apply setdefault0_bounded; auto; lia.
Qed.

Lemma enter_tallies_name b b' m :
  Player.name (get_player b' (enter_tallies b m)) = Player.name (get_player b' m).
Proof. reflexivity. Qed.

Theorem start_over_inv fuel bowler_name m m' st :
  Inv m -> start_over fuel bowler_name m = Some (m', st) -> Inv m'.
Proof.
  intros HI. rewrite start_over_unfold.
  destruct (match_over m); [intros [= <- <-]; exact HI|].
  destruct (_ || _); [intros [= <- <-]; apply start_new_day_step, HI|].
  cbv zeta.
  pose proof (select_bowler_inv bowler_name m HI) as I1.
  set (m1 := select_bowler bowler_name m) in *. clearbody m1.
  destruct (bowler m1) as [b|]; [|intros [= <- <-]; apply showerror_step, I1].
  pose proof (enter_tallies_inv b m1 I1) as I2.
  set (bname := Player.name (get_player b m1)).
  assert (Hbn : bname = Player.name (get_player b (enter_tallies b m1))) by reflexivity.
  set (m2 := enter_tallies b m1) in *. clearbody m2 bname.
  destruct (2 <=? _) eqn:E2; [intros [= <- <-]; apply showerror_step, I2|].
  destruct (4 <=? _) eqn:E4; [intros [= <- <-]; apply showerror_step, I2|].
  destruct (bool_decide _); [intros [= <- <-]; apply showerror_step, I2|].
  apply Z.leb_gt in E2, E4.
  set (m3 := set__limits_session_number _ _).
  assert (I3 : Inv m3).
  { subst m3. destruct I2 as [Hw Hs Ht Hm Hth Hi H1 H2 H3 H4 Ha Hb He Ho].
    split; cbn; auto. }
  assert (E2' : tally (bowler_overs_session m3) (Player.name (get_player b m3)) < 2).
  { subst m3 bname. exact E2. }
  assert (E4' : tally (bowler_overs_today m3) (Player.name (get_player b m3)) < 4).
  { subst m3 bname. exact E4. }
  clearbody m3.
  destruct (over_loop fuel b _ _ 0 m3) as [[m4 ex]|] eqn:EL; [|discriminate].
  apply over_loop_ok in EL.
  destruct ex; intros [= <- <-].
  - assert (I4 : Inv m4) by (apply (keep_step m3); assumption).
    destruct EL as [SC _].
    apply end_of_over_inv; [exact I4 | |].
    + rewrite (same_core_bowler_name b m3 m4 SC), (sc_session _ _ SC). exact E2'.
    + rewrite (same_core_bowler_name b m3 m4 SC), (sc_today _ _ SC). exact E4'.
  - apply EL, I3.
  - apply (keep_step m3); assumption.
Qed.

(** Every reachable match satisfies the invariants. *)
Theorem reachable_inv m : reachable m -> Inv m.
Proof.
  induction 1 as [t1 t2 rng answers H1 H2 | m fuel name m' st Hr IH Hs | m Hr IH
                   | m rng Hr IH | m answers Hr IH].
  - apply new_match_inv.
  - eapply start_over_inv; eassumption.
  - apply declare_innings_step, IH.
  - apply (keep_step m); [apply frame_keep; frame_setter | exact IH].
  - apply (keep_step m); [apply frame_keep; frame_setter | exact IH].
Qed.

(** * Wickets, workload and follow-on *)

(** ** What the beginning of an innings leaves alone *)

Lemma map_team_rest tid f m :
  innings_summaries (map_team tid f m) = innings_summaries m
  /\ innings (map_team tid f m) = innings m
  /\ wickets_taken (map_team tid f m) = wickets_taken m
  /\ match_over (map_team tid f m) = match_over m
  /\ innings_batting_team (map_team tid f m) = innings_batting_team m
  /\ follow_on_enforced (map_team tid f m) = follow_on_enforced m
  /\ gui_dialogs (map_team tid f m) = gui_dialogs m.
Proof. unfold map_team. destruct (tid =? 1); repeat split. Qed.

Lemma reset_sides_rest m :
  innings_summaries (reset_sides m) = innings_summaries m
  /\ innings (reset_sides m) = innings m
  /\ wickets_taken (reset_sides m) = wickets_taken m
  /\ match_over (reset_sides m) = match_over m
  /\ innings_batting_team (reset_sides m) = innings_batting_team m
  /\ follow_on_enforced (reset_sides m) = follow_on_enforced m
  /\ gui_dialogs (reset_sides m) = gui_dialogs m.
Proof.
  unfold reset_sides. cbv zeta. cbn.
  match goal with
  | |- context [map_team ?t2 reset_bowling (map_team ?t1 reset_batting ?x)] =>
      destruct (map_team_rest t2 reset_bowling (map_team t1 reset_batting x))
        as (-> & -> & -> & -> & -> & -> & ->);
      destruct (map_team_rest t1 reset_batting x) as (-> & -> & -> & -> & -> & -> & ->)
  end.
  repeat split.
Qed.

Lemma choose_side_rest m :
  innings_summaries (choose_side m) = innings_summaries m
  /\ match_over (choose_side m) = match_over m.
Proof. unfold choose_side. repeat destruct (_ =? _); split; reflexivity. Qed.

Lemma next_innings_rest m :
  innings_summaries (next_innings m) = innings_summaries m
  /\ innings (next_innings m) = innings m + 1
  /\ wickets_taken (next_innings m) = 0
  /\ match_over (next_innings m) = match_over m
  /\ follow_on_enforced (next_innings m) = follow_on_enforced m
  /\ gui_dialogs (next_innings m) = gui_dialogs m
  /\ innings_batting_team (next_innings m)
     = innings_batting_team (choose_side (set_innings (innings m + 1) m)).
Proof.
  unfold next_innings.
  destruct (reset_sides_rest (reset_counters (choose_side (set_innings (innings m + 1) m))))
    as (-> & -> & -> & -> & -> & -> & ->).
  unfold reset_counters. cbn.
  destruct (choose_side_core (set_innings (innings m + 1) m))
    as (_ & _ & _ & _ & -> & -> & -> & _).
  destruct (choose_side_rest (set_innings (innings m + 1) m)) as (-> & ->).
  repeat split.
Qed.

Lemma offer_follow_on_rest m :
  innings_summaries (offer_follow_on_if_available m) = innings_summaries m
  /\ innings (offer_follow_on_if_available m) = innings m
  /\ match_over (offer_follow_on_if_available m) = match_over m
  /\ innings_batting_team (offer_follow_on_if_available m) = innings_batting_team m.
Proof.
  unfold offer_follow_on_if_available, askyesno.
  destruct (negb _); [repeat split|]. destruct (_ <=? _); repeat split.
Qed.

Lemma determine_result_rest m :
  innings_summaries (determine_result m) = innings_summaries m
  /\ innings (determine_result m) = innings m
  /\ wickets_taken (determine_result m) = wickets_taken m.
Proof.
  unfold determine_result.
  destruct (match_over m); [repeat split|].
  destruct (_ <? _)%nat; [repeat split|].
  destruct (totals_by_team_completed m) as [t1 t2].
  destruct (t2 <? t1); [repeat split|]. destruct (t1 <? t2); repeat split.
Qed.

(** ** C5 *)

(** C5 as stated fails when the scores are level: with 300 against
    100 + 200 the combined total does not exceed the first-innings total, yet
    the match goes on and the fourth innings begins. *)
Lemma level_scores_after_follow_on_play_on :
  let m := follow_on_innings 300 100 200 in
  innings m = 3 /\ follow_on_enforced m = true
  /\ summary_runs 2 m + runs m <= summary_runs 1 m
  /\ match_over (end_innings false m) = false
  /\ innings (end_innings false m) = 4.
Proof. cbv zeta. repeat (split; [vm_compute; congruence|]). vm_compute; reflexivity. Qed.

Lemma next_innings_fresh m :
  runs (next_innings m) = 0 /\ result_summary (next_innings m) = result_summary m.
Proof.
  unfold next_innings, reset_sides, map_team, reset_counters, choose_side. cbv zeta.
  repeat match goal with |- context [if ?c =? 1 then set_team1 _ _ else _] =>
    destruct (c =? 1) end;
    cbn; repeat match goal with |- context [if ?c then _ else _] => destruct c end;
    split; reflexivity.
Qed.

(** C5, amended.  When innings 3 closes as a follow-on innings (the flag is
    set and innings 3 is batted by side 2), what follows depends on the
    following-on side's innings-2 total plus its innings-3 total against the
    other side's innings-1 total.  If it is strictly less, the match ends at
    once: side 1 wins by an innings and the difference in runs, the innings
    counter stays at 3, and no over can be started any more.  If it is equal
    or greater, closing the innings decides nothing: the match is as much on
    as it was, with the result it had, innings 3 is entered in the summaries
    and innings 4 begins at 0 for 0, batted by side 1 when side 2 is on
    record as the side of innings 3. *)
Theorem follow_on_innings_victory (m : Match) (force : bool) :
  innings m = 3 ->
  follow_on_enforced m = true ->
  default 2 (innings_batting_team m !! 3) = 2 ->
  force = true \/ innings_declared m = true \/ 10 <= wickets_taken m ->
  let m' := end_innings force m in
  (summary_runs 2 m + runs m < summary_runs 1 m ->
   match_over m' = true
   /\ result_summary m'
      = Some (Win 1 (InningsAndRuns (summary_runs 1 m - (summary_runs 2 m + runs m))))
   /\ innings m' = 3
   /\ forall fuel bowler_name, start_over fuel bowler_name m' = Some (m', Raised))
  /\ (summary_runs 1 m <= summary_runs 2 m + runs m ->
      match_over m' = match_over m
      /\ result_summary m' = result_summary m
      /\ innings m' = 4
      /\ runs m' = 0 /\ wickets_taken m' = 0
      /\ summary_runs 3 m' = runs m
      /\ (innings_batting_team m !! 3 = Some 2 -> innings_batting_team m' !! 4 = Some 1)).
Proof.
  intros Hinn Hfo Hside Hclose m'.
  assert (Hguard : negb force && negb (innings_declared m) && (wickets_taken m <? 10) = false).
  { destruct Hclose as [-> | [-> | Hw]]; [reflexivity | apply andb_false_iff; left;
      apply andb_false_r |].
    apply andb_false_iff. right. apply Z.ltb_ge. exact Hw. }
  assert (Hm' : m' =
    if summary_runs 2 m + runs m <? summary_runs 1 m then
      set_match_over true
        (set_result_summary
           (Some (Win 1 (InningsAndRuns
              (summary_runs 1 m - (summary_runs 2 m + runs m)))))
           (_snapshot_innings_summary m))
    else next_innings (_snapshot_innings_summary m)).
  { subst m'. rewrite end_innings_unfold, Hguard.
    cbv zeta. rewrite !summary_runs_snapshot.
    rewrite Hinn.
    rewrite (bool_decide_eq_false_2 (3 = 1)) by discriminate.
    rewrite (bool_decide_eq_false_2 (3 = 2)) by discriminate.
    rewrite (bool_decide_eq_true_2 (3 = 3)) by reflexivity.
    replace (innings (_snapshot_innings_summary m)) with 3 by (symmetry; exact Hinn).
    replace (follow_on_enforced (_snapshot_innings_summary m)) with true
      by (symmetry; exact Hfo).
    replace (innings_batting_team (_snapshot_innings_summary m) !! 3)
      with (innings_batting_team m !! 3) by reflexivity.
    rewrite Hside.
    change (3 =? 3) with true. change (2 =? 2) with true. change (4 <=? 3) with false.
    cbn [andb].
    destruct (summary_runs 2 m + runs m <? summary_runs 1 m); [reflexivity|].
    unfold offer_follow_on_if_available.
    replace (innings (_snapshot_innings_summary m)) with 3 by (symmetry; exact Hinn).
    reflexivity. }
  rewrite Hm'. clear Hm' m'. split.
  - intros Hlt.
    replace (summary_runs 2 m + runs m <? summary_runs 1 m) with true
      by (symmetry; apply Z.ltb_lt; exact Hlt).
    cbn.
    split; [reflexivity|]. split; [reflexivity|]. split; [exact Hinn|].
    intros fuel bowler_name. reflexivity.
  - intros Hge.
    replace (summary_runs 2 m + runs m <? summary_runs 1 m) with false
      by (symmetry; apply Z.ltb_ge; exact Hge).
    destruct (next_innings_rest (_snapshot_innings_summary m))
      as (Hsum & Hi & Hw & Ho & _ & _ & Hsides).
    destruct (next_innings_fresh (_snapshot_innings_summary m)) as (Hr & Hres).
    split; [rewrite Ho; reflexivity|]. split; [rewrite Hres; reflexivity|].
    split; [rewrite Hi; cbn; lia|]. split; [exact Hr|]. split; [exact Hw|].
    split.
    + unfold summary_runs at 1. rewrite Hsum.
      change (match innings_summaries (_snapshot_innings_summary m) !! 3 with
              | Some s => Summary.runs s | None => 0 end)
        with (summary_runs 3 (_snapshot_innings_summary m)).
      rewrite summary_runs_snapshot, bool_decide_eq_true_2 by exact Hinn. reflexivity.
    + intros H3. rewrite Hsides. unfold choose_side.
      cbn [innings set_innings innings_batting_team _snapshot_innings_summary
           set_innings_summaries set_innings_batting_team follow_on_enforced].
      rewrite Hinn. change (3 + 1 =? 2) with false. change (3 + 1 =? 3) with false.
      change (3 + 1 =? 4) with true. cbv iota.
      cbn [innings_batting_team set_innings_batting_team].
      rewrite lookup_insert_eq.
      replace (innings_batting_team
                 (set_innings (3 + 1) (_snapshot_innings_summary m)) !! 3)
        with (innings_batting_team m !! 3) by reflexivity.
      rewrite H3. reflexivity.
Qed.

Lemma follow_on_innings_victory_witness :
  (match_over (end_innings false (follow_on_innings 300 100 150)) = true
   /\ result_summary (end_innings false (follow_on_innings 300 100 150))
      = Some (Win 1 (InningsAndRuns 50)))
  /\ (match_over (end_innings false (follow_on_innings 300 100 200)) = false
      /\ innings (end_innings false (follow_on_innings 300 100 200)) = 4
      /\ innings_batting_team (end_innings false (follow_on_innings 300 100 200)) !! 4
         = Some 1).
Proof.
  split.
  - destruct (follow_on_innings_victory (follow_on_innings 300 100 150) false
                eq_refl eq_refl eq_refl
                (or_intror (or_intror (ltac:(vm_compute; discriminate) : 10 <= 10))))
      as [H _].
    destruct (H ltac:(vm_compute; reflexivity)) as (H1 & H2 & _).
    split; [exact H1|]. rewrite H2. reflexivity.
  - destruct (follow_on_innings_victory (follow_on_innings 300 100 200) false
                eq_refl eq_refl eq_refl
                (or_intror (or_intror (ltac:(vm_compute; discriminate) : 10 <= 10))))
      as [_ H].
    destruct (H ltac:(vm_compute; discriminate)) as (H1 & _ & H3 & _ & _ & _ & H7).
    split; [rewrite H1; reflexivity|]. split; [exact H3|].
    apply H7. reflexivity.
Defined.

(** ** A match that is on has a wicket in hand *)

Lemma lstep_refl m : lstep m m.
Proof. intros H; exact H. Qed.

Lemma lstep_trans m1 m2 m3 : lstep m1 m2 -> lstep m2 m3 -> lstep m1 m3.
Proof. unfold lstep. auto. Qed.

Lemma frame_lstep m m' : frame m m' -> lstep m m'.
Proof.
  intros [SC W] L Ho. rewrite W. apply L.
  destruct (match_over m) eqn:E; [|reflexivity].
  rewrite (sc_over _ _ SC E) in Ho. discriminate Ho.
Qed.

Lemma end_innings_live force m : live (end_innings force m).
Proof.
  rewrite end_innings_unfold.
  destruct (negb force && negb (innings_declared m) && (wickets_taken m <? 10)) eqn:G.
  { apply andb_prop in G as [_ G]. apply Z.ltb_lt in G. intros _. exact G. }
  cbv zeta. destruct (_ && _ && _ && _); [intros H; discriminate H|].
  destruct (4 <=? _); [intros H; discriminate H|].
  intros _.
  destruct (next_innings_rest (offer_follow_on_if_available (_snapshot_innings_summary m)))
    as (_ & _ & -> & _). lia.
Qed.

Lemma increment_wicket_live m : lstep m (_increment_wicket_and_maybe_end m).1.
Proof.
  unfold _increment_wicket_and_maybe_end.
  destruct (10 <=? wickets_taken m) eqn:E10; cbn [fst snd]; [apply lstep_refl|].
  apply Z.leb_gt in E10. cbv zeta.
  set (m1 := set_fow _ _).
  destruct (wickets_taken m1 =? 10) eqn:E; cbn [fst].
  - intros _. apply end_innings_live.
  - apply Z.eqb_neq in E. intros _ _. subst m1. cbn in *. lia.
Qed.

Lemma maybe_end_innings_live t m : lstep m (_maybe_end_innings_no_batsmen t m).2.
Proof.
  unfold _maybe_end_innings_no_batsmen.
  destruct (_ && _); cbn [snd]; [intros _; apply end_innings_live | apply lstep_refl].
Qed.

Ltac live_tac :=
  lazymatch goal with
  | H : ?x = _ |- lstep _ ?x => subst x; live_tac
  | |- lstep ?m ?m => apply lstep_refl
  | H : lstep ?m ?x |- lstep ?m ?x => exact H
  | H : lstep ?y ?x |- lstep ?m ?x => apply (lstep_trans m y); [live_tac | exact H]
  | H : frame ?y ?x |- lstep ?m ?x =>
      apply (lstep_trans m y); [live_tac | apply frame_lstep; exact H]
  | |- lstep ?m (upd_player ?r ?f ?x) =>
      apply (lstep_trans m x);
        [live_tac | apply frame_lstep, frame_upd_player; intros ?; reflexivity]
  | |- lstep ?m (_apply_hattrick_miss_prefix ?b ?x) =>
      apply (lstep_trans m x);
        [live_tac | apply frame_lstep, frame__apply_hattrick_miss_prefix]
  | |- lstep ?m (_register_bowler_wicket_for_hattrick ?b ?x) =>
      apply (lstep_trans m x);
        [live_tac | apply frame_lstep, frame__register_bowler_wicket_for_hattrick]
  | |- lstep ?m (_break_hattrick_chain ?x) =>
      apply (lstep_trans m x); [live_tac | apply frame_lstep, frame__break_hattrick_chain]
  | |- lstep ?m (_set_dismissal ?a ?b ?c ?d ?e ?f ?x) =>
      apply (lstep_trans m x); [live_tac | apply frame_lstep, frame__set_dismissal]
  | |- lstep ?m (book_extras_kind ?a ?b ?c ?x) =>
      apply (lstep_trans m x); [live_tac | apply frame_lstep, frame_book_extras_kind]
  | |- lstep ?m (if ?c then _ else _) => destruct c; live_tac
  | |- lstep ?m (?setter ?v ?x) =>
      apply (lstep_trans m x); [live_tac | apply frame_lstep; frame_setter]
  end.

Lemma retire_hurt_live striker t m : lstep m (retire_hurt striker t m).1.
Proof.
  unfold retire_hurt. cbv zeta.
  destruct (existsb _ _);
    match goal with
    | |- context [_take_next_batsman ?t ?x] =>
        pose proof (frame__take_next_batsman t x) as F;
        destruct (_take_next_batsman t x) as [[p|] m2]; cbn [fst snd] in *
    end;
    try live_tac;
    match goal with
    | |- context [_maybe_end_innings_no_batsmen ?t ?x] =>
        pose proof (maybe_end_innings_live t x) as S;
        destruct (_maybe_end_innings_no_batsmen t x) as [[] m3]; cbn [fst snd] in *
    end;
    live_tac.
Qed.

Ltac note_live p :=
  lazymatch p with
  | _take_next_batsman ?t ?x => pose proof (frame__take_next_batsman t x)
  | check_chase_complete ?x => pose proof (frame_check_chase_complete x)
  | credit_bowler ?a ?b ?x => pose proof (frame_credit_bowler a b x)
  | loose_ball_names ?a ?b ?c ?d ?x => pose proof (frame_loose_ball_names a b c d x)
  | _increment_wicket_and_maybe_end ?x => pose proof (increment_wicket_live x)
  | _maybe_end_innings_no_batsmen ?t ?x => pose proof (maybe_end_innings_live t x)
  | retire_hurt ?s ?t ?x => pose proof (retire_hurt_live s t x)
  | _ => note_frame p
  end.

Ltac dig_live p :=
  lazymatch p with
  | if ?c then _ else _ => dig_live c
  | match ?q with _ => _ end => dig_live q
  | _ => note_live p; destruct p
  end.

Ltac hlive :=
  cbv beta iota;
  cbn [fst snd h_match h_flow legal_delivery bowler_wicket_this_ball] in *;
  lazymatch goal with
  | |- handled_live ?m (mkHandled ?x _ _ _) => change (lstep m x); live_tac
  | |- handled_live ?m (let x := ?a in @?b x) =>
      let T := type of a in
      lazymatch T with
      | Match =>
          let y := fresh "m" in
          let K := fresh "K" in
          assert (K : lstep m a) by live_tac;
          pose (y := a); change (handled_live m (b y));
          change a with y in K; clearbody y; hlive
      | _ => change (handled_live m (b a)); hlive
      end
  | |- handled_live ?m (if ?c then _ else _) => dig_live c; hlive
  | |- handled_live ?m (match ?p with _ => _ end) => dig_live p; hlive
  end.

Lemma no_ball_outcome_live b m : handled_live m (no_ball_outcome b m).
Proof. unfold no_ball_outcome. hlive. Qed.

Lemma appeal_out_live striker b bt bw method_key m :
  handled_live m (appeal_out striker b bt bw method_key m).
Proof. unfold appeal_out. hlive. Qed.

Lemma appeal_loose_ball_live striker b bt bw card_key m :
  handled_live m (appeal_loose_ball striker b bt bw card_key m).
Proof. unfold appeal_loose_ball. hlive. Qed.

Lemma unknown_dict_live striker b bt bw outcome m :
  handled_live m (unknown_dict striker b bt bw outcome m).
Proof. unfold unknown_dict. hlive. Qed.

Lemma wicket_outcome_live striker b bt bw m :
  handled_live m (wicket_outcome striker b bt bw m).
Proof. unfold wicket_outcome. hlive. Qed.

Lemma runs_outcome_live striker b n m : handled_live m (runs_outcome striker b n m).
Proof. unfold runs_outcome. hlive. Qed.

Lemma handle_outcome_live striker b bt bw outcome m :
  handled_live m (handle_outcome striker b bt bw outcome m).
Proof.
  unfold handle_outcome. destruct outcome as [n|s|r mt cd|ty p].
  - apply runs_outcome_live.
  - destruct (String.eqb s "W"); [apply wicket_outcome_live|].
    destruct (py_int s); [apply runs_outcome_live | apply lstep_refl].
  - destruct (String.eqb r "Not Out").
    { change (lstep m (_apply_hattrick_miss_prefix b m)). live_tac. }
    destruct (String.eqb r "Out"); [apply appeal_out_live|].
    destruct (String.eqb r "No Ball"); [apply no_ball_outcome_live|].
    destruct (String.eqb r "Loose Ball"); [apply appeal_loose_ball_live | apply lstep_refl].
  - destruct (String.eqb ty "Appeal"); [apply lstep_refl|].
    destruct (String.eqb ty "No Ball"); [apply no_ball_outcome_live | apply unknown_dict_live].
Qed.

Lemma end_of_ball_live m striker ball h :
  handled_live m h -> handled_live m (end_of_ball striker ball h).1.
Proof.
  unfold end_of_ball, handled_live. intros H.
  destruct (h_flow h); cbn [fst]; try exact H.
  destruct (legal_delivery h), (bowler_wicket_this_ball h);
    cbn [fst h_flow h_match] in *; live_tac.
Qed.

Lemma play_ball_live striker b bt bw ball m :
  handled_live m (play_ball striker b bt bw ball m).1.
Proof.
  unfold play_ball.
  destruct (_current_condition_modifiers_for_over m) as [bat_mod bowl_mod].
  destruct (simulate_ball _ _ (random m)) as [outcome rng].
  apply end_of_ball_live.
  apply (lstep_trans m (set_random rng m)); [apply frame_lstep; frame_setter|].
  apply handle_outcome_live.
Qed.

Lemma over_loop_live fuel b bt bw : forall ball m m' ex,
  over_loop fuel b bt bw ball m = Some (m', ex) -> lstep m m'.
Proof.
  induction fuel as [|fuel IH]; intros ball m m' ex; cbn [over_loop]; [discriminate|].
  destruct (6 <=? ball)%nat.
  { intros [= <- <-]. apply lstep_refl. }
  destruct (current_batsmen m) as [|striker rest].
  { intros [= <- <-]. apply lstep_refl. }
  pose proof (play_ball_live striker b bt bw ball m) as Hok.
  destruct (play_ball striker b bt bw ball m) as [h ball'].
  cbn [fst] in Hok. unfold handled_live in Hok.
  destruct (h_flow h).
  - destruct (_ || _).
    + intros [= <- <-]. exact Hok.
    + intros Hrec. apply IH in Hrec. eapply lstep_trans; eassumption.
  - intros [= <- <-]. exact Hok.
  - intros [= <- <-]. exact Hok.
Qed.

Lemma book_over_wickets bowler_name b bw m :
  wickets_taken (book_over bowler_name b bw m) = wickets_taken m
  /\ match_over (book_over bowler_name b bw m) = match_over m.
Proof.
  unfold book_over, upd_player. cbv zeta.
  destruct (Nat.eqb _ _), (b.1 =? 1); cbn;
    match goal with |- context [if ?c then _ else _] => destruct c end; split; reflexivity.
Qed.

Lemma start_new_day_wickets m :
  wickets_taken (start_new_day m) = wickets_taken m
  /\ innings (start_new_day m) = innings m
  /\ (match_over m = true -> match_over (start_new_day m) = true).
Proof.
  rewrite start_new_day_unfold. cbv zeta.
  destruct (MAX_DAYS <? _); [repeat split|].
  destruct (choice MATCH_CONDITIONS_DECK _) as [o rng].
  unfold recall_retired_hurt, schedule_day. cbv zeta.
  cbn [day_no_play set_day_overs_lost_end set_day_overs_lost_start set_day_no_play].
  destruct (Condition.no_play _);
    match goal with |- context [if ?c then set_retired_hurt_priority _ _ else _] =>
      destruct c end; repeat split; intros H; exact H.
Qed.

Lemma start_new_day_live m : lstep m (start_new_day m).
Proof.
  destruct (start_new_day_wickets m) as (W & _ & O). intros L Ho. rewrite W. apply L.
  destruct (match_over m); [|reflexivity]. rewrite O in Ho by reflexivity. discriminate Ho.
Qed.

Lemma end_of_over_live bowler_name b bt bw m :
  lstep m (end_of_over bowler_name b bt bw m).
Proof.
  rewrite end_of_over_unfold. cbv zeta.
  assert (L1 : lstep m (book_over bowler_name b bw m)).
  { destruct (book_over_wickets bowler_name b bw m) as [W O]. intros L. unfold live.
    rewrite W, O. exact L. }
  set (m1 := book_over bowler_name b bw m) in *. clearbody m1.
  pose proof (frame_check_chase_complete m1) as F.
  destruct (check_chase_complete m1) as [won m2]. cbn [snd] in F.
  assert (L2 : lstep m m2) by (eapply lstep_trans; [exact L1 | apply frame_lstep, F]).
  destruct won; [exact L2|].
  set (m3 := if _ <=? _ then _ else _).
  assert (L3 : lstep m m3).
  { subst m3. destruct (10 <=? _); [intros _; apply end_innings_live | exact L2]. }
  clearbody m3.
  destruct (_ && _ && _); [|exact L3].
  eapply lstep_trans; [exact L3 | apply start_new_day_live].
Qed.

Lemma start_over_live fuel bowler_name m m' st :
  live m -> start_over fuel bowler_name m = Some (m', st) -> live m'.
Proof.
  intros L. rewrite start_over_unfold.
  destruct (match_over m) eqn:Eo; [intros [= <- <-]; exact L|].
  destruct (_ || _); [intros [= <- <-]; apply start_new_day_live, L|].
  cbv zeta.
  assert (L1 : live (select_bowler bowler_name m)).
  { unfold select_bowler. cbv zeta. destruct (negb _); exact L. }
  set (m1 := select_bowler bowler_name m) in *. clearbody m1.
  destruct (bowler m1) as [b|]; [|intros [= <- <-]; exact L1].
  assert (L2 : live (enter_tallies b m1)) by exact L1.
  set (m2 := enter_tallies b m1) in *. clearbody m2.
  destruct (2 <=? _); [intros [= <- <-]; exact L2|].
  destruct (4 <=? _); [intros [= <- <-]; exact L2|].
  destruct (bool_decide _); [intros [= <- <-]; exact L2|].
  set (m3 := set__limits_session_number _ _).
  assert (L3 : live m3) by exact L2.
  clearbody m3.
  destruct (over_loop fuel b _ _ 0 m3) as [[m4 ex]|] eqn:EL; [|discriminate].
  apply over_loop_live in EL. specialize (EL L3).
  destruct ex; intros [= <- <-]; try exact EL.
  apply end_of_over_live, EL.
Qed.

(** In every reachable match that is on, fewer than ten wickets are down. *)
Lemma reachable_live m : reachable m -> live m.
Proof.
  induction 1 as [t1 t2 rng answers H1 H2 | m fuel name m' st Hr IH Hs | m Hr IH
                   | m rng Hr IH | m answers Hr IH].
  - unfold new_match. apply start_new_day_live. intros _. cbn. lia.
  - eapply start_over_live; eassumption.
  - unfold declare_innings. apply end_innings_live.
  - exact IH.
  - exact IH.
Qed.

(** ** Runs of overs *)

Lemma sample_match_reachable rng : reachable (sample_match rng).
Proof. unfold sample_match. apply reach_new; reflexivity. Qed.

Lemma bowl_overs_reachable fuel bowlers : forall m m',
  reachable m -> bowl_overs fuel bowlers m = Some m' -> reachable m'.
Proof.
  induction bowlers as [|name rest IH]; intros m m' Hr; cbn.
  - intros [= <-]. exact Hr.
  - destruct (start_over fuel name m) as [[m1 st]|] eqn:E; [|discriminate].
    apply IH. eapply reach_start_over; eassumption.
Qed.

Lemma default_eq {A : Type} (d : A) (o : option A) :
  (if o is Some _ then true else false) = true -> o = Some (default d o).
Proof. destruct o; [reflexivity | discriminate]. Qed.

(** ** C2 *)

Lemma end_innings_closes force m :
  force = true \/ innings_declared m = true \/ 10 <= wickets_taken m ->
  closed_with (wickets_taken m) m (end_innings force m).
Proof.
  intros Hclose. rewrite end_innings_unfold.
  replace (negb force && negb (innings_declared m) && (wickets_taken m <? 10)) with false.
  2:{ symmetry. destruct Hclose as [-> | [-> | Hw]];
        [reflexivity | apply andb_false_iff; left; apply andb_false_r |].
      apply andb_false_iff. right. apply Z.ltb_ge. exact Hw. }
  cbv zeta. unfold closed_with.
  set (m1 := _snapshot_innings_summary m).
  assert (Hs : exists s, innings_summaries m1 !! innings m = Some s
                         /\ Summary.wickets s = wickets_taken m
                         /\ Summary.runs s = runs m).
  { subst m1. unfold _snapshot_innings_summary. cbn.
    rewrite lookup_insert_eq. eexists. split; [reflexivity|]. split; reflexivity. }
  assert (Hi1 : innings m1 = innings m) by reflexivity.
  clearbody m1.
  destruct (_ && _ && _ && _).
  { split; [exact Hs | left; reflexivity]. }
  destruct (4 <=? innings m1).
  { cbn. destruct (determine_result_rest m1) as (-> & _ & _).
    split; [exact Hs | left; reflexivity]. }
  destruct (next_innings_rest (offer_follow_on_if_available m1))
    as (-> & -> & -> & _).
  destruct (offer_follow_on_rest m1) as (-> & -> & _).
  split; [exact Hs | right; split; [congruence | reflexivity]].
Qed.

(** A dismissal on appeal, from the state in which the wicket is counted. *)
Lemma appeal_out_tail striker b bt bw method fielder_name wk_name m m0 :
  frame m m0 ->
  let h :=
    let m := _set_dismissal striker method bw (Some b) fielder_name wk_name m0 in
    let '(m, bwt) := credit_bowler (lower method) b m in
    let '(m, ended) := _increment_wicket_and_maybe_end m in
    if ended then mkHandled m FReturn true bwt
    else
      let '(nb, m) := _take_next_batsman bt m in
      match nb with
      | Some p =>
          mkHandled (set_current_batsmen (<[0%nat := p]> (current_batsmen m)) m) FNext true bwt
      | None =>
          let m := set_current_batsmen [] m in
          let '(ended, m) := _maybe_end_innings_no_batsmen bt m in
          mkHandled m (if ended then FReturn else FNext) true bwt
      end in
  (wickets_taken m = 9 ->
   h_flow h = FReturn
   /\ (exists s, innings_summaries (h_match h) !! innings m = Some s
                 /\ Summary.wickets s = 10)
   /\ (match_over (h_match h) = true
       \/ innings (h_match h) = innings m + 1 /\ wickets_taken (h_match h) = 0))
  /\ (wickets_taken m < 9 ->
      (h_flow h = FNext
       /\ wickets_taken (h_match h) = wickets_taken m + 1
       /\ innings (h_match h) = innings m
       /\ innings_summaries (h_match h) = innings_summaries m)
      \/ (h_flow h = FReturn
          /\ (exists s, innings_summaries (h_match h) !! innings m = Some s
                        /\ Summary.wickets s = wickets_taken m + 1)
          /\ (match_over (h_match h) = true
              \/ innings (h_match h) = innings m + 1 /\ wickets_taken (h_match h) = 0))).
Proof.
  intros F0. cbv zeta.
  pose proof (frame__set_dismissal striker method bw (Some b) fielder_name wk_name m0) as F1.
  set (m1 := _set_dismissal _ _ _ _ _ _ m0) in *.
  pose proof (frame_credit_bowler (lower method) b m1) as F2.
  destruct (credit_bowler (lower method) b m1) as [m2 bwt]. cbn [fst] in F2.
  assert (F : frame m m2) by (eapply frame_trans; [eapply frame_trans|]; eassumption).
  clearbody m1. clear F0 F1 F2 m0 m1.
  destruct F as [SC W]. pose proof (sc_innings _ _ SC) as Hi.
  pose proof (sc_summaries _ _ SC) as Hsum. clear SC.
  unfold _increment_wicket_and_maybe_end. cbv zeta.
  cbn [wickets_taken set_fow set_wickets_taken].
  split.
  - intros H9. rewrite W, H9. change (10 <=? 9) with false. change (9 + 1 =? 10) with true.
    cbv iota. cbn [h_flow h_match].
    destruct (end_innings_closes false
                (set_fow (fow (set_wickets_taken (9 + 1) m2)
                          ++ [(9 + 1, runs (set_wickets_taken (9 + 1) m2))])
                   (set_wickets_taken (9 + 1) m2)))
      as [(s & Hs & Hw & _) Hnext].
    { right. right. cbn. lia. }
    cbn [innings set_fow set_wickets_taken wickets_taken] in Hs, Hw, Hnext.
    rewrite Hi in Hs, Hnext.
    split; [reflexivity|]. split; [exists s; split; [exact Hs | exact Hw]|exact Hnext].
  - intros H9. rewrite W.
    replace (10 <=? wickets_taken m) with false by (symmetry; apply Z.leb_gt; lia).
    replace (wickets_taken m + 1 =? 10) with false by (symmetry; apply Z.eqb_neq; lia).
    cbv iota.
    set (m3 := set_fow _ (set_wickets_taken (wickets_taken m + 1) m2)).
    assert (H3 : wickets_taken m3 = wickets_taken m + 1 /\ innings m3 = innings m
                 /\ innings_summaries m3 = innings_summaries m).
    { subst m3. cbn. auto. }
    clearbody m3. destruct H3 as (W3 & I3 & S3).
    pose proof (frame__take_next_batsman bt m3) as F4.
    destruct (_take_next_batsman bt m3) as [[p|] m4]; cbn [snd] in F4;
      destruct F4 as [SC4 W4]; pose proof (sc_innings _ _ SC4) as I4;
      pose proof (sc_summaries _ _ SC4) as S4.
    + left. cbn. repeat split; congruence.
    + unfold _maybe_end_innings_no_batsmen.
      destruct (_ && _).
      * right. cbn [h_flow h_match]. split; [reflexivity|].
        destruct (end_innings_closes true (set_current_batsmen [] m4))
          as [(s & Hs & Hw & _) Hnext]; [left; reflexivity|].
        cbn [innings set_current_batsmen wickets_taken] in Hs, Hw, Hnext.
        rewrite I4, I3 in Hs, Hnext. rewrite W4, W3 in Hw.
        split; [exists s; split; [exact Hs | exact Hw]|exact Hnext].
      * left. cbn. repeat split; congruence.
Qed.

Lemma appeal_out_wicket striker b bt bw method_key m :
  let h := appeal_out striker b bt bw method_key m in
  (wickets_taken m = 9 ->
   h_flow h = FReturn
   /\ (exists s, innings_summaries (h_match h) !! innings m = Some s
                 /\ Summary.wickets s = 10)
   /\ (match_over (h_match h) = true
       \/ innings (h_match h) = innings m + 1 /\ wickets_taken (h_match h) = 0))
  /\ (wickets_taken m < 9 ->
      (h_flow h = FNext
       /\ wickets_taken (h_match h) = wickets_taken m + 1
       /\ innings (h_match h) = innings m
       /\ innings_summaries (h_match h) = innings_summaries m)
      \/ (h_flow h = FReturn
          /\ (exists s, innings_summaries (h_match h) !! innings m = Some s
                        /\ Summary.wickets s = wickets_taken m + 1)
          /\ (match_over (h_match h) = true
              \/ innings (h_match h) = innings m + 1 /\ wickets_taken (h_match h) = 0))).
Proof.
  unfold appeal_out. cbv zeta.
  destruct (String.eqb _ "caught wk" || String.eqb _ "stumped wk").
  - pose proof (frame__get_wicketkeeper_name bw m) as F.
    destruct (_get_wicketkeeper_name bw m) as [wk m0]. cbn [snd] in F.
    exact (appeal_out_tail striker b bt bw _ None (Some wk) m m0 F).
  - destruct (String.eqb _ "caught").
    + pose proof (frame__get_wicketkeeper_name bw m) as F.
      destruct (_get_wicketkeeper_name bw m) as [wk m0]. cbn [snd] in F.
      pose proof (frame_choose_fielder bw (Player.name (get_player b m0)) wk m0) as F'.
      destruct (choose_fielder bw (Player.name (get_player b m0)) wk m0) as [f m1].
      cbn [snd] in F'.
      exact (appeal_out_tail striker b bt bw _ (Some f) (Some wk) m m1
               (frame_trans _ _ _ F F')).
    + exact (appeal_out_tail striker b bt bw _ None None m m (frame_refl m)).
Qed.

Lemma nine_down_reachable : reachable nine_down.
Proof.
  unfold nine_down.
  eapply (bowl_overs_reachable 7 ["Tate"; "Ure"]); [apply sample_match_reachable|].
  apply (default_eq (sample_match [])). vm_compute. reflexivity.
Qed.

(** C2 as stated fails: an innings that was not declared can complete with
    nine wickets down.  In the sample match Archer retires hurt on the first
    ball and each of the next nine balls draws the card "Ball keeps low -
    LBW"; when the ninth wicket falls in Ure's over nobody is left to come
    in, [start_over] returns from inside the over, the first innings is
    entered in the summaries with nine wickets and the second has begun. *)
Lemma undeclared_innings_closes_with_nine_wickets :
  exists m m',
    reachable m
    /\ start_over 7 "Ure" m = Some (m', Stopped)
    /\ innings m = 1 /\ wickets_taken m = 5 /\ match_over m = false
    /\ innings_declared m' = false
    /\ innings m' = 2 /\ match_over m' = false
    /\ (Summary.wickets <$> innings_summaries m' !! 1) = Some 9.
Proof.
  do 2 eexists.
  split.
  { eapply (reach_start_over
              (sample_match (0%nat :: [5; 5; 9] ++ concat (replicate 9 [5; 5; 18]))%nat)
              7 "Tate");
      [apply sample_match_reachable|].
    apply match_after_eq. vm_compute. reflexivity. }
  split; [apply match_after_eq; vm_compute; reflexivity|].
  repeat (split; [vm_compute; reflexivity|]). vm_compute; reflexivity.
Qed.

(** C2, amended.  In every reachable match the wicket count lies between 0
    and 10, and it is below 10 while the match is on: the tenth wicket never
    leaves an innings in progress.  [_increment_wicket_and_maybe_end] never
    takes the count past 10; when it takes it from 9 to 10 the innings ends in
    that very call, entered in the summaries with ten wickets at the total
    reached, and either the match is over or the next innings has begun with
    no wicket down; while the count stays below 10 the call reports no end.
    So a dismissal on appeal with nine wickets down makes [start_over] return
    with the innings closed on ten wickets; with fewer down it counts one
    more wicket, and then either the innings goes on or it is closed on that
    count.  For the tenth wicket and a declaration are not the only ends of
    an innings: [_maybe_end_innings_no_batsmen] closes it, declared or not,
    at whatever count has been reached, exactly when fewer than two batters
    are at the crease and nobody is left to come in. *)
Theorem wickets_within_ten_and_tenth_ends_innings (m : Match) :
  reachable m ->
  0 <= wickets_taken m <= 10
  /\ (match_over m = false -> wickets_taken m < 10)
  /\ (let r := _increment_wicket_and_maybe_end m in
      wickets_taken r.1 <= 10
      /\ (wickets_taken m = 9 ->
          r.2 = true
          /\ (exists s,
                innings_summaries r.1 !! innings m = Some s
                /\ Summary.wickets s = 10 /\ Summary.runs s = runs m)
          /\ (match_over r.1 = true
              \/ innings r.1 = innings m + 1 /\ wickets_taken r.1 = 0))
      /\ (wickets_taken m < 9 ->
          r.2 = false
          /\ wickets_taken r.1 = wickets_taken m + 1
          /\ innings r.1 = innings m
          /\ innings_summaries r.1 = innings_summaries m
          /\ match_over r.1 = match_over m))
  /\ (forall striker b batting_team bowling_team method_key,
        let h := appeal_out striker b batting_team bowling_team method_key m in
        (wickets_taken m = 9 ->
         h_flow h = FReturn
         /\ (exists s, innings_summaries (h_match h) !! innings m = Some s
                       /\ Summary.wickets s = 10)
         /\ (match_over (h_match h) = true
             \/ innings (h_match h) = innings m + 1 /\ wickets_taken (h_match h) = 0))
        /\ (wickets_taken m < 9 ->
            (h_flow h = FNext
             /\ wickets_taken (h_match h) = wickets_taken m + 1
             /\ innings (h_match h) = innings m
             /\ innings_summaries (h_match h) = innings_summaries m)
            \/ (h_flow h = FReturn
                /\ (exists s, innings_summaries (h_match h) !! innings m = Some s
                              /\ Summary.wickets s = wickets_taken m + 1)
                /\ (match_over (h_match h) = true
                    \/ innings (h_match h) = innings m + 1
                       /\ wickets_taken (h_match h) = 0))))
  /\ (forall batting_team,
        let r := _maybe_end_innings_no_batsmen batting_team m in
        (r.1 = true
         <-> (length (current_batsmen m) < 2)%nat
             /\ _no_batsmen_left batting_team m = true)
        /\ (r.1 = true ->
            (exists s, innings_summaries r.2 !! innings m = Some s
                       /\ Summary.wickets s = wickets_taken m)
            /\ (match_over r.2 = true
                \/ innings r.2 = innings m + 1 /\ wickets_taken r.2 = 0))
        /\ (r.1 = false -> r.2 = m)).
Proof.
  intros Hr. pose proof (reachable_inv m Hr) as HI.
  pose proof (inv_wickets m HI) as Hw.
  split; [exact Hw|].
  split; [exact (reachable_live m Hr)|].
  split; [|split].
  - cbv zeta. split; [|split].
    + pose proof (increment_wicket_spec m) as S. cbv zeta in S.
      destruct (_increment_wicket_and_maybe_end m) as [m' ended]. cbn [fst snd] in *.
      destruct ended.
      * apply (inv_wickets m' (S HI)).
      * apply S. exact Hw.
    + intros H9. unfold _increment_wicket_and_maybe_end.
      rewrite H9. change (10 <=? 9) with false. cbv iota zeta.
      cbn [wickets_taken set_fow set_wickets_taken]. change (9 + 1 =? 10) with true.
      cbv iota. cbn [fst snd]. split; [reflexivity|].
      destruct (end_innings_closes false
                  (set_fow (fow (set_wickets_taken (9 + 1) m)
                            ++ [(9 + 1, runs (set_wickets_taken (9 + 1) m))])
                     (set_wickets_taken (9 + 1) m)))
        as [Hs Hnext]; [right; right; cbn; lia|].
      split; [exact Hs | exact Hnext].
    + intros H9. unfold _increment_wicket_and_maybe_end.
      replace (10 <=? wickets_taken m) with false by (symmetry; apply Z.leb_gt; lia).
      cbv zeta. cbn [wickets_taken set_fow set_wickets_taken].
      replace (wickets_taken m + 1 =? 10) with false by (symmetry; apply Z.eqb_neq; lia).
      cbn. repeat split.
  - intros striker b batting_team bowling_team method_key.
    apply appeal_out_wicket.
  - intros batting_team. cbv zeta. unfold _maybe_end_innings_no_batsmen.
    destruct (length (current_batsmen m) <? 2)%nat eqn:E2;
      [apply Nat.ltb_lt in E2 | apply Nat.ltb_ge in E2]; cbn [andb].
    + destruct (_no_batsmen_left batting_team m) eqn:En; cbn [fst snd].
      * split; [split; auto|]. split; [|discriminate]. intros _.
        destruct (end_innings_closes true m) as [(s & Hs & Hws & _) Hnext];
          [left; reflexivity|].
        split; [exists s; split; [exact Hs | exact Hws] | exact Hnext].
      * split; [split; [discriminate | intros [_ H]; discriminate H]|].
        split; [discriminate | reflexivity].
    + cbn [fst snd]. split; [split; [discriminate | intros [H _]; lia]|].
      split; [discriminate | reflexivity].
Qed.

Lemma wickets_within_ten_and_tenth_ends_innings_witness :
  reachable nine_down
  /\ wickets_taken nine_down = 9
  /\ match_over nine_down = false
  /\ h_flow (appeal_out (1, 10%nat) (2, 9%nat) 1 2 (Some "LBW") nine_down) = FReturn
  /\ exists s,
       innings_summaries (h_match (appeal_out (1, 10%nat) (2, 9%nat) 1 2 (Some "LBW")
                                     nine_down)) !! innings nine_down = Some s
       /\ Summary.wickets s = 10.
Proof.
  pose proof (wickets_within_ten_and_tenth_ends_innings nine_down nine_down_reachable)
    as (_ & _ & _ & H & _).
  specialize (H (1, 10%nat) (2, 9%nat) 1 2 (Some "LBW")). cbv zeta in H.
  destruct H as [H _].
  specialize (H ltac:(vm_compute; reflexivity)). destruct H as (Hf & Hs & _).
  split; [exact nine_down_reachable|].
  split; [vm_compute; reflexivity|].
  split; [vm_compute; reflexivity|].
  split; [exact Hf | exact Hs].
Defined.

(** ** C3 *)

Lemma find_name_spec bowler_name ps : forall i j,
  find_name bowler_name ps i = Some j ->
  exists p, ps !! (j - i)%nat = Some p /\ Player.name p = bowler_name /\ (i <= j)%nat.
Proof.
  induction ps as [|p ps IH]; intros i j; cbn; [discriminate|].
  destruct (String.eqb (Player.name p) bowler_name) eqn:E.
  - intros [= <-]. apply String.eqb_eq in E. exists p.
    rewrite Nat.sub_diag. auto.
  - intros H. apply IH in H as (q & Hq & Hn & Hle). exists q.
    replace (j - i)%nat with (S (j - S i)) by lia. cbn. repeat split; auto; lia.
Qed.

Lemma find_bowler_name bowler_name bt m b :
  find_bowler bowler_name bt m = Some b -> Player.name (get_player b m) = bowler_name.
Proof.
  unfold find_bowler.
  destruct (find_name bowler_name (players bt m) 0) as [j|] eqn:E; [|discriminate].
  intros [= <-]. apply find_name_spec in E as (p & Hp & Hn & _).
  rewrite Nat.sub_0_r in Hp. unfold get_player. cbn [fst snd].
  rewrite Hp. exact Hn.
Qed.

Lemma tally_setdefault0 k d k' : tally (setdefault0 k d) k' = tally d k'.
Proof.
  unfold tally, setdefault0. destruct (d !! k) eqn:E; [reflexivity|].
  destruct (decide (k = k')) as [->|Hne].
  - rewrite lookup_insert_eq, E. reflexivity.
  - rewrite lookup_insert_ne by assumption. reflexivity.
Qed.

Lemma select_bowler_reachable bowler_name m :
  Inv m ->
  select_bowler bowler_name m
  = set_bowler (find_bowler bowler_name (_bowling_team m) m) m.
Proof.
  intros HI. unfold select_bowler. cbv zeta.
  rewrite (inv_marker m HI), Z.eqb_refl. reflexivity.
Qed.

(** What [start_over] does with a bowler of the bowling side while the
    match is on and the day has overs left. *)
Lemma start_over_checks fuel bowler_name m b :
  Inv m ->
  match_over m = false ->
  day_overs_scheduled m <> 0 ->
  overs_in_day m < day_overs_scheduled m ->
  find_bowler bowler_name (_bowling_team m) m = Some b ->
  (ineligible bowler_name m ->
   exists message,
     start_over fuel bowler_name m
     = Some (showerror "Error" message (enter_tallies b (set_bowler (Some b) m)), Rejected))
  /\ (~ ineligible bowler_name m ->
      forall m' st, start_over fuel bowler_name m = Some (m', st) -> st <> Rejected).
Proof.
  intros HI Hover Hsched Hleft Hfind.
  rewrite start_over_unfold, Hover.
  replace ((day_overs_scheduled m =? 0) || (day_overs_scheduled m <=? overs_in_day m))
    with false
    by (symmetry; apply orb_false_iff; split; [apply Z.eqb_neq | apply Z.leb_gt]; lia).
  cbv zeta. rewrite (select_bowler_reachable _ _ HI), Hfind.
  cbn [bowler set_bowler].
  assert (Hname : Player.name (get_player b (set_bowler (Some b) m)) = bowler_name)
    by (apply (find_bowler_name _ _ _ _ Hfind)).
  rewrite Hname.
  assert (Hs : tally (bowler_overs_session (enter_tallies b (set_bowler (Some b) m)))
                 bowler_name = tally (bowler_overs_session m) bowler_name).
  { unfold enter_tallies. cbn. apply tally_setdefault0. }
  assert (Ht : tally (bowler_overs_today (enter_tallies b (set_bowler (Some b) m)))
                 bowler_name = tally (bowler_overs_today m) bowler_name).
  { unfold enter_tallies. cbn. apply tally_setdefault0. }
  assert (Hl : last_bowler (enter_tallies b (set_bowler (Some b) m)) = last_bowler m)
    by reflexivity.
  rewrite Hs, Ht, Hl. unfold ineligible.
  destruct (2 <=? _) eqn:E2; [split; [eauto|]; intros Hn; exfalso; apply Hn; left;
    apply Z.leb_le; exact E2|].
  destruct (4 <=? _) eqn:E4; [split; [eauto|]; intros Hn; exfalso; apply Hn; right; left;
    apply Z.leb_le; exact E4|].
  apply Z.leb_gt in E2, E4.
  case_bool_decide as El.
  { split; [eauto|]. intros Hn. exfalso. apply Hn. right. right. congruence. }
  split.
  { intros [H | [H | H]]; [lia | lia | congruence]. }
  intros _ m' st.
  destruct (over_loop _ _ _ _ _ _) as [[m4 []]|]; intros [= <- <-]; discriminate.
Qed.

(** C3 as stated fails across a session break.  In the sample match, with
    every die showing two, seven overs are bowled in the first session; Rudd
    then bowls the eighth, which ends the session, and is allowed to bowl the
    ninth as well, the very next over of the same innings. *)
Lemma same_bowler_bowls_across_session_break :
  exists m7 m8 m9,
    reachable m7
    /\ start_over 20 "Rudd" m7 = Some (m8, OverBowled)
    /\ start_over 20 "Rudd" m8 = Some (m9, OverBowled)
    /\ overs_completed m7 = 7 /\ overs_completed m8 = 8 /\ overs_completed m9 = 9
    /\ innings m9 = innings m7
    /\ bowler m8 = bowler m9
    /\ session_number m7 = 1 /\ session_number m8 = 2.
Proof.
  do 3 eexists.
  split.
  { eapply (bowl_overs_reachable 20
              ["Tate"; "Ure"; "Tate"; "Ure"; "Shaw"; "Rudd"; "Shaw"]);
      [apply (sample_match_reachable (0%nat :: replicate 200 1%nat))|].
    apply (default_eq (sample_match [])). vm_compute. reflexivity. }
  split; [apply match_after_eq; vm_compute; reflexivity|].
  split; [apply match_after_eq; vm_compute; reflexivity|].
  repeat (split; [vm_compute; reflexivity|]). vm_compute; reflexivity.
Qed.

Lemma tally_zero_tally ps k : tally (zero_tally ps) k = 0.
Proof.
  unfold tally. destruct (zero_tally ps !! k) as [n|] eqn:E; [|reflexivity].
  apply zero_tally_zero in E. exact E.
Qed.

Lemma tally_insert d k v k' :
  tally (<[k := v]> d) k' = if bool_decide (k = k') then v else tally d k'.
Proof.
  unfold tally. case_bool_decide as E.
  - subst. rewrite lookup_insert_eq. reflexivity.
  - rewrite lookup_insert_ne by assumption. reflexivity.
Qed.

(** What booking an over changes. *)
Lemma book_over_fields bowler_name b bw m :
  let m' := book_over bowler_name b bw m in
  let bname := Player.name (get_player b m) in
  overs_in_day m' = overs_in_day m + 1
  /\ day_counter m' = day_counter m
  /\ innings m' = innings m
  /\ bowler_overs_today m'
     = <[bname := tally (bowler_overs_today m) bname + 1]> (bowler_overs_today m)
  /\ (if completes_session m
      then session_number m' = session_number m + 1
           /\ last_bowler m' = None
           /\ exists ps, bowler_overs_session m' = zero_tally ps
      else session_number m' = session_number m
           /\ last_bowler m' = Some bowler_name
           /\ bowler_overs_session m'
              = <[bname := tally (bowler_overs_session m) bname + 1]>
                  (bowler_overs_session m)).
Proof.
  cbv zeta. unfold book_over, completes_session, upd_player. cbv zeta.
  destruct (Nat.eqb _ _), (b.1 =? 1); cbn;
    match goal with |- context [if ?c then _ else _] => destruct c end; cbn;
    repeat split; eauto.
Qed.

Lemma start_new_day_moves_on m :
  match_over (start_new_day m) = true
  \/ day_counter (start_new_day m) = day_counter m + 1.
Proof.
  rewrite start_new_day_unfold. cbv zeta.
  destruct (MAX_DAYS <? _); [left; reflexivity|]. right.
  destruct (choice MATCH_CONDITIONS_DECK _) as [o rng].
  unfold recall_retired_hurt, schedule_day. cbv zeta.
  cbn [day_no_play set_day_overs_lost_end set_day_overs_lost_start set_day_no_play].
  destruct (Condition.no_play _);
    match goal with |- context [if ?c then set_retired_hurt_priority _ _ else _] =>
      destruct c end; reflexivity.
Qed.

(** An over after which the match is on, in the same innings and on the
    same day, has been booked and nothing else. *)
Lemma end_of_over_quiet bowler_name b bt bw m :
  let m' := end_of_over bowler_name b bt bw m in
  match_over m' = false -> innings m' = innings m -> day_counter m' = day_counter m ->
  m' = book_over bowler_name b bw m.
Proof.
  cbv zeta. rewrite end_of_over_unfold. cbv zeta.
  destruct (book_over_fields bowler_name b bw m) as (_ & Hd & Hi & _). cbv zeta in Hd, Hi.
  set (m1 := book_over bowler_name b bw m) in *. clearbody m1.
  destruct (check_chase_complete_cases m1) as [-> | (w & n & ->)];
    [|intros H; discriminate H].
  destruct (10 <=? wickets_taken m1) eqn:E10.
  - apply Z.leb_le in E10.
    destruct (end_innings_closes false m1 (or_intror (or_intror E10))) as [_ Hnext].
    set (m2 := end_innings false m1) in *. clearbody m2.
    assert (Hbad : match_over m2 = false -> innings m2 = innings m -> False).
    { intros Ho Hi2. destruct Hnext as [H | [H _]]; [congruence | lia]. }
    destruct (_ && _ && _).
    + destruct (start_new_day_wickets m2) as (_ & Hi2 & Ho2).
      intros Ho Hi' _. exfalso. apply Hbad; [|congruence].
      destruct (match_over m2); [|reflexivity]. rewrite Ho2 in Ho by reflexivity.
      discriminate Ho.
    + intros Ho Hi' _. exfalso. apply Hbad; assumption.
  - destruct (_ && _ && _); [|reflexivity].
    intros Ho _ Hd'. exfalso.
    destruct (start_new_day_moves_on m1) as [H | H]; [congruence | lia].
Qed.

(** The state in which an over that is bowled to its end is booked. *)
Lemma start_over_bowled fuel bowler_name m m' :
  Inv m ->
  start_over fuel bowler_name m = Some (m', OverBowled) ->
  exists b m4,
    m' = end_of_over bowler_name b (_batting_team m) (_bowling_team m) m4
    /\ Player.name (get_player b m4) = bowler_name
    /\ bowler_overs_session m4 = setdefault0 bowler_name (bowler_overs_session m)
    /\ bowler_overs_today m4 = setdefault0 bowler_name (bowler_overs_today m)
    /\ session_number m4 = session_number m
    /\ innings m4 = innings m
    /\ day_counter m4 = day_counter m
    /\ completes_session m4 = completes_session m.
Proof.
  intros HI. rewrite start_over_unfold.
  destruct (match_over m); [intros [= _ ?]; discriminate|].
  destruct (_ || _); [intros [= _ ?]; discriminate|].
  cbv zeta. rewrite (select_bowler_reachable _ _ HI).
  destruct (find_bowler bowler_name (_bowling_team m) m) as [b|] eqn:Hfind;
    cbn [bowler set_bowler]; [|intros [= _ ?]; discriminate].
  pose proof (find_bowler_name _ _ _ _ Hfind) as Hname.
  destruct (2 <=? _); [intros [= _ ?]; discriminate|].
  destruct (4 <=? _); [intros [= _ ?]; discriminate|].
  case_bool_decide; [intros [= _ ?]; discriminate|].
  set (m3 := set__limits_session_number _ _).
  assert (H3 : Player.name (get_player b m3) = bowler_name
               /\ bowler_overs_session m3 = setdefault0 bowler_name (bowler_overs_session m)
               /\ bowler_overs_today m3 = setdefault0 bowler_name (bowler_overs_today m)
               /\ session_number m3 = session_number m
               /\ innings m3 = innings m
               /\ day_counter m3 = day_counter m
               /\ completes_session m3 = completes_session m).
  { subst m3. unfold enter_tallies. cbn.
    change (Player.name (get_player b (set_bowler (Some b) m)))
      with (Player.name (get_player b m)).
    rewrite Hname. repeat split; exact Hname. }
  clearbody m3. destruct H3 as (N3 & S3 & T3 & SN3 & I3 & D3 & C3).
  destruct (over_loop fuel b _ _ 0 m3) as [[m4 ex]|] eqn:EL; [|discriminate].
  apply over_loop_ok in EL.
  destruct ex; intros [= <-]. destruct EL as [SC _].
  exists b, m4. split; [reflexivity|].
  split; [rewrite (same_core_bowler_name b m3 m4 SC); exact N3|].
  split; [rewrite (sc_session _ _ SC); exact S3|].
  split; [rewrite (sc_today _ _ SC); exact T3|].
  split; [rewrite (sc_session_number _ _ SC); exact SN3|].
  split; [rewrite (sc_innings _ _ SC); exact I3|].
  split; [rewrite (sc_day_counter _ _ SC); exact D3|].
  unfold completes_session in *.
  rewrite (sc_per_session _ _ SC), (sc_session_overs _ _ SC), (sc_scheduled _ _ SC),
    (sc_overs_in_day _ _ SC). exact C3.
Qed.

Lemma next_innings_limits m :
  last_bowler (next_innings m) = None
  /\ forall name, tally (bowler_overs_session (next_innings m)) name = 0
                  /\ tally (bowler_overs_today (next_innings m)) name = 0.
Proof.
  unfold next_innings, reset_sides, map_team. cbv zeta.
  repeat match goal with |- context [if ?c =? 1 then set_team1 _ _ else _] =>
    destruct (c =? 1) end;
    cbn; (split; [reflexivity|]); intros name; split; apply tally_zero_tally.
Qed.

Lemma end_innings_limits force m :
  innings (end_innings force m) = innings m + 1 ->
  last_bowler (end_innings force m) = None
  /\ forall name, tally (bowler_overs_session (end_innings force m)) name = 0
                  /\ tally (bowler_overs_today (end_innings force m)) name = 0.
Proof.
  rewrite end_innings_unfold.
  destruct (_ && _ && _); [lia|]. cbv zeta.
  destruct (_ && _ && _ && _); [cbn; lia|].
  destruct (4 <=? _).
  { cbn. destruct (determine_result_rest (_snapshot_innings_summary m)) as (_ & -> & _).
    cbn. lia. }
  intros _. apply next_innings_limits.
Qed.

Lemma start_new_day_limits m :
  day_counter m <= MAX_DAYS ->
  last_bowler (start_new_day m) = None
  /\ forall name, tally (bowler_overs_session (start_new_day m)) name = 0
                  /\ tally (bowler_overs_today (start_new_day m)) name = 0.
Proof.
  intros Hd. rewrite start_new_day_unfold. cbv zeta.
  change (day_counter (set_current_day (day_counter m) m)) with (day_counter m).
  destruct (MAX_DAYS <? day_counter m) eqn:E; [apply Z.ltb_lt in E; lia|].
  destruct (choice MATCH_CONDITIONS_DECK _) as [o rng].
  unfold recall_retired_hurt, schedule_day. cbv zeta.
  cbn [day_no_play set_day_overs_lost_end set_day_overs_lost_start set_day_no_play].
  destruct (Condition.no_play _);
    match goal with |- context [if ?c then set_retired_hurt_priority _ _ else _] =>
      destruct c end;
    cbn; (split; [reflexivity|]); intros name; split; apply tally_zero_tally.
Qed.

(** C3, amended.  In every reachable match no bowler's counter for the
    session exceeds 2 and none for the day exceeds 4.  While the match is on
    and the day has overs left, [start_over] turns away a bowler of the
    bowling side exactly when the session counter has reached 2, the day
    counter has reached 4, or the name is the one held in [last_bowler]: then
    it shows an error and bowls nothing.  An over bowled to its end that
    leaves the match on, in the same innings and on the same day, adds one
    to the bowler's counter for the day and leaves the other bowlers' as they
    were; unless it completes the session it also adds one to the bowler's
    counter for the session and makes the bowler [last_bowler]; when it
    completes the session every counter for the session is set to 0 and
    [last_bowler] to nobody.  When an innings or a day begins both counters
    of every bowler are 0 and [last_bowler] is nobody.  So the counters and
    the ban on consecutive overs hold within a session of an innings, and do
    not reach across a session break, a change of innings or a new day. *)
Theorem bowling_limits_and_rejections (m : Match) :
  reachable m ->
  (forall name n, bowler_overs_session m !! name = Some n -> n <= 2)
  /\ (forall name n, bowler_overs_today m !! name = Some n -> n <= 4)
  /\ (forall fuel bowler_name b,
        match_over m = false ->
        day_overs_scheduled m <> 0 ->
        overs_in_day m < day_overs_scheduled m ->
        find_bowler bowler_name (_bowling_team m) m = Some b ->
        (ineligible bowler_name m ->
         exists message,
           start_over fuel bowler_name m
           = Some (showerror "Error" message (enter_tallies b (set_bowler (Some b) m)),
                   Rejected))
        /\ (~ ineligible bowler_name m ->
            forall m' st, start_over fuel bowler_name m = Some (m', st) -> st <> Rejected))
  /\ (forall fuel bowler_name m',
        start_over fuel bowler_name m = Some (m', OverBowled) ->
        match_over m' = false -> innings m' = innings m -> day_counter m' = day_counter m ->
        tally (bowler_overs_today m') bowler_name
        = tally (bowler_overs_today m) bowler_name + 1
        /\ (forall other, other <> bowler_name ->
              tally (bowler_overs_today m') other = tally (bowler_overs_today m) other)
        /\ (if completes_session m
            then session_number m' = session_number m + 1
                 /\ last_bowler m' = None
                 /\ forall name, tally (bowler_overs_session m') name = 0
            else session_number m' = session_number m
                 /\ last_bowler m' = Some bowler_name
                 /\ tally (bowler_overs_session m') bowler_name
                    = tally (bowler_overs_session m) bowler_name + 1
                 /\ forall other, other <> bowler_name ->
                      tally (bowler_overs_session m') other
                      = tally (bowler_overs_session m) other))
  /\ (forall force,
        innings (end_innings force m) = innings m + 1 ->
        last_bowler (end_innings force m) = None
        /\ forall name, tally (bowler_overs_session (end_innings force m)) name = 0
                        /\ tally (bowler_overs_today (end_innings force m)) name = 0)
  /\ (day_counter m <= MAX_DAYS ->
      last_bowler (start_new_day m) = None
      /\ forall name, tally (bowler_overs_session (start_new_day m)) name = 0
                      /\ tally (bowler_overs_today (start_new_day m)) name = 0).
Proof.
  intros Hr. pose proof (reachable_inv m Hr) as HI.
  split; [exact (inv_session m HI)|].
  split; [exact (inv_today m HI)|].
  split; [intros fuel bowler_name b; apply start_over_checks; exact HI|].
  split; [|split; [intros force; apply end_innings_limits | apply start_new_day_limits]].
  intros fuel bowler_name m' Hs Ho Hi Hd.
  destruct (start_over_bowled fuel bowler_name m m' HI Hs)
    as (b & m4 & -> & Hn & Hss & Hst & Hsn & Hi4 & Hd4 & Hc4).
  rewrite (end_of_over_quiet bowler_name b _ _ m4 Ho) in *
    by (first [rewrite Hi4; exact Hi | rewrite Hd4; exact Hd]).
  destruct (book_over_fields bowler_name b (_bowling_team m) m4)
    as (_ & _ & _ & Ht & Hsess). cbv zeta in Ht, Hsess.
  rewrite Hn in Ht, Hsess. rewrite Hc4, Hsn, Hss in Hsess. rewrite Hst in Ht.
  rewrite !tally_setdefault0 in Ht, Hsess.
  split; [rewrite Ht, tally_insert, bool_decide_eq_true_2 by reflexivity; reflexivity|].
  split.
  { intros other Hne. rewrite Ht, tally_insert, bool_decide_eq_false_2 by congruence.
    apply tally_setdefault0. }
  destruct (completes_session m).
  - destruct Hsess as (-> & -> & ps & ->).
    split; [reflexivity|]. split; [reflexivity|]. intros name. apply tally_zero_tally.
  - destruct Hsess as (-> & -> & ->).
    split; [reflexivity|]. split; [reflexivity|].
    split; [rewrite tally_insert, bool_decide_eq_true_2 by reflexivity; reflexivity|].
    intros other Hne. rewrite tally_insert, bool_decide_eq_false_2 by congruence.
    apply tally_setdefault0.
Qed.

Lemma after_tate_bowled :
  start_over 7 "Tate" (sample_match (0%nat :: replicate 200 1%nat))
  = Some (after_tate, OverBowled).
Proof. unfold after_tate. apply match_after_eq. vm_compute. reflexivity. Qed.

Lemma after_tate_reachable : reachable after_tate.
Proof.
  eapply reach_start_over; [apply sample_match_reachable | apply after_tate_bowled].
Qed.

Lemma bowling_limits_and_rejections_witness :
  reachable after_tate
  /\ last_bowler after_tate = Some "Tate"
  /\ tally (bowler_overs_today after_tate) "Tate"
     = tally (bowler_overs_today (sample_match (0%nat :: replicate 200 1%nat))) "Tate" + 1
  /\ tally (bowler_overs_session after_tate) "Tate"
     = tally (bowler_overs_session (sample_match (0%nat :: replicate 200 1%nat))) "Tate" + 1
  /\ exists message,
       start_over 7 "Tate" after_tate
       = Some (showerror "Error" message
                 (enter_tallies (2, 8%nat) (set_bowler (Some (2, 8%nat)) after_tate)),
               Rejected).
Proof.
  pose proof (bowling_limits_and_rejections (sample_match (0%nat :: replicate 200 1%nat))
                (sample_match_reachable _)) as (_ & _ & _ & H & _).
  specialize (H 7%nat "Tate" after_tate after_tate_bowled).
  specialize (H ltac:(vm_compute; reflexivity) ltac:(vm_compute; reflexivity)
                ltac:(vm_compute; reflexivity)).
  destruct H as (Ht & _ & Hs).
  replace (completes_session (sample_match (0%nat :: replicate 200 1%nat))) with false in Hs
    by (vm_compute; reflexivity).
  destruct Hs as (_ & Hl & Hss & _).
  pose proof (bowling_limits_and_rejections after_tate after_tate_reachable)
    as (_ & _ & H & _).
  specialize (H 7%nat "Tate" (2, 8%nat)).
  specialize (H ltac:(vm_compute; reflexivity) ltac:(vm_compute; discriminate)
                ltac:(vm_compute; reflexivity) ltac:(vm_compute; reflexivity)).
  destruct H as [H _].
  split; [exact after_tate_reachable|].
  split; [exact Hl|]. split; [exact Ht|]. split; [exact Hss|].
  apply H. right. right. exact Hl.
Defined.

Lemma lions_declared_at_216_reachable : reachable lions_declared_at_216.
Proof.
  unfold lions_declared_at_216. apply reach_declare, reach_answers.
  eapply (bowl_overs_reachable 7 ["Tate"; "Ure"; "Tate"; "Ure"; "Shaw"; "Rudd"]);
    [apply sample_match_reachable|].
  apply (default_eq (sample_match [])). vm_compute. reflexivity.
Qed.

(** The counters do not bound the overs a bowler bowls in a day or in a
    session across a change of innings.  After the declaration at 216 Ives
    bowls overs 7, 9 and 11 of the day; the Tigers are all out in the over
    after the twelfth and follow on; Ives then bowls overs 13 and 15 of the
    same day: five overs in the day, four of them in its second session,
    while his counter for the day, 3 at the end of the Tigers' first
    innings, reads 2. *)
Lemma bowler_exceeds_allocations_across_innings :
  exists m8 m11 m12 m15,
    bowl_overs 7 ["Ives"; "Joyce"] lions_declared_at_216 = Some m8
    /\ bowl_overs 7 ["Ives"; "Joyce"; "Ives"] m8 = Some m11
    /\ bowl_overs 7 ["Joyce"; "Hart"] m11 = Some m12
    /\ bowl_overs 7 ["Ives"; "Joyce"; "Ives"] m12 = Some m15
    /\ reachable m15
    /\ overs_in_day lions_declared_at_216 = 6 /\ overs_in_day m8 = 8
    /\ overs_in_day m11 = 11 /\ overs_in_day m12 = 12 /\ overs_in_day m15 = 15
    /\ session_number m8 = 2 /\ session_number m15 = 2
    /\ day_counter m15 = day_counter lions_declared_at_216
    /\ innings m11 = 2 /\ innings m12 = 3 /\ follow_on_enforced m12 = true
    /\ tally (bowler_overs_today m11) "Ives" = 3
    /\ tally (bowler_overs_today m15) "Ives" = 2
    /\ tally (bowler_overs_session m15) "Ives" = 2.
Proof.
  do 4 eexists.
  split; [apply (default_eq (sample_match [])); vm_compute; reflexivity|].
  split; [apply (default_eq (sample_match [])); vm_compute; reflexivity|].
  split; [apply (default_eq (sample_match [])); vm_compute; reflexivity|].
  split; [apply (default_eq (sample_match [])); vm_compute; reflexivity|].
  split.
  { eapply (bowl_overs_reachable 7 ["Ives"; "Joyce"; "Ives"]);
      [|apply (default_eq (sample_match [])); vm_compute; reflexivity].
    eapply (bowl_overs_reachable 7 ["Joyce"; "Hart"]);
      [|apply (default_eq (sample_match [])); vm_compute; reflexivity].
    eapply (bowl_overs_reachable 7 ["Ives"; "Joyce"; "Ives"]);
      [|apply (default_eq (sample_match [])); vm_compute; reflexivity].
    eapply (bowl_overs_reachable 7 ["Ives"; "Joyce"]);
      [|apply (default_eq (sample_match [])); vm_compute; reflexivity].
    apply lions_declared_at_216_reachable. }
  repeat (split; [vm_compute; reflexivity|]). vm_compute; reflexivity.
Qed.

(** ** C9 *)

(** The state a rejected call leaves: an error box on top of the state in
    which the bowler was checked. *)
Lemma start_over_rejected fuel bowler_name m m' :
  Inv m ->
  start_over fuel bowler_name m = Some (m', Rejected) ->
  exists message m0,
    m' = showerror "Error" message m0
    /\ ((find_bowler bowler_name (_bowling_team m) m = None /\ m0 = set_bowler None m)
        \/ exists b, find_bowler bowler_name (_bowling_team m) m = Some b
                     /\ m0 = enter_tallies b (set_bowler (Some b) m)).
Proof.
  intros HI. rewrite start_over_unfold.
  destruct (match_over m); [intros [= _ ?]; discriminate|].
  destruct (_ || _); [intros [= _ ?]; discriminate|].
  cbv zeta. rewrite (select_bowler_reachable _ _ HI).
  destruct (find_bowler bowler_name (_bowling_team m) m) as [b|] eqn:Hfind;
    cbn [bowler set_bowler].
  - destruct (2 <=? _); [intros [= <-]; eauto 7|].
    destruct (4 <=? _); [intros [= <-]; eauto 7|].
    case_bool_decide; [intros [= <-]; eauto 7|].
    destruct (over_loop _ _ _ _ _ _) as [[m4 []]|]; intros [= _ ?]; discriminate.
  - intros [= <-]. eauto 7.
Qed.

(** A rejected call changes the current bowler.  After Tate has bowled the
    first over of the sample match, every die showing two, the current
    bowler is Tate; asking next
    for a name that is not on the bowling side is rejected, and the current
    bowler is then nobody. *)
Lemma rejected_call_overwrites_current_bowler :
  exists m m',
    reachable m
    /\ start_over 7 "Nobody" m = Some (m', Rejected)
    /\ bowler m = Some (2, 8%nat)
    /\ bowler m' = None
    /\ m' <> m.
Proof.
  do 2 eexists.
  split.
  { eapply (reach_start_over (sample_match (0%nat :: replicate 200 1%nat)) 7 "Tate");
      [apply sample_match_reachable|].
    apply match_after_eq. vm_compute. reflexivity. }
  split; [apply match_after_eq; vm_compute; reflexivity|].
  split; [vm_compute; reflexivity|].
  split; [vm_compute; reflexivity|].
  intros H. apply (f_equal bowler) in H. vm_compute in H. discriminate H.
Qed.

(** C9, amended.  A call of [start_over] that is rejected (unknown bowler,
    session or day limit reached, bowler of the preceding over) bowls
    nothing and shows one error box.  It does not leave the match as it was:
    the current bowler is overwritten with the player looked up under the
    given name (nobody for an unknown name), and the two tallies of overs may
    have gained an entry of zero for that name, so that every bowler's tally
    reads as before.  Every other field keeps its value. *)
Theorem rejected_over_changes_only_bowler_and_dialogs
    (fuel : nat) (bowler_name : string) (m m' : Match) :
  reachable m ->
  start_over fuel bowler_name m = Some (m', Rejected) ->
  (exists message, gui_dialogs m' = gui_dialogs m ++ [ShowError "Error" message])
  /\ bowler m' = find_bowler bowler_name (_bowling_team m) m
  /\ (forall name, tally (bowler_overs_session m') name = tally (bowler_overs_session m) name)
  /\ (forall name, tally (bowler_overs_today m') name = tally (bowler_overs_today m) name)
  /\ set_gui_dialogs (gui_dialogs m)
       (set_bowler (bowler m)
          (set_bowler_overs_session (bowler_overs_session m)
             (set_bowler_overs_today (bowler_overs_today m) m'))) = m.
Proof.
  intros Hr H. apply start_over_rejected in H; [|apply reachable_inv; exact Hr].
  destruct H as (message & m0 & -> & [[Hfind ->] | (b & Hfind & ->)]); rewrite Hfind.
  - split; [exists message; reflexivity|].
    repeat (split; [reflexivity|]). destruct m; reflexivity.
  - split; [exists message; reflexivity|].
    split; [reflexivity|].
    split; [intros name; unfold enter_tallies; cbn; apply tally_setdefault0|].
    split; [intros name; unfold enter_tallies; cbn; apply tally_setdefault0|].
    destruct m; reflexivity.
Qed.

Lemma rejected_over_changes_only_bowler_and_dialogs_witness :
  bowler (match_after (start_over 7 "Nobody" (sample_match [0%nat])))
  = find_bowler "Nobody" (_bowling_team (sample_match [0%nat])) (sample_match [0%nat]).
Proof.
  refine (proj1 (proj2 (rejected_over_changes_only_bowler_and_dialogs
                          7%nat "Nobody" (sample_match [0%nat]) _ _ _))).
  - unfold sample_match. apply reach_new; reflexivity.
  - apply match_after_eq. vm_compute. reflexivity.
Defined.

(** ** C6 *)

(** Closing the second innings: the question is put exactly when the lead
    on first innings is at least the threshold, and the third innings
    begins. *)
Lemma end_innings_second force m :
  Inv m ->
  innings m = 2 ->
  negb force && negb (innings_declared m) && (wickets_taken m <? 10) = false ->
  innings (end_innings force m) = 3
  /\ gui_dialogs (end_innings force m)
     = gui_dialogs m
       ++ (if 200 <=? summary_runs 1 m - runs m
           then [AskYesNo "Follow-on Available" (summary_runs 1 m - runs m)] else [])
  /\ follow_on_enforced (end_innings force m)
     = (200 <=? summary_runs 1 m - runs m) && hd false (gui_askyesno m)
  /\ summary_runs 1 (end_innings force m) = summary_runs 1 m
  /\ summary_runs 2 (end_innings force m) = runs m.
Proof.
  intros HI H2 Hg. rewrite end_innings_unfold, Hg. cbv zeta.
  set (m1 := _snapshot_innings_summary m).
  assert (Hi1 : innings m1 = 2) by exact H2.
  assert (Hs1 : summary_runs 1 m1 = summary_runs 1 m).
  { subst m1. rewrite summary_runs_snapshot, bool_decide_eq_false_2 by lia. reflexivity. }
  assert (Hs2 : summary_runs 2 m1 = runs m).
  { subst m1. rewrite summary_runs_snapshot, bool_decide_eq_true_2 by assumption.
    reflexivity. }
  assert (Hd1 : gui_dialogs m1 = gui_dialogs m) by reflexivity.
  assert (Ha1 : gui_askyesno m1 = gui_askyesno m) by reflexivity.
  assert (He1 : follow_on_enforced m1 = false)
    by (apply (inv_before m HI); lia).
  assert (Ht1 : follow_on_threshold m1 = 200) by exact (inv_threshold m HI).
  clearbody m1. rewrite Hi1. cbn [Z.eqb Z.leb Z.compare Pos.eqb Pos.compare
    Pos.compare_cont andb].
  destruct (next_innings_rest (offer_follow_on_if_available m1))
    as (Ns & Ni & _ & _ & Ne & Nd & _).
  unfold summary_runs in *. rewrite Ns, Ni, Ne, Nd. clear Ns Ni Ne Nd.
  unfold offer_follow_on_if_available, summary_runs. rewrite Hi1, Ht1. cbn [Z.eqb Pos.eqb negb].
  rewrite Hs1, Hs2.
  destruct (200 <=? _).
  - unfold askyesno. cbn. rewrite Hi1, Hd1, Ha1, Hs1, Hs2. repeat split.
  - rewrite Hi1, Hd1, He1, Hs1, Hs2, app_nil_r. repeat split.
Qed.

(** C6.  In every reachable match the follow-on threshold is 200 and the
    follow-on question has been put once if the third innings has begun and
    the side that batted first led by at least 200 on first innings, and
    never otherwise; the follow-on is enforced only if it was offered.  Team
    one bats in the first innings and team two in the second; the third is
    batted by team two, the side of the second innings, when the follow-on
    is enforced and by team one otherwise, and the fourth by the other side.
    The question is put at the moment the second innings closes: closing it
    appends the question to the dialogs exactly when the lead is at least
    200, the answer decides whether the follow-on is enforced, and the third
    innings begins. *)
Theorem follow_on_offered_once_after_second_innings (m : Match) :
  reachable m ->
  follow_on_threshold m = 200
  /\ asks (gui_dialogs m)
     = (if (3 <=? innings m) && (200 <=? summary_runs 1 m - summary_runs 2 m)
        then 1%nat else 0%nat)
  /\ (follow_on_enforced m = true ->
      3 <= innings m /\ 200 <= summary_runs 1 m - summary_runs 2 m)
  /\ innings_batting_team m !! 1 = Some 1
  /\ (2 <= innings m -> innings_batting_team m !! 2 = Some 2)
  /\ (3 <= innings m ->
      innings_batting_team m !! 3 = Some (if follow_on_enforced m then 2 else 1))
  /\ (4 <= innings m ->
      innings_batting_team m !! 4 = Some (if follow_on_enforced m then 1 else 2))
  /\ forall force,
       innings m = 2 ->
       negb force && negb (innings_declared m) && (wickets_taken m <? 10) = false ->
       innings (end_innings force m) = 3
       /\ gui_dialogs (end_innings force m)
          = gui_dialogs m
            ++ (if 200 <=? summary_runs 1 m - runs m
                then [AskYesNo "Follow-on Available" (summary_runs 1 m - runs m)] else [])
       /\ follow_on_enforced (end_innings force m)
          = (200 <=? summary_runs 1 m - runs m) && hd false (gui_askyesno m)
       /\ summary_runs 1 (end_innings force m) = summary_runs 1 m
       /\ summary_runs 2 (end_innings force m) = runs m.
Proof.
  intros Hr. pose proof (reachable_inv m Hr) as HI.
  assert (Hasks : asks (gui_dialogs m)
     = (if (3 <=? innings m) && (200 <=? summary_runs 1 m - summary_runs 2 m)
        then 1%nat else 0%nat)).
  { destruct (3 <=? innings m) eqn:E3; cbn [andb].
    - apply (inv_offered m HI). apply Z.leb_le. exact E3.
    - apply (inv_before m HI). apply Z.leb_gt in E3. lia. }
  split; [exact (inv_threshold m HI)|].
  split; [exact Hasks|].
  split.
  { intros He. pose proof (inv_enforced m HI He) as H1. rewrite Hasks in H1.
    destruct (3 <=? innings m) eqn:E3; [|discriminate H1].
    destruct (200 <=? _) eqn:E2; [|discriminate H1].
    split; apply Z.leb_le; assumption. }
  split; [exact (inv_side1 m HI)|].
  split; [exact (inv_side2 m HI)|].
  split; [exact (inv_side3 m HI)|].
  split; [exact (inv_side4 m HI)|].
  intros force. apply end_innings_second. exact HI.
Qed.

Lemma lions_declared_at_264_reachable : reachable lions_declared_at_264.
Proof.
  unfold lions_declared_at_264. apply reach_declare, reach_answers.
  apply (bowl_overs_reachable 7
           ["Tate"; "Ure"; "Tate"; "Ure"; "Shaw"; "Rudd"; "Shaw"; "Rudd"; "Tate"]
           (sample_match (0%nat :: replicate 300 1%nat)));
    [apply sample_match_reachable|].
  apply (default_eq (sample_match [])). vm_compute. reflexivity.
Qed.

Lemma follow_on_offered_once_after_second_innings_witness :
  reachable lions_declared_at_264
  /\ innings lions_declared_at_264 = 2
  /\ gui_dialogs (end_innings false lions_declared_at_264)
     = [AskYesNo "Follow-on Available" 264]
  /\ follow_on_enforced (end_innings false lions_declared_at_264) = true.
Proof.
  pose proof (follow_on_offered_once_after_second_innings lions_declared_at_264
                lions_declared_at_264_reachable) as (_ & _ & _ & _ & _ & _ & _ & H).
  specialize (H false ltac:(vm_compute; reflexivity) ltac:(vm_compute; reflexivity)).
  destruct H as (_ & Hd & He & _).
  split; [exact lions_declared_at_264_reachable|].
  split; [vm_compute; reflexivity|].
  split; [rewrite Hd | rewrite He]; vm_compute; reflexivity.
Defined.
